(** * Necto observation builder (training/obs.py): a shallow embedding

    The program is numpy code over float arrays.  Arrays are modelled as a
    shape together with an index function, scalars as rationals ([Q]), a
    raised exception as [None].  Slices, strides and broadcasts then are the
    index arithmetic numpy performs, and an in-place assignment is an
    override of the index function. *)

From Stdlib Require Import List ZArith QArith Bool Lia Arith QNsatz.
Import ListNotations.

Open Scope nat_scope.

(** ** Exceptions *)

Definition bind {A B : Type} (m : option A) (k : A -> option B) : option B :=
  match m with
  | Some a => k a
  | None => None
  end.

Notation "x <- m ;; k" := (bind m (fun x => k))
  (at level 61, m at next level, right associativity).

Definition guard (b : bool) : option unit := if b then Some tt else None.

(** ** Scalars *)

Definition Qltb (x y : Q) : bool := negb (Qle_bool y x).

(** Python's [max(0, x)]. *)
Definition max0 (x : Q) : Q := if Qltb 0 x then x else 0%Q.

(** ** Arrays *)

Record arr1 := mk1 { len : nat; at1 : nat -> Q }.
Record arr2 := mk2 { rows : nat; cols : nat; at2 : nat -> nat -> Q }.
Record arr3 := mk3 { dim0 : nat; dim1 : nat; dim2 : nat; at3 : nat -> nat -> nat -> Q }.

Definition of_list (l : list Q) : arr1 :=
  {| len := length l; at1 := fun i => nth i l 0%Q |}.

Definition of_rows (w : nat) (l : list (list Q)) : arr2 :=
  {| rows := length l; cols := w; at2 := fun i j => nth j (nth i l []) 0%Q |}.

Definition tab {A : Type} (n : nat) (f : nat -> A) : list A := map f (seq 0 n).

Definition to_list (a : arr1) : list Q := tab (len a) (at1 a).
Definition to_rows (a : arr2) : list (list Q) :=
  tab (rows a) (fun i => tab (cols a) (at2 a i)).
Definition to_rows3 (a : arr3) : list (list (list Q)) :=
  tab (dim0 a) (fun i => tab (dim1 a) (fun j => tab (dim2 a) (at3 a i j))).

(** [a[lo:hi]] on one axis of length [n]: the length of the slice. *)
Definition slice_len (lo hi n : nat) : nat := Nat.min hi n - lo.

(** [a[start::step]] on one axis of length [n]: the number of elements. *)
Definition stride_len (start step n : nat) : nat :=
  if n <=? start then 0 else (n - start + step - 1) / step.

(** [a[:, lo:hi]] *)
Definition cols_slice (a : arr2) (lo hi : nat) : arr2 :=
  {| rows := rows a; cols := slice_len lo hi (cols a);
     at2 := fun i j => at2 a i (lo + j) |}.

(** [a[:, start::step]] *)
Definition cols_stride (a : arr2) (start step : nat) : arr2 :=
  {| rows := rows a; cols := stride_len start step (cols a);
     at2 := fun i j => at2 a i (start + j * step) |}.

(** [a[i, start::step]] *)
Definition row_stride (a : arr2) (i start step : nat) : arr1 :=
  {| len := stride_len start step (cols a);
     at1 := fun j => at2 a i (start + j * step) |}.

(** Assignment of a source axis of length [m] to a target axis of length
    [k]: numpy accepts equal lengths and stretches a length of one. *)
Definition broadcastable (m k : nat) : bool := (m =? k) || (m =? 1).
Definition bidx (m j : nat) : nat := if m =? 1 then 0 else j.

(** [for i in range(lo, lo + n): s = body(i, s)], stopping at the first
    exception. *)
Fixpoint for_range {St : Type} (lo n : nat) (body : nat -> St -> option St) (s : St)
  : option St :=
  match n with
  | 0 => Some s
  | S n' => s' <- body lo s ;; for_range (S lo) n' body s'
  end.

(** ** Reads that numba compiles without a bounds check

    [_update_timers] is compiled by [njit], which by default emits no bounds
    checks: a read outside the array returns whatever the memory holds.  An
    [oracle] says what such a read yields: [None] when it faults (an
    [IndexError] under bounds checking), [Some v] when it reads the stray
    value [v]. *)

Inductive array_id := BoostStates | DemoStates | BoostLocations.

Definition oracle := array_id -> nat -> nat -> option Q.

Definition checked : oracle := fun _ _ _ => None.
Definition unchecked (mem : array_id -> nat -> nat -> Q) : oracle :=
  fun a i b => Some (mem a i b).

Definition in_bounds (a : arr2) (i b : nat) : bool := (i <? rows a) && (b <? cols a).

Definition read2 (oob : oracle) (id : array_id) (a : arr2) (i b : nat) : option Q :=
  if in_bounds a i b then Some (at2 a i b) else oob id i b.

Definition set2 (a : nat -> nat -> Q) (i b : nat) (v : Q) : nat -> nat -> Q :=
  fun i' b' => if (i' =? i) && (b' =? b) then v else a i' b'.

(** ** NectoObsBuilder._update_timers *)

Section UpdateTimers.

Variable oob : oracle.
Variable self_boost_locations : arr2.
Variable self_tick_skip : Q.

(** Body of the pad loop: lines 282-288. *)
Definition boost_body (boost_states : arr2) (i b : nat) (boost_timers : nat -> nat -> Q)
  : option (nat -> nat -> Q) :=
  s <- read2 oob BoostStates boost_states i b ;;
  if Qeq_bool s 0 then
    z <- read2 oob BoostLocations self_boost_locations b 2 ;;
    if Qltb 72 z then Some (set2 boost_timers i b 10%Q)
    else Some (set2 boost_timers i b 4%Q)
  else if (0 <=? Z.of_nat i - 1)%Z && Qltb 0 (boost_timers (i - 1) b) then
    Some (set2 boost_timers i b
            (max0 (boost_timers (i - 1)%nat b - self_tick_skip / 120)%Q))
  else Some boost_timers.

(** Body of the player loop: lines 295-298. *)
Definition demo_body (demo_states : arr2) (i b : nat) (demo_timers : nat -> nat -> Q)
  : option (nat -> nat -> Q) :=
  s <- read2 oob DemoStates demo_states i b ;;
  if Qeq_bool s 1 then Some (set2 demo_timers i b 3%Q)
  else if (0 <=? Z.of_nat i - 1)%Z && Qltb 0 (demo_timers (i - 1) b) then
    Some (set2 demo_timers i b
            (max0 (demo_timers (i - 1)%nat b - self_tick_skip / 120)%Q))
  else Some demo_timers.

(** [timers = np.zeros((states.shape[0] + 1, states.shape[1]));
    timers[0, :] = carried], then the two nested loops over
    [range(1, timers.shape[0])] and [range(timers.shape[1])], and
    [timers[1:]]. *)
Definition run_timers (body : arr2 -> nat -> nat -> (nat -> nat -> Q) -> option (nat -> nat -> Q))
           (carried : arr1) (states : arr2) : option arr2 :=
  _ <- guard (broadcastable (len carried) (cols states)) ;;
  let shape0 := rows states + 1 in
  let shape1 := cols states in
  let timers0 : nat -> nat -> Q :=
    fun i b => if i =? 0 then at1 carried (bidx (len carried) b) else 0%Q in
  timers <- for_range 1 (shape0 - 1)
              (fun i t => for_range 0 shape1 (fun b t' => body states i b t') t)
              timers0 ;;
  Some {| rows := shape0 - 1; cols := shape1;
          at2 := fun i b => timers (1 + i) b |}.

Definition _update_timers (self_boost_timers self_demo_timers : arr1)
           (boost_states demo_states : arr2) : option (arr2 * arr2) :=
  boost_timers <- run_timers boost_body self_boost_timers boost_states ;;
  demo_timers <- run_timers demo_body self_demo_timers demo_states ;;
  Some (boost_timers, demo_timers).

End UpdateTimers.

(** ** The record layout and numpy's functions

    The offsets of rlgym's [GameState] and rocket_learn's [StateConstants]
    ([SC]), rlgym's [BOOST_LOCATIONS] table and numpy's transcendental
    functions are not part of the repository: the builder is modelled over
    any values of them. *)

Record StateLayout := {
  GS_BOOST_PADS_LENGTH : nat;
  GS_BALL_STATE_LENGTH : nat;
  GS_PLAYER_INFO_LENGTH : nat;
  SC_CAR_POS_X : nat;
  SC_CAR_POS_Z : nat;
  SC_CAR_QUAT_W : nat;
  SC_CAR_QUAT_Z : nat;
  SC_CAR_LINEAR_VEL_X : nat;
  SC_CAR_LINEAR_VEL_Z : nat;
  SC_CAR_ANGULAR_VEL_X : nat;
  SC_CAR_ANGULAR_VEL_Z : nat;
  SC_BOOST_AMOUNT : nat;
  SC_ON_GROUND : nat;
  SC_HAS_FLIP : nat;
  SC_HAS_JUMP : nat
}.

Record NumpyMath := {
  np_cos : Q -> Q;
  np_sin : Q -> Q;
  np_sqrt : Q -> Q;
  np_arctan2 : Q -> Q -> Q
}.

(** ** Channels of a Key-Value row (lines 133-140) *)

Definition IS_SELF := 0.
Definition IS_MATE := 1.
Definition IS_OPP := 2.
Definition IS_BALL := 3.
Definition IS_BOOST := 4.
(** [POS = slice(5, 8)] and so on: a slice is its start and its stop. *)
Definition POS := (5, 8).
Definition LIN_VEL := (8, 11).
Definition FW := (11, 14).
Definition UP := (14, 17).
Definition ANG_VEL := (17, 20).
Definition BOOST := 20.
Definition DEMO := 21.
Definition ON_GROUND := 22.
Definition HAS_FLIP := 23.
Definition HAS_JUMP := 24.
(** [ACTIONS = range(25, 33)] *)
Definition ACTIONS := (25, 33).

Definition start (s : nat * nat) : nat := fst s.
Definition stop (s : nat * nat) : nat := snd s.
Definition in_slice (s : nat * nat) (c : nat) : bool := (start s <=? c) && (c <? stop s).

(** [np.r_[POS, LIN_VEL, ANG_VEL]] *)
Definition r_ (slices : list (nat * nat)) : list nat :=
  flat_map (fun s => seq (start s) (stop s - start s)) slices.

Fixpoint index_of (c : nat) (l : list nat) : option nat :=
  match l with
  | [] => None
  | x :: l' => if x =? c then Some 0 else option_map S (index_of c l')
  end.

Definition arr4 := nat -> nat -> nat -> nat -> Q.

(** [a[sel] = rhs] where [sel] picks the cells and [rhs] gives the value
    assigned at each. *)
Definition assign (a : arr4) (sel : nat -> nat -> nat -> nat -> bool) (rhs : arr4) : arr4 :=
  fun p t e c => if sel p t e c then rhs p t e c else a p t e c.

(** ** Class attributes of NectoObsBuilder (lines 149-150) *)

Definition _invert : list Q :=
  (repeat 1 5 ++ concat (repeat [-1; -1; 1] 5) ++ repeat 1 5 ++ repeat 1 30)%Q.

Definition _norm : list Q :=
  (repeat 1 5 ++ repeat 2300 6 ++ repeat 1 6 ++ repeat (55 # 10) 3
     ++ [1; 10; 1; 1; 1] ++ repeat 1 30)%Q.

(** ** NectoObsBuilder._quats_to_rot_mtx *)

(** Boolean-mask indexing [a[sel]] on an axis of length [n]: the selected
    positions in order, and the place of a selected position among them. *)
Definition mask_idx (n : nat) (sel : nat -> bool) : list nat := filter sel (seq 0 n).
Definition rank (sel : nat -> bool) (f : nat) : nat := length (filter sel (seq 0 f)).
Definition compress (n : nat) (sel : nat -> bool) (a : nat -> Q) : arr1 :=
  {| len := length (mask_idx n sel); at1 := fun k => a (nth k (mask_idx n sel) 0) |}.

(** [theta[sel, a, b] = vals] *)
Definition mask_set (theta : nat -> nat -> nat -> Q) (sel : nat -> bool) (a b : nat)
           (vals : nat -> Q) : nat -> nat -> nat -> Q :=
  fun f a' b' => if sel f && (a' =? a) && (b' =? b) then vals (rank sel f) else theta f a' b'.

Fixpoint sum_upto (n : nat) (f : nat -> Q) : Q :=
  match n with
  | 0 => 0%Q
  | S n' => (sum_upto n' f + f n')%Q
  end.

(** [np.einsum("fq,fq->f", quats, quats)].  The sum is exact here; in
    float64 the squares round, underflow to zero and overflow to infinity,
    so the development uses the norm only through the test [norm != 0] and
    the quotient [1 / norm], and states no identity between the entries of
    the matrix. *)
Definition quat_norm (quats : arr2) (f : nat) : Q :=
  sum_upto (cols quats) (fun q => (at2 quats f q * at2 quats f q)%Q).

(** [sel = norm != 0], on the rows the array has. *)
Definition quat_sel (quats : arr2) (f : nat) : bool :=
  (f <? rows quats) && negb (Qeq_bool (quat_norm quats f) 0).

(** [norm[sel]]: the numbers [1.0] is divided by on line 194. *)
Definition divisors (quats : arr2) : arr1 :=
  compress (rows quats) (quat_sel quats) (quat_norm quats).

Definition _quats_to_rot_mtx (quats : arr2) : option arr3 :=
  _ <- guard (3 <? cols quats) ;;
  let w0 f := (- at2 quats f 0)%Q in
  let x0 f := (- at2 quats f 1)%Q in
  let y0 f := (- at2 quats f 2)%Q in
  let z0 f := (- at2 quats f 3)%Q in
  let theta0 : nat -> nat -> nat -> Q := fun _ _ _ => 0%Q in
  let sel := quat_sel quats in
  let w := at1 (compress (rows quats) sel w0) in
  let x := at1 (compress (rows quats) sel x0) in
  let y := at1 (compress (rows quats) sel y0) in
  let z := at1 (compress (rows quats) sel z0) in
  let s k := (1 / at1 (divisors quats) k)%Q in
  (* front direction *)
  let theta1 := mask_set theta0 sel 0 0 (fun k => 1 - 2 * s k * (y k * y k + z k * z k))%Q in
  let theta2 := mask_set theta1 sel 1 0 (fun k => 2 * s k * (x k * y k + z k * w k))%Q in
  let theta3 := mask_set theta2 sel 2 0 (fun k => 2 * s k * (x k * z k - y k * w k))%Q in
  (* left direction *)
  let theta4 := mask_set theta3 sel 0 1 (fun k => 2 * s k * (x k * y k - z k * w k))%Q in
  let theta5 := mask_set theta4 sel 1 1 (fun k => 1 - 2 * s k * (x k * x k + z k * z k))%Q in
  let theta6 := mask_set theta5 sel 2 1 (fun k => 2 * s k * (y k * z k + x k * w k))%Q in
  (* up direction *)
  let theta7 := mask_set theta6 sel 0 2 (fun k => 2 * s k * (x k * z k + y k * w k))%Q in
  let theta8 := mask_set theta7 sel 1 2 (fun k => 2 * s k * (y k * z k - x k * w k))%Q in
  let theta9 := mask_set theta8 sel 2 2 (fun k => 1 - 2 * s k * (x k * x k + y k * y k))%Q in
  Some {| dim0 := rows quats; dim1 := 3; dim2 := 3; at3 := theta9 |}.

(** ** NectoObsBuilder.add_relative_components

    [vals] is a view of [kv]: the in-place subtraction on line 253 writes
    through it into [kv]. *)

Section Relative.

Variable M : NumpyMath.

Definition add_relative_components (q kv : arr4) : arr4 :=
  let forward p t k := q p t 0 (start FW + k) in
  let up p t k := q p t 0 (start UP + k) in
  (* left = np.cross(up, forward) *)
  let left p t k :=
    match k with
    | 0 => (up p t 1%nat * forward p t 2%nat - up p t 2%nat * forward p t 1%nat)%Q
    | 1 => (up p t 2%nat * forward p t 0%nat - up p t 0%nat * forward p t 2%nat)%Q
    | _ => (up p t 0%nat * forward p t 1%nat - up p t 1%nat * forward p t 0%nat)%Q
    end in
  let pitch p t :=
    np_arctan2 M (forward p t 2%nat)
      (np_sqrt M (forward p t 0%nat * forward p t 0%nat + forward p t 1%nat * forward p t 1%nat)%Q) in
  let yaw p t := np_arctan2 M (forward p t 1) (forward p t 0) in
  let roll p t := np_arctan2 M (left p t 2) (up p t 2) in
  let cr p t := np_cos M (roll p t) in
  let sr p t := np_sin M (roll p t) in
  let cp p t := np_cos M (pitch p t) in
  let sp p t := np_sin M (pitch p t) in
  let cy p t := np_cos M (yaw p t) in
  let sy p t := np_sin M (yaw p t) in
  (* vals = kv[..., POS.start:ANG_VEL.stop];
     vals[..., POS.start:LIN_VEL.stop] -= q[..., POS.start:LIN_VEL.stop] *)
  let vals p t e j :=
    if (start POS <=? j) && (j <? stop LIN_VEL)
    then (kv p t e (start POS + j)%nat - q p t 0%nat j)%Q
    else kv p t e (start POS + j) in
  let xs p t e k := vals p t e (0 + 3 * k) in
  let ys p t e k := vals p t e (1 + 3 * k) in
  let zs p t e k := vals p t e (2 + 3 * k) in
  (* Rotation matrix with only yaw *)
  let flip_relative_xs p t e k := (cy p t * xs p t e k - sy p t * ys p t e k)%Q in
  let flip_relative_ys p t e k := (sy p t * xs p t e k + cy p t * ys p t e k)%Q in
  let flip_relative_zs p t e k := zs p t e k in
  (* Now full rotation matrix *)
  let car_relative_xs p t e k :=
    (cp p t * cy p t * xs p t e k
     + (sr p t * sp p t * cy p t - cr p t * sy p t) * ys p t e k
     - (cr p t * sp p t * cy p t + sr p t * sy p t) * zs p t e k)%Q in
  let car_relative_ys p t e k :=
    (cp p t * sy p t * xs p t e k
     + (sr p t * sp p t * sy p t + cr p t * cy p t) * ys p t e k
     - (cr p t * sp p t * sy p t - sr p t * cy p t) * zs p t e k)%Q in
  let car_relative_zs p t e k :=
    (sp p t * xs p t e k - cp p t * sr p t * ys p t e k + cp p t * cr p t * zs p t e k)%Q in
  (* np.concatenate(..., axis=-1): six blocks of five *)
  let all_rows p t e c :=
    match c / 5 with
    | 0 => flip_relative_xs p t e (c mod 5)
    | 1 => flip_relative_ys p t e (c mod 5)
    | 2 => flip_relative_zs p t e (c mod 5)
    | 3 => car_relative_xs p t e (c mod 5)
    | 4 => car_relative_ys p t e (c mod 5)
    | _ => car_relative_zs p t e (c mod 5)
    end in
  fun p t e c =>
    if start ACTIONS <=? c then all_rows p t e (c - start ACTIONS)
    else if (start POS <=? c) && (c <? stop ANG_VEL) then vals p t e (c - start POS)
    else kv p t e c.

End Relative.

(** ** NectoObsBuilder.batched_build_obs *)

(** The instance attributes the builder reads; the timers are [None] until
    [_reset] has run. *)
Record Builder := {
  self_n_players : option nat;
  self_tick_skip : Q;
  self_boost_timers : option arr1;
  self_demo_timers : option arr1
}.

(** One observed player's [(q[i], kv[i], m[i])]. *)
Record Obs := { obs_q : arr3; obs_kv : arr3; obs_m : arr2 }.

Section BatchedBuilder.

Variable L : StateLayout.
Variable M : NumpyMath.
Variable _boost_locations : arr2.
Variable oob : oracle.

Definition ball_start_index : nat := 3 + GS_BOOST_PADS_LENGTH L.
Definition players_start_index : nat := ball_start_index + GS_BALL_STATE_LENGTH L.
Definition player_length : nat := GS_PLAYER_INFO_LENGTH L.

(** [encoded_states[:, players_start_index + i * player_length:
                       players_start_index + (i + 1) * player_length]] *)
Definition encoded_player_of (encoded_states : arr2) (i : nat) : arr2 :=
  cols_slice encoded_states (players_start_index + i * player_length)
             (players_start_index + (i + 1) * player_length).

(** [kv[:, :, i, chans] = src] for a [(ticks, k)] array [src]. *)
Definition assign_row_slice (kv : arr4) (i : nat) (chans : nat * nat) (src : arr2)
  : option arr4 :=
  _ <- guard (broadcastable (cols src) (stop chans - start chans)) ;;
  Some (assign kv (fun _ _ e c => (e =? i) && in_slice chans c)
               (fun _ t _ c => at2 src t (bidx (cols src) (c - start chans)))).

(** [kv[:, :, i, chan] = src[:, col]] *)
Definition assign_row_col (kv : arr4) (i chan : nat) (src : arr2) (col : nat)
  : option arr4 :=
  _ <- guard (col <? cols src) ;;
  Some (assign kv (fun _ _ e c => (e =? i) && (c =? chan)) (fun _ t _ _ => at2 src t col)).

(** Body of the loop over players: lines 346-361. *)
Definition player_body (encoded_states demo_timers : arr2) (n_entities : nat)
           (i : nat) (kv : arr4) : option arr4 :=
  let encoded_player := encoded_player_of encoded_states i in
  _ <- guard (i <? n_entities) ;;
  let kv := assign kv (fun p _ e c => (p =? i) && (e =? i) && (c =? IS_SELF))
                   (fun _ _ _ _ => 1%Q) in
  kv <- assign_row_slice kv i POS
          (cols_slice encoded_player (SC_CAR_POS_X L) (SC_CAR_POS_Z L + 1)) ;;
  kv <- assign_row_slice kv i LIN_VEL
          (cols_slice encoded_player (SC_CAR_LINEAR_VEL_X L) (SC_CAR_LINEAR_VEL_Z L + 1)) ;;
  let quats := cols_slice encoded_player (SC_CAR_QUAT_W L) (SC_CAR_QUAT_Z L + 1) in
  rot_mtx <- _quats_to_rot_mtx quats ;;
  let kv := assign kv (fun _ _ e c => (e =? i) && in_slice FW c)
                   (fun _ t _ c => at3 rot_mtx t (c - start FW) 0) in
  let kv := assign kv (fun _ _ e c => (e =? i) && in_slice UP c)
                   (fun _ t _ c => at3 rot_mtx t (c - start UP) 2) in
  kv <- assign_row_slice kv i ANG_VEL
          (cols_slice encoded_player (SC_CAR_ANGULAR_VEL_X L) (SC_CAR_ANGULAR_VEL_Z L + 1)) ;;
  kv <- assign_row_col kv i BOOST encoded_player (SC_BOOST_AMOUNT L) ;;
  kv <- assign_row_col kv i DEMO demo_timers i ;;
  kv <- assign_row_col kv i ON_GROUND encoded_player (SC_ON_GROUND L) ;;
  kv <- assign_row_col kv i HAS_FLIP encoded_player (SC_HAS_FLIP L) ;;
  assign_row_col kv i HAS_JUMP encoded_player (SC_HAS_JUMP L).

(** [kv[teams == 1] *= self._invert] *)
Definition invert_values (on : nat -> bool) (kv : arr4) : arr4 :=
  assign kv (fun p _ _ _ => on p) (fun p t e c => (kv p t e c * nth c _invert 1)%Q).

(** [kv[np.argwhere(teams == 1), ..., (IS_MATE, IS_OPP)] =
     kv[np.argwhere(teams == 1), ..., (IS_OPP, IS_MATE)]]: the right-hand
    side is a copy, so both channels are read before either is written. *)
Definition swap_teams (on : nat -> bool) (kv : arr4) : arr4 :=
  assign kv (fun p _ _ c => on p && ((c =? IS_MATE) || (c =? IS_OPP)))
         (fun p t e c => if c =? IS_MATE then kv p t e IS_OPP else kv p t e IS_MATE).

(** The Team Normalizer: lines 363-365. *)
Definition team_invert (on : nat -> bool) (kv : arr4) : arr4 :=
  swap_teams on (invert_values on kv).

(** [teams = encoded_states[0, players_start_index + 1::player_length]] *)
Definition teams_of (encoded_states : arr2) : arr1 :=
  row_stride encoded_states 0 (players_start_index + 1) player_length.

(** BALL, BOOSTS and the team channels of the player rows: lines 329-344. *)
Definition shared_rows (encoded_states boost_timers : arr2) (n_players lim_players : nat)
           (kv : arr4) : option arr4 :=
  let n_entities := lim_players + 1 + 34 in
  (* SELECTORS *)
  let sel_ball := lim_players in
  let sel_boosts e := sel_ball + 1 <=? e in
  (* BALL *)
  let kv := assign kv (fun _ _ e c => (e =? sel_ball) && (c =? 3)) (fun _ _ _ _ => 1%Q) in
  let ball := cols_slice encoded_states ball_start_index (ball_start_index + 9) in
  let ball_chans := r_ [POS; LIN_VEL; ANG_VEL] in
  _ <- guard (broadcastable (cols ball) (length ball_chans)) ;;
  let kv := assign kv
              (fun _ _ e c => (e =? sel_ball) &&
                              match index_of c ball_chans with Some _ => true | None => false end)
              (fun _ t _ c => match index_of c ball_chans with
                              | Some j => at2 ball t (bidx (cols ball) j)
                              | None => 0%Q
                              end) in
  (* BOOSTS *)
  let kv := assign kv (fun _ _ e c => sel_boosts e && (c =? IS_BOOST)) (fun _ _ _ _ => 1%Q) in
  _ <- guard (broadcastable (rows _boost_locations) (n_entities - (sel_ball + 1))
              && broadcastable (cols _boost_locations) (stop POS - start POS)) ;;
  let kv := assign kv (fun _ _ e c => sel_boosts e && in_slice POS c)
              (fun _ _ e c => at2 _boost_locations
                                  (bidx (rows _boost_locations) (e - (sel_ball + 1)))
                                  (bidx (cols _boost_locations) (c - start POS))) in
  let kv := assign kv (fun _ _ e c => sel_boosts e && (c =? BOOST)) (fun _ _ _ _ => 1%Q) in
  _ <- guard (broadcastable (cols boost_timers) (n_entities - (sel_ball + 1))) ;;
  let kv := assign kv (fun _ _ e c => sel_boosts e && (c =? DEMO))
              (fun _ t e _ => at2 boost_timers t
                                  (bidx (cols boost_timers) (e - (sel_ball + 1)))) in
  (* PLAYERS *)
  let teams := teams_of encoded_states in
  _ <- guard (broadcastable (len teams) (Nat.min n_players n_entities)) ;;
  let kv := assign kv (fun _ _ e c => (e <? n_players) && (c =? IS_MATE))
              (fun _ _ e _ => (1 - at1 teams (bidx (len teams) e))%Q) in
  let kv := assign kv (fun _ _ e c => (e <? n_players) && (c =? IS_OPP))
              (fun _ _ e _ => at1 teams (bidx (len teams) e)) in
  Some kv.

(** [teams == 1] *)
Definition orange (teams : arr1) (p : nat) : bool := Qeq_bool (at1 teams p) 1.

(** [kv /= self._norm] *)
Definition normalize (kv : arr4) : arr4 :=
  fun p t e c => (kv p t e c / nth c _norm 1)%Q.

(** [for i in range(n_players): q[i, :, 0, :HAS_JUMP + 1] = kv[i, :, i, :HAS_JUMP + 1]] *)
Definition fill_query (n_players : nat) (q kv : arr4) : arr4 :=
  assign q (fun p _ r c => (p <? n_players) && (r =? 0) && (c <? HAS_JUMP + 1))
         (fun p t _ c => kv p t p c).

(** Team inversion, normalisation, the query rows, the relative frames,
    the mask and the returned list: lines 363-379. *)
Definition finish_obs (teams : arr1) (ticks n_players lim_players : nat)
           (q kv : arr4) (m : nat -> nat -> nat -> Q) : list Obs :=
  let n_entities := lim_players + 1 + 34 in
  let kv := team_invert (orange teams) kv in
  let kv := normalize kv in
  let q := fill_query n_players q kv in
  let kv := add_relative_components M q kv in
  (* MASK *)
  let m : nat -> nat -> nat -> Q :=
    fun p t e => if (n_players <=? e) && (e <? lim_players) then 1%Q else m p t e in
  tab n_players (fun i =>
    {| obs_q := {| dim0 := ticks; dim1 := 1; dim2 := 33; at3 := q i |};
       obs_kv := {| dim0 := ticks; dim1 := n_entities; dim2 := 25 + 30; at3 := kv i |};
       obs_m := {| rows := ticks; cols := n_entities; at2 := m i |} |}).

Definition batched_build_obs (self : Builder) (encoded_states : arr2)
  : option (Builder * list Obs) :=
  _ <- guard (negb (player_length =? 0)) ;;
  let n_players_z :=
    ((Z.of_nat (cols encoded_states) - Z.of_nat players_start_index)
       / Z.of_nat player_length)%Z in
  let lim_players_z :=
    match self_n_players self with
    | None => n_players_z
    | Some k => Z.of_nat k
    end in
  carried_boost <- self_boost_timers self ;;
  carried_demo <- self_demo_timers self ;;
  timers <- _update_timers oob _boost_locations (self_tick_skip self)
              carried_boost carried_demo
              (cols_slice encoded_states 3 (3 + 34))
              (cols_stride encoded_states (players_start_index + 33) player_length) ;;
  let boost_timers := fst timers in
  let demo_timers := snd timers in
  (* boost_timers[-1, :] and demo_timers[-1, :] *)
  _ <- guard ((0 <? rows boost_timers) && (0 <? rows demo_timers)) ;;
  let self' :=
    {| self_n_players := self_n_players self;
       self_tick_skip := self_tick_skip self;
       self_boost_timers :=
         Some {| len := cols boost_timers;
                 at1 := at2 boost_timers (rows boost_timers - 1) |};
       self_demo_timers :=
         Some {| len := cols demo_timers;
                 at1 := at2 demo_timers (rows demo_timers - 1) |} |} in
  (* MAIN ARRAYS: np.zeros refuses a negative dimension *)
  _ <- guard (0 <=? n_players_z)%Z ;;
  let n_players := Z.to_nat n_players_z in
  let lim_players := Z.to_nat lim_players_z in
  let n_entities := lim_players + 1 + 34 in
  let q : arr4 := fun _ _ _ _ => 0%Q in
  let kv : arr4 := fun _ _ _ _ => 0%Q in
  let m : nat -> nat -> nat -> Q := fun _ _ _ => 0%Q in
  kv <- shared_rows encoded_states boost_timers n_players lim_players kv ;;
  kv <- for_range 0 n_players (player_body encoded_states demo_timers n_entities) kv ;;
  (* a boolean index must be as long as the axis it indexes *)
  let teams := teams_of encoded_states in
  _ <- guard (len teams =? n_players) ;;
  Some (self', finish_obs teams (rows encoded_states) n_players lim_players q kv m).

End BatchedBuilder.

(** ** A concrete environment to run the model in

    The values rlgym 1.x and rocket_learn give the layout constants and the
    pad table, and the values numpy's functions take on a car whose basis is
    the identity (all three angles zero). *)

Definition rlgym_layout : StateLayout := {|
  GS_BOOST_PADS_LENGTH := 34;
  GS_BALL_STATE_LENGTH := 18;
  GS_PLAYER_INFO_LENGTH := 39;
  SC_CAR_POS_X := 2;
  SC_CAR_POS_Z := 4;
  SC_CAR_QUAT_W := 5;
  SC_CAR_QUAT_Z := 8;
  SC_CAR_LINEAR_VEL_X := 9;
  SC_CAR_LINEAR_VEL_Z := 11;
  SC_CAR_ANGULAR_VEL_X := 12;
  SC_CAR_ANGULAR_VEL_Z := 14;
  SC_BOOST_AMOUNT := 38;
  SC_ON_GROUND := 34;
  SC_HAS_FLIP := 37;
  SC_HAS_JUMP := 36
|}.

Definition BOOST_LOCATIONS : arr2 := of_rows 3 [
  [0; -4240; 70]; [-1792; -4184; 70]; [1792; -4184; 70]; [-3072; -4096; 73];
  [3072; -4096; 73]; [-940; -3308; 70]; [940; -3308; 70]; [0; -2816; 70];
  [-3584; -2484; 70]; [3584; -2484; 70]; [-1788; -2300; 70]; [1788; -2300; 70];
  [-2048; -1036; 70]; [0; -1024; 70]; [2048; -1036; 70]; [-3584; 0; 73];
  [-1024; 0; 70]; [1024; 0; 70]; [3584; 0; 73]; [-2048; 1036; 70];
  [0; 1024; 70]; [2048; 1036; 70]; [-1788; 2300; 70]; [1788; 2300; 70];
  [-3584; 2484; 70]; [3584; 2484; 70]; [0; 2816; 70]; [-940; 3310; 70];
  [940; 3308; 70]; [-3072; 4096; 73]; [3072; 4096; 73]; [-1792; 4184; 70];
  [1792; 4184; 70]; [0; 4240; 70] ]%Q.

Definition zero_angle_math : NumpyMath := {|
  np_cos := fun _ => 1%Q;
  np_sin := fun _ => 0%Q;
  np_sqrt := fun x => x;
  np_arctan2 := fun _ _ => 0%Q
|}.

(** One player's block of a record: car id, team, position, quaternion,
    linear and angular velocity, the mirrored car data, five match counters,
    then the demolition, ground, touch, jump and flip flags and the boost
    amount. *)
Definition player_block (team : Q) (pos quat lin_vel ang_vel : list Q)
           (demoed on_ground has_jump has_flip boost : Q) : list Q :=
  [0%Q; team] ++ pos ++ quat ++ lin_vel ++ ang_vel ++ repeat 0%Q 13 ++ repeat 0%Q 5
    ++ [demoed; on_ground; 0%Q; has_jump; has_flip; boost].

(** One tick's record: three header fields, the pad bits, the ball and its
    mirror image, the players. *)
Definition record (pads ball : list Q) (players : list (list Q)) : list Q :=
  repeat 0%Q 3 ++ pads ++ ball ++ repeat 0%Q 9 ++ concat players.

Definition fresh_builder (capacity : option nat) (n : nat) : Builder := {|
  self_n_players := capacity;
  self_tick_skip := 8%Q;
  self_boost_timers := Some (of_list (repeat 0%Q 34));
  self_demo_timers := Some (of_list (repeat 0%Q n))
|}.

Definition obs_lists (o : Obs) : list (list (list Q)) * list (list (list Q)) * list (list Q) :=
  (to_rows3 (obs_q o), to_rows3 (obs_kv o), to_rows (obs_m o)).

(** ** NectoObsOLD: the non-batched encoder (lines 17-130)

    It reads rlgym's [GameState] objects.  A [GameState] defines no [__eq__],
    so [state == self.current_state] compares identities: [ident] stands for
    the object's identity.  [forward] and [up] hold what the methods
    [car_data.forward()] and [car_data.up()] return. *)

Module NectoObsOLD.

Definition vec3 := (Q * Q * Q)%type.
Definition coord (v : vec3) (k : nat) : Q :=
  match k with
  | 0 => fst (fst v)
  | 1 => snd (fst v)
  | _ => snd v
  end.

Record PhysicsObject := {
  position : vec3;
  linear_velocity : vec3;
  angular_velocity : vec3;
  forward : vec3;
  up : vec3
}.

Record PlayerData := {
  team_num : nat;
  car_data : PhysicsObject;
  boost_amount : Q;
  is_demoed : bool;
  on_ground : bool;
  has_flip : bool
}.

Record GameState := {
  ident : nat;
  ball : PhysicsObject;
  players : list PlayerData;
  boost_pads : arr1
}.

Definition BLUE_TEAM := 0.
Definition ORANGE_TEAM := 1.

Definition of_bool (b : bool) : Q := if b then 1%Q else 0%Q.

Definition _invert : list Q :=
  (repeat 1 5 ++ concat (repeat [-1; -1; 1] 5) ++ repeat 1 4)%Q.

Definition _norm : list Q :=
  (repeat 1 5 ++ repeat 2300 6 ++ repeat 1 6 ++ repeat (55 # 10) 3 ++ repeat 1 4)%Q.

(** [qkv[0]], [mask[0]]: the leading axis has length one. *)
Definition plane := nat -> nat -> Q.

Record Builder := {
  n_players : nat;
  tick_skip : Q;
  demo_timers : option arr1;
  boost_timers : option arr1;
  current_state : option nat;
  current_qkv : option (nat * plane);
  current_mask : option (nat * (nat -> Q))
}.

Definition set_row (qkv : plane) (n : nat) (sel : nat -> bool) (rhs : nat -> Q) : plane :=
  fun e c => if (e =? n) && sel c then rhs c else qkv e c.

Section Encoder.

Variable _boost_locations : arr2.

Definition reset (self : Builder) (initial_state : GameState) : Builder :=
  {| n_players := n_players self;
     tick_skip := tick_skip self;
     demo_timers := Some {| len := n_players self; at1 := fun _ => 0%Q |};
     boost_timers := Some {| len := len (boost_pads initial_state); at1 := fun _ => 0%Q |};
     current_state := current_state self;
     current_qkv := current_qkv self;
     current_mask := current_mask self |}.

(** The loop over [state.players]: lines 59-75. *)
Fixpoint add_players (n_rows cap : nat) (ps : list PlayerData) (n : nat)
         (qkv : plane) (demos : nat -> Q) : option (plane * (nat -> Q)) :=
  match ps with
  | [] => Some (qkv, demos)
  | player :: ps' =>
      _ <- guard (n <? n_rows) ;;
      let qkv :=
        if team_num player =? BLUE_TEAM
        then set_row qkv n (fun c => c =? 1) (fun _ => 1%Q)  (* is_teammate *)
        else set_row qkv n (fun c => c =? 2) (fun _ => 1%Q)  (* is_opponent *) in
      let car_data := car_data player in
      let qkv := set_row qkv n (in_slice (5, 8)) (fun c => coord (position car_data) (c - 5)) in
      let qkv := set_row qkv n (in_slice (8, 11))
                   (fun c => coord (linear_velocity car_data) (c - 8)) in
      let qkv := set_row qkv n (in_slice (11, 14)) (fun c => coord (forward car_data) (c - 11)) in
      let qkv := set_row qkv n (in_slice (14, 17)) (fun c => coord (up car_data) (c - 14)) in
      let qkv := set_row qkv n (in_slice (17, 20))
                   (fun c => coord (angular_velocity car_data) (c - 17)) in
      let qkv := set_row qkv n (fun c => c =? 20) (fun _ => boost_amount player) in
      _ <- guard (n - 1 <? cap) ;;
      let demos := fun b => if b =? n - 1 then of_bool (is_demoed player) else demos b in
      let qkv := set_row qkv n (fun c => c =? 22) (fun _ => of_bool (on_ground player)) in
      let qkv := set_row qkv n (fun c => c =? 23) (fun _ => of_bool (has_flip player)) in
      add_players n_rows cap ps' (n + 1) qkv demos
  end.

(** [timers[new] = fresh; timers *= states], the row written to channel
    21, then [timers -= tick_skip / 1200; timers[timers < 0] = 0]. *)
Definition armed (timers states : nat -> Q) (fresh : nat -> Q) : nat -> Q :=
  fun b =>
    let new := Qeq_bool (states b) 1 && Qeq_bool (timers b) 0 in
    ((if new then fresh b else timers b) * states b)%Q.

Definition cooled (tick_skip : Q) (timers : nat -> Q) : nat -> Q :=
  fun b =>
    let v := (timers b - tick_skip / 1200)%Q in
    if Qltb v 0 then 0%Q else v.

(** An exception does not undo the attributes written before it: a call
    ends with the encoder as it left it and, when it returned, with its
    result ([None] when it raised). *)
Definition _maybe_update_obs (self : Builder) (state : GameState) : Builder * option unit :=
  if match current_state self with Some id => id =? ident state | None => false end
  then (self, Some tt)  (* No need to update *)
  else
    let self :=
      match boost_timers self with
      | None => reset self state
      | Some _ =>
          {| n_players := n_players self; tick_skip := tick_skip self;
             demo_timers := demo_timers self; boost_timers := boost_timers self;
             current_state := Some (ident state);
             current_qkv := current_qkv self; current_mask := current_mask self |}
      end in
    let boost_pads := boost_pads state in
    let n_rows := 1 + n_players self + len boost_pads in
    let qkv : plane := fun _ _ => 0%Q in
    (* Add ball *)
    let ball := ball state in
    let qkv := set_row qkv 0 (fun c => c =? 3) (fun _ => 1%Q) in
    let qkv := set_row qkv 0 (in_slice (5, 8)) (fun c => coord (position ball) (c - 5)) in
    let qkv := set_row qkv 0 (in_slice (8, 11))
                 (fun c => coord (linear_velocity ball) (c - 8)) in
    let qkv := set_row qkv 0 (in_slice (17, 20))
                 (fun c => coord (angular_velocity ball) (c - 17)) in
    let n := 1 + n_players self in
    let big b := Qltb 72 (at2 _boost_locations b 2) in
    let pad e := bidx (rows _boost_locations) (e - n) in
    (* Lines 56-87 write no attribute of [self]: an exception there leaves
       the encoder as lines 41-44 made it. *)
    match
      (* Add players *)
      added <- add_players n_rows (n_players self) (players state) 1 qkv (fun _ => 0%Q) ;;
      (* Add boost pads *)
      _ <- guard (broadcastable (rows _boost_locations) (len boost_pads)
                  && broadcastable (cols _boost_locations) 3) ;;
      (* Boost timers: the arrays have the lengths reset gave them *)
      timers <- boost_timers self ;;
      _ <- guard ((len timers =? len boost_pads) && (rows _boost_locations =? len timers)) ;;
      Some (added, timers)
    with
    | None => (self, None)
    | Some (added, timers) =>
        let qkv := fst added in
        let demos := snd added in
        let qkv : plane := fun e c => if (n <=? e) && (c =? 4) then 1%Q else qkv e c in
        let qkv : plane :=
          fun e c => if (n <=? e) && in_slice (5, 8) c
                     then at2 _boost_locations (pad e) (bidx (cols _boost_locations) (c - 5))
                     else qkv e c in
        let qkv : plane :=
          fun e c => if (n <=? e) && (c =? 20)
                     then ((12 # 100) + (88 # 100) * of_bool (big (pad e)))%Q
                     else qkv e c in
        let boost_timers1 :=
          armed (at1 timers) (at1 boost_pads)
                (fun b => ((4 # 10) + (6 # 10) * of_bool (big b))%Q) in
        let qkv : plane :=
          fun e c => if (n <=? e) && (c =? 21) then boost_timers1 (e - n) else qkv e c in
        let boost_timers2 := cooled (tick_skip self) boost_timers1 in
        (* Lines 87-91 have updated [self.boost_timers] in place. *)
        let self :=
          {| n_players := n_players self; tick_skip := tick_skip self;
             demo_timers := demo_timers self;
             boost_timers := Some {| len := len timers; at1 := boost_timers2 |};
             current_state := current_state self;
             current_qkv := current_qkv self; current_mask := current_mask self |} in
        match
          dtimers <- demo_timers self ;;
          _ <- guard (len dtimers =? n_players self) ;;
          Some dtimers
        with
        | None => (self, None)
        | Some dtimers =>
            let demo_timers1 := armed (at1 dtimers) demos (fun _ => (3 # 10)%Q) in
            let qkv : plane :=
              fun e c => if (1 <=? e) && (e <? n) && (c =? 21)
                         then demo_timers1 (e - 1) else qkv e c in
            let demo_timers2 := cooled (tick_skip self) demo_timers1 in
            (* Store results *)
            let mask : nat -> Q :=
              fun e => if (1 + length (players state) <=? e) && (e <? n) then 1%Q else 0%Q in
            ({| n_players := n_players self; tick_skip := tick_skip self;
                demo_timers := Some {| len := len dtimers; at1 := demo_timers2 |};
                boost_timers := boost_timers self;
                current_state := current_state self;
                current_qkv := Some (n_rows, fun e c => (qkv e c / nth c _norm 1)%Q);
                current_mask := Some (n_rows, mask) |},
             Some tt)
        end
    end.

Inductive Result :=
| Autodetect  (* np.zeros(0) *)
| Triple (q : arr3) (kv : arr3) (mask : arr2).

(** Lines 110-130: the triple of [player], given by its place in
    [state.players], from the stored tensor and mask.  No attribute is
    written here. *)
Definition triple_of (self : Builder) (player : nat) (state : GameState)
           (previous_action : arr1) : option Result :=
  the_player <- nth_error (players state) player ;;
  let invert := team_num the_player =? ORANGE_TEAM in
  cur <- current_qkv self ;;
  cur_mask <- current_mask self ;;
  let n_rows := fst cur in
  let qkv := snd cur in
  let main_n := player + 1 in
  _ <- guard (main_n <? n_rows) ;;
  let qkv := set_row qkv main_n (fun c => c =? 0) (fun _ => 1%Q) in
  let qkv : plane :=
    if invert then
      let swapped : plane :=
        fun e c => if c =? 1 then qkv e 2 else if c =? 2 then qkv e 1 else qkv e c in
      fun e c => (swapped e c * nth c _invert 1)%Q
    else qkv in
  let q : nat -> Q :=
    fun c => if c <? 24 then qkv main_n c else at1 previous_action (c - 24) in
  let kv : plane :=
    fun e c => if in_slice (5, 11) c then (qkv e c - q c)%Q else qkv e c in
  Some (Triple {| dim0 := 1; dim1 := 1; dim2 := 24 + len previous_action;
                  at3 := fun _ _ c => q c |}
               {| dim0 := 1; dim1 := n_rows; dim2 := 24; at3 := fun _ e c => kv e c |}
               {| rows := 1; cols := fst cur_mask; at2 := fun _ e => snd cur_mask e |}).

Definition build_obs (self : Builder) (player : nat) (state : GameState)
           (previous_action : arr1) : Builder * option Result :=
  match boost_timers self with
  | None => (self, Some Autodetect)
  | Some _ =>
      let ended := _maybe_update_obs self state in
      let self := fst ended in
      (self, _ <- snd ended ;; triple_of self player state previous_action)
  end.

End Encoder.

End NectoObsOLD.

(** ** NectoObsBuilder: the remaining methods *)

(** [__init__(self, n_players=None, tick_skip=8)] *)
Definition init (n_players : option nat) (tick_skip : Q) : Builder := {|
  self_n_players := n_players;
  self_tick_skip := tick_skip;
  self_boost_timers := None;
  self_demo_timers := None
|}.

(** [_reset(self, initial_state)] *)
Definition _reset (self : Builder) (initial_state : NectoObsOLD.GameState) : Builder := {|
  self_n_players := self_n_players self;
  self_tick_skip := self_tick_skip self;
  self_boost_timers :=
    Some {| len := len (NectoObsOLD.boost_pads initial_state); at1 := fun _ => 0%Q |};
  self_demo_timers :=
    Some {| len := length (NectoObsOLD.players initial_state); at1 := fun _ => 0%Q |}
|}.

(** The shapes of the three [Box]es [get_obs_space] returns. *)
Record ObsSpace := {
  space_q : nat * nat;
  space_kv : nat * nat;
  space_m : nat
}.

(** [self.n_players or 6]: [None] and [0] both give 6. *)
Definition players_or_6 (n_players : option nat) : nat :=
  match n_players with
  | None => 6
  | Some 0 => 6
  | Some k => k
  end.

Definition get_obs_space (_boost_locations : arr2) (self : Builder) : ObsSpace :=
  let players := players_or_6 (self_n_players self) in
  let entities := 1 + players + rows _boost_locations in
  {| space_q := (1, length _invert - 30 + 8);
     space_kv := (entities, length _invert);
     space_m := entities |}.

Section ConvertToRelative.

Variable M : NumpyMath.

(** [convert_to_relative(q, kv)]: [xs] and [ys] are views of [kv], and [nx]
    and [ny] are new arrays computed from them before either is written
    back. *)
Definition convert_to_relative (q kv : arr4) : arr4 :=
  (* kv[..., POS.start:LIN_VEL.stop] -= q[..., POS.start:LIN_VEL.stop] *)
  let kv : arr4 :=
    fun p t e c =>
      if (start POS <=? c) && (c <? stop LIN_VEL)
      then (kv p t e c - q p t 0%nat c)%Q
      else kv p t e c in
  let forward p t k := q p t 0 (start FW + k) in
  let theta p t := np_arctan2 M (forward p t 0) (forward p t 1) in
  let ct p t := np_cos M (theta p t) in
  let st p t := np_sin M (theta p t) in
  (* kv[..., POS.start:ANG_VEL.stop:3] and kv[..., POS.start + 1:ANG_VEL.stop:3] *)
  let xs p t e k := kv p t e (start POS + k * 3) in
  let ys p t e k := kv p t e (start POS + 1 + k * 3) in
  (* Use temp variables to prevent modifying original array *)
  let nx p t e k := (ct p t * xs p t e k - st p t * ys p t e k)%Q in
  let ny p t e k := (st p t * xs p t e k + ct p t * ys p t e k)%Q in
  let kv : arr4 :=
    fun p t e c =>
      if (start POS <=? c) && (c <? stop ANG_VEL) && ((c - start POS) mod 3 =? 0)
      then nx p t e ((c - start POS) / 3)
      else kv p t e c in
  fun p t e c =>
    if (start POS + 1 <=? c) && (c <? stop ANG_VEL) && ((c - (start POS + 1)) mod 3 =? 0)
    then ny p t e ((c - (start POS + 1)) / 3)
    else kv p t e c.

End ConvertToRelative.

(** ** NectoObsBuilder.add_actions

    [previous_actions] is the array the callers pass: one block of
    [(ticks, 8)] per observed player when [player_index] is [None], one such
    block otherwise.  The method writes into the query arrays of [obs] in
    place; the model returns the list it leaves. *)

(** [q[:, 0, ACTIONS] = act] *)
Definition set_actions (q : arr3) (act : arr2) : option arr3 :=
  (* the index 0 and the indices of ACTIONS must exist *)
  _ <- guard ((0 <? dim1 q) && (stop ACTIONS <=? dim2 q)) ;;
  _ <- guard (broadcastable (rows act) (dim0 q)
              && broadcastable (cols act) (stop ACTIONS - start ACTIONS)) ;;
  Some {| dim0 := dim0 q; dim1 := dim1 q; dim2 := dim2 q;
          at3 := fun t r c =>
                   if (r =? 0) && in_slice ACTIONS c
                   then at2 act (bidx (rows act) t) (bidx (cols act) (c - start ACTIONS))
                   else at3 q t r c |}.

Definition with_query (o : Obs) (q : arr3) : Obs :=
  {| obs_q := q; obs_kv := obs_kv o; obs_m := obs_m o |}.

(** [previous_actions[i]] *)
Definition block (previous_actions : arr3) (i : nat) : arr2 :=
  {| rows := dim1 previous_actions; cols := dim2 previous_actions;
     at2 := at3 previous_actions i |}.

(** [for (q, kv, m), act in zip(obs, previous_actions): q[:, 0, ACTIONS] = act],
    from pair [i] on: [zip] stops at the shorter of the two. *)
Fixpoint add_actions_zip (obs : list Obs) (previous_actions : arr3) (i : nat)
  : option (list Obs) :=
  match obs with
  | [] => Some []
  | o :: rest =>
      if i <? dim0 previous_actions then
        q <- set_actions (obs_q o) (block previous_actions i) ;;
        rest' <- add_actions_zip rest previous_actions (i + 1) ;;
        Some (with_query o q :: rest')
      else Some (o :: rest)
  end.

Fixpoint replace_nth (obs : list Obs) (i : nat) (o : Obs) : list Obs :=
  match obs, i with
  | [], _ => []
  | _ :: rest, 0 => o :: rest
  | x :: rest, S i' => x :: replace_nth rest i' o
  end.

(** [add_actions(obs, previous_actions)] *)
Definition add_actions_all (obs : list Obs) (previous_actions : arr3) : option (list Obs) :=
  add_actions_zip obs previous_actions 0.

(** [add_actions(obs, previous_actions, player_index)] *)
Definition add_actions_at (obs : list Obs) (previous_actions : arr2) (player_index : nat)
  : option (list Obs) :=
  o <- nth_error obs player_index ;;
  q <- set_actions (obs_q o) previous_actions ;;
  Some (replace_nth obs player_index (with_query o q)).

(** Two players in one tick, written as a 133-column record: a blue car
    at [(2300, 0, 0)] with the identity orientation, rising at 23 uu/s, and
    an orange car with an all-zero quaternion. *)
Definition blue_car : list Q :=
  player_block 0 [2300; 0; 0]%Q [1; 0; 0; 0]%Q [0; 0; 23]%Q [0; 0; 0]%Q 0 1 1 1 (1 # 2).
Definition orange_car : list Q :=
  player_block 1 [-2300; 1150; 17]%Q [0; 0; 0; 0]%Q [0; 0; 0]%Q [0; 0; 11]%Q 0 1 1 1 (1 # 2).
Definition ball_at_rest : list Q := [0; 0; 92; 0; 0; 0; 0; 0; 0]%Q.

Definition two_players_one_tick : arr2 :=
  of_rows 133 [record (repeat 1%Q 34) ball_at_rest [blue_car; orange_car]].

(** The same record with one column too many. *)
Definition two_players_extra_column : arr2 :=
  of_rows 134 [record (repeat 1%Q 34) ball_at_rest [blue_car; orange_car] ++ [0%Q]].

(** The same record with two columns too many. *)
Definition two_players_two_extra_columns : arr2 :=
  of_rows 135 [record (repeat 1%Q 34) ball_at_rest [blue_car; orange_car] ++ [0%Q; 0%Q]].

(** A record of thirty-six players. *)
Definition thirty_six_players_one_tick : arr2 :=
  of_rows 1459 [record (repeat 1%Q 34) ball_at_rest (repeat blue_car 36)].

(** What lies behind the arrays in the runs below: ones, that is "pad
    available" and "player demolished". *)
Definition stray_ones : array_id -> nat -> nat -> Q := fun _ _ _ => 1%Q.

Definition returns {A : Type} (r : option A) : bool :=
  match r with Some _ => true | None => false end.

(** Channel [c] of entity row [e] at tick [t] of observer [i]'s Key-Value
    tensor, query row and mask in what the builder returned. *)
Definition kv_cell (r : option (Builder * list Obs)) (i t e c : nat) : option Q :=
  match r with
  | Some (_, obs) => option_map (fun o => at3 (obs_kv o) t e c) (nth_error obs i)
  | None => None
  end.

Definition q_cell (r : option (Builder * list Obs)) (i t c : nat) : option Q :=
  match r with
  | Some (_, obs) => option_map (fun o => at3 (obs_q o) t 0 c) (nth_error obs i)
  | None => None
  end.

(** The same tick as [two_players_one_tick], as the [GameState] the
    non-batched encoder reads, and an encoder that was reset for six players
    and 34 pads. *)
Definition blue_car_object : NectoObsOLD.PlayerData := {|
  NectoObsOLD.team_num := 0;
  NectoObsOLD.car_data := {|
    NectoObsOLD.position := (2300, 0, 0)%Q;
    NectoObsOLD.linear_velocity := (0, 0, 23)%Q;
    NectoObsOLD.angular_velocity := (0, 0, 0)%Q;
    NectoObsOLD.forward := (1, 0, 0)%Q;
    NectoObsOLD.up := (0, 0, 1)%Q |};
  NectoObsOLD.boost_amount := (1 # 2)%Q;
  NectoObsOLD.is_demoed := false;
  NectoObsOLD.on_ground := true;
  NectoObsOLD.has_flip := true
|}.

Definition orange_car_object : NectoObsOLD.PlayerData := {|
  NectoObsOLD.team_num := 1;
  NectoObsOLD.car_data := {|
    NectoObsOLD.position := (-2300, 1150, 17)%Q;
    NectoObsOLD.linear_velocity := (0, 0, 0)%Q;
    NectoObsOLD.angular_velocity := (0, 0, 11)%Q;
    NectoObsOLD.forward := (0, 0, 0)%Q;
    NectoObsOLD.up := (0, 0, 0)%Q |};
  NectoObsOLD.boost_amount := (1 # 2)%Q;
  NectoObsOLD.is_demoed := false;
  NectoObsOLD.on_ground := true;
  NectoObsOLD.has_flip := true
|}.

Definition two_players_state : NectoObsOLD.GameState := {|
  NectoObsOLD.ident := 1;
  NectoObsOLD.ball := {|
    NectoObsOLD.position := (0, 0, 92)%Q;
    NectoObsOLD.linear_velocity := (0, 0, 0)%Q;
    NectoObsOLD.angular_velocity := (0, 0, 0)%Q;
    NectoObsOLD.forward := (0, 0, 0)%Q;
    NectoObsOLD.up := (0, 0, 0)%Q |};
  NectoObsOLD.players := [blue_car_object; orange_car_object];
  NectoObsOLD.boost_pads := of_list (repeat 1%Q 34)
|}.

Definition fresh_old_builder (capacity : nat) : NectoObsOLD.Builder := {|
  NectoObsOLD.n_players := capacity;
  NectoObsOLD.tick_skip := 8%Q;
  NectoObsOLD.demo_timers := Some (of_list (repeat 0%Q capacity));
  NectoObsOLD.boost_timers := Some (of_list (repeat 0%Q 34));
  NectoObsOLD.current_state := None;
  NectoObsOLD.current_qkv := None;
  NectoObsOLD.current_mask := None
|}.

Definition no_action : arr1 := of_list (repeat 0%Q 8).

(** A later state of the same match with a third car on the field, a ball
    that has moved and is spinning (channel 19 of its row would hold
    [3 / 5.5]), and the identity of another object. *)
Definition three_players_state : NectoObsOLD.GameState := {|
  NectoObsOLD.ident := 2;
  NectoObsOLD.ball := {|
    NectoObsOLD.position := (0, 0, 500)%Q;
    NectoObsOLD.linear_velocity := (0, 0, 0)%Q;
    NectoObsOLD.angular_velocity := (0, 0, 3)%Q;
    NectoObsOLD.forward := (0, 0, 0)%Q;
    NectoObsOLD.up := (0, 0, 0)%Q |};
  NectoObsOLD.players := [blue_car_object; orange_car_object; blue_car_object];
  NectoObsOLD.boost_pads := of_list (repeat 1%Q 34)
|}.

(** Channel [c] of entity row [e] of the Key-Value tensor the non-batched
    encoder returned. *)
Definition old_kv_cell (r : NectoObsOLD.Builder * option NectoObsOLD.Result)
           (e c : nat) : option Q :=
  match snd r with
  | Some (NectoObsOLD.Triple _ kv _) => Some (at3 kv 0 e c)
  | _ => None
  end.

(** ** Comparing the two encoders

    A [GameState] and tick [t] of a batch describe the same moment when
    pads, ball and players agree field by field. *)
Definition same_vec (v : NectoObsOLD.vec3) (encoded_states : arr2) (t off : nat) : Prop :=
  forall k, k < 3 -> (NectoObsOLD.coord v k == at2 encoded_states t (off + k))%Q.

Definition same_tick (L : StateLayout) (encoded_states : arr2) (t : nat)
           (s : NectoObsOLD.GameState) : Prop :=
  length (NectoObsOLD.players s) = len (teams_of L encoded_states) /\
  len (NectoObsOLD.boost_pads s) = 34 /\
  (forall b, b < 34 -> (at1 (NectoObsOLD.boost_pads s) b == at2 encoded_states t (3 + b))%Q) /\
  same_vec (NectoObsOLD.position (NectoObsOLD.ball s)) encoded_states t
           (ball_start_index L) /\
  same_vec (NectoObsOLD.linear_velocity (NectoObsOLD.ball s)) encoded_states t
           (ball_start_index L + 3) /\
  same_vec (NectoObsOLD.angular_velocity (NectoObsOLD.ball s)) encoded_states t
           (ball_start_index L + 6) /\
  forall i p, nth_error (NectoObsOLD.players s) i = Some p ->
    let block := players_start_index L + i * player_length L in
    NectoObsOLD.team_num p <= 1 /\
    (inject_Z (Z.of_nat (NectoObsOLD.team_num p)) == at1 (teams_of L encoded_states) i)%Q /\
    same_vec (NectoObsOLD.position (NectoObsOLD.car_data p)) encoded_states t
             (block + SC_CAR_POS_X L) /\
    same_vec (NectoObsOLD.linear_velocity (NectoObsOLD.car_data p)) encoded_states t
             (block + SC_CAR_LINEAR_VEL_X L) /\
    same_vec (NectoObsOLD.angular_velocity (NectoObsOLD.car_data p)) encoded_states t
             (block + SC_CAR_ANGULAR_VEL_X L) /\
    (NectoObsOLD.boost_amount p == at2 encoded_states t (block + SC_BOOST_AMOUNT L))%Q /\
    (NectoObsOLD.of_bool (NectoObsOLD.is_demoed p) == at2 encoded_states t (block + 33))%Q /\
    (NectoObsOLD.of_bool (NectoObsOLD.on_ground p)
     == at2 encoded_states t (block + SC_ON_GROUND L))%Q /\
    (NectoObsOLD.of_bool (NectoObsOLD.has_flip p)
     == at2 encoded_states t (block + SC_HAS_FLIP L))%Q.

(** The non-batched encoder puts the ball in row 0, the player slots in rows
    [1 .. lim] and the pads behind them; the batched builder puts the player
    slots in rows [0 .. lim - 1], the ball in row [lim] and the pads behind
    it.  [legacy_row lim e] is the row of the former that describes the
    entity of row [e] of the latter. *)
Definition legacy_row (lim e : nat) : nat :=
  if e <? lim then e + 1 else if e =? lim then 0 else e.

(** ** Vocabulary of the properties *)

(** What a read of [a[i, b]] yields when numba emits no bounds check. *)
Definition stray_read (mem : array_id -> nat -> nat -> Q) (id : array_id) (a : arr2)
           (i b : nat) : Q :=
  if in_bounds a i b then at2 a i b else mem id i b.

(** The value row [i] of the timer matrix gets at column [b], from the value
    [prev] of row [i - 1]. *)
Definition boost_cell (mem : array_id -> nat -> nat -> Q) (locs : arr2) (tick_skip : Q)
           (boost_states : arr2) (i b : nat) (prev : Q) : Q :=
  if Qeq_bool (stray_read mem BoostStates boost_states i b) 0 then
    if Qltb 72 (stray_read mem BoostLocations locs b 2) then 10%Q else 4%Q
  else if Qltb 0 prev then max0 (prev - tick_skip / 120)%Q
  else 0%Q.

(** The same for the demolition timers. *)
Definition demo_cell (mem : array_id -> nat -> nat -> Q) (tick_skip : Q)
           (demo_states : arr2) (i b : nat) (prev : Q) : Q :=
  if Qeq_bool (stray_read mem DemoStates demo_states i b) 1 then 3%Q
  else if Qltb 0 prev then max0 (prev - tick_skip / 120)%Q
  else 0%Q.

(** Row [i] of the timer matrix: the carried row, then [cell] applied row
    after row. *)
Fixpoint timer_at (cell : nat -> nat -> Q -> Q) (carried : nat -> Q) (i b : nat) : Q :=
  match i with
  | 0 => carried b
  | S i' => cell i b (timer_at cell carried i' b)
  end.

(** A loop body that touches cell [(i, b)] only and, when the cell still
    holds the zero of [np.zeros], leaves [cell] of the row above in it. *)
Definition writes_cell (body : nat -> nat -> (nat -> nat -> Q) -> option (nat -> nat -> Q))
           (cell : nat -> nat -> Q -> Q) : Prop :=
  forall i b t, 1 <= i ->
    exists t', body i b t = Some t' /\
               (forall i' b', (i', b') <> (i, b) -> t' i' b' = t i' b') /\
               (t i b = 0%Q -> t' i b = cell i b (t (i - 1) b)).

(** [timers[0, :] = carried], a carried row of length one being stretched. *)
Definition carried_row (carried : arr1) : nat -> Q :=
  fun b => at1 carried (bidx (len carried) b).

(** Inputs of [_update_timers]: 34 pads that stay available, players that
    are never demolished, zero carried timers. *)
Definition all_available (ticks : nat) : arr2 :=
  {| rows := ticks; cols := 34; at2 := fun _ _ => 1%Q |}.

(** Two ticks: pad 3 (a major pad, height 73) is consumed at tick 0 and
    available again at tick 1; every other pad is available throughout. *)
Definition pad3_consumed_at_tick0 : arr2 :=
  {| rows := 2; cols := 34;
     at2 := fun i b => if (i =? 0) && (b =? 3) then 0%Q else 1%Q |}.

Definition nobody_demoed (ticks players : nat) : arr2 :=
  {| rows := ticks; cols := players; at2 := fun _ _ => 0%Q |}.

Definition zeros (n : nat) : arr1 := {| len := n; at1 := fun _ => 0%Q |}.

(** Two ticks of one player: the identity quaternion, then an all-zero one. *)
Definition identity_and_zero_quats : arr2 :=
  of_rows 4 [[1; 0; 0; 0]; [0; 0; 0; 0]]%Q.

(** A query row at position [(1, 0, 0)] (in normalised units) and an entity
    at rest: the entity's vertical velocity, channel 10, is 0 before the
    call. *)
Definition query_at_x1 : arr4 := fun _ _ _ c => if c =? 5 then 1%Q else 0%Q.
Definition entity_at_rest : arr4 := fun _ _ _ _ => 0%Q.

(** The values numpy's functions take on a level car that heads along
    [(3/5, 4/5, 0)]: pitch and roll are the angle 0, and the yaw, an angle
    the rationals do not hold and [1] stands for, has cosine 3/5 and sine
    4/5. *)
Definition turned_car_math : NumpyMath := {|
  np_cos := fun a => if Qeq_bool a 0 then 1%Q else (3 # 5)%Q;
  np_sin := fun a => if Qeq_bool a 0 then 0%Q else (4 # 5)%Q;
  np_sqrt := fun x => x;
  np_arctan2 := fun y _ => if Qeq_bool y 0 then 0%Q else 1%Q
|}.

(** The query row of that car, at position [(1, 0, 0)] with forward
    [(3/5, 4/5, 0)] and up [(0, 0, 1)], and an entity row whose channel [c]
    holds the number [c]. *)
Definition query_turned : arr4 :=
  fun _ _ _ c =>
    if c =? 5 then 1%Q
    else if c =? 11 then (3 # 5)%Q
    else if c =? 12 then (4 # 5)%Q
    else if c =? 16 then 1%Q
    else 0%Q.
Definition entity_ramp : arr4 := fun _ _ _ c => inject_Z (Z.of_nat c).

(** What the builder takes for granted of the layout constants: 34 pad bits,
    a ball block of at least nine numbers, and player blocks that hold the
    fields at the offsets [SC] names. *)
Record layout_ok (L : StateLayout) : Prop := {
  ok_pads : GS_BOOST_PADS_LENGTH L = 34;
  ok_ball : 9 <= GS_BALL_STATE_LENGTH L;
  ok_player : 33 < GS_PLAYER_INFO_LENGTH L;
  ok_pos : SC_CAR_POS_Z L = SC_CAR_POS_X L + 2 /\ SC_CAR_POS_Z L < GS_PLAYER_INFO_LENGTH L;
  ok_lin : SC_CAR_LINEAR_VEL_Z L = SC_CAR_LINEAR_VEL_X L + 2
           /\ SC_CAR_LINEAR_VEL_Z L < GS_PLAYER_INFO_LENGTH L;
  ok_ang : SC_CAR_ANGULAR_VEL_Z L = SC_CAR_ANGULAR_VEL_X L + 2
           /\ SC_CAR_ANGULAR_VEL_Z L < GS_PLAYER_INFO_LENGTH L;
  ok_quat : SC_CAR_QUAT_Z L = SC_CAR_QUAT_W L + 3 /\ SC_CAR_QUAT_Z L < GS_PLAYER_INFO_LENGTH L;
  ok_boost : SC_BOOST_AMOUNT L < GS_PLAYER_INFO_LENGTH L;
  ok_ground : SC_ON_GROUND L < GS_PLAYER_INFO_LENGTH L;
  ok_flip : SC_HAS_FLIP L < GS_PLAYER_INFO_LENGTH L;
  ok_jump : SC_HAS_JUMP L < GS_PLAYER_INFO_LENGTH L
}.

(** A batch of at least one tick whose records hold [n] player blocks and
    [slack] columns more, for a builder that was reset for 34 pads and [n]
    players and has room for [lim] players. *)
Record batch_ok (L : StateLayout) (locs : arr2) (self : Builder) (encoded_states : arr2)
       (n slack lim : nat) : Prop := {
  ok_ticks : 1 <= rows encoded_states;
  ok_width : cols encoded_states
             = players_start_index L + n * player_length L + slack;
  ok_locs : rows locs = 34 /\ cols locs = 3;
  ok_boost_timers : exists a, self_boost_timers self = Some a /\ len a = 34;
  ok_demo_timers : exists a, self_demo_timers self = Some a /\ len a = n;
  ok_capacity : lim = match self_n_players self with None => n | Some k => k end
}.

(** What [shared_rows] leaves in each cell: the team channels of the player
    rows, nothing in the unused player rows, the ball, the pads. *)
Definition shared_cell (L : StateLayout) (locs encoded_states boost_timers : arr2)
           (n lim : nat) : arr4 :=
  fun p t e c =>
    let teams := teams_of L encoded_states in
    if e <? n then
      if c =? IS_MATE then (1 - at1 teams e)%Q
      else if c =? IS_OPP then at1 teams e
      else 0%Q
    else if e <? lim then 0%Q
    else if e =? lim then
      if c =? IS_BALL then 1%Q
      else match index_of c (r_ [POS; LIN_VEL; ANG_VEL]) with
           | Some j => at2 encoded_states t (ball_start_index L + j)
           | None => 0%Q
           end
    else
      if c =? IS_BOOST then 1%Q
      else if in_slice POS c then at2 locs (e - (lim + 1)) (c - start POS)
      else if c =? BOOST then 1%Q
      else if c =? DEMO then at2 boost_timers t (e - (lim + 1))
      else 0%Q.

(** The rotation matrices of player [i], one per tick. *)
Definition quats_of (L : StateLayout) (encoded_states : arr2) (i : nat) : arr2 :=
  cols_slice (encoded_player_of L encoded_states i) (SC_CAR_QUAT_W L) (SC_CAR_QUAT_Z L + 1).

Definition rot_mtx_of (L : StateLayout) (encoded_states : arr2) (i : nat) : arr3 :=
  match _quats_to_rot_mtx (quats_of L encoded_states i) with
  | Some theta => theta
  | None => {| dim0 := 0; dim1 := 0; dim2 := 0; at3 := fun _ _ _ => 0%Q |}
  end.

(** Field [off] of player [i]'s block at tick [t]. *)
Definition player_field (L : StateLayout) (encoded_states : arr2) (i t off : nat) : Q :=
  at2 encoded_states t (players_start_index L + i * player_length L + off).

(** What the loop body for player [i] leaves in channel [c] of row [i] of
    observer [p]'s tensor at tick [t], where the cell held [old]. *)
Definition player_cell (L : StateLayout) (encoded_states demo_timers : arr2)
           (i p t c : nat) (old : Q) : Q :=
  if c =? IS_SELF then (if p =? i then 1%Q else old)
  else if in_slice POS c then
    player_field L encoded_states i t (SC_CAR_POS_X L + (c - start POS))
  else if in_slice LIN_VEL c then
    player_field L encoded_states i t (SC_CAR_LINEAR_VEL_X L + (c - start LIN_VEL))
  else if in_slice FW c then at3 (rot_mtx_of L encoded_states i) t (c - start FW) 0
  else if in_slice UP c then at3 (rot_mtx_of L encoded_states i) t (c - start UP) 2
  else if in_slice ANG_VEL c then
    player_field L encoded_states i t (SC_CAR_ANGULAR_VEL_X L + (c - start ANG_VEL))
  else if c =? BOOST then player_field L encoded_states i t (SC_BOOST_AMOUNT L)
  else if c =? DEMO then at2 demo_timers t i
  else if c =? ON_GROUND then player_field L encoded_states i t (SC_ON_GROUND L)
  else if c =? HAS_FLIP then player_field L encoded_states i t (SC_HAS_FLIP L)
  else if c =? HAS_JUMP then player_field L encoded_states i t (SC_HAS_JUMP L)
  else old.

(** Row [e] of the tensor of observer [p] at tick [t], for a player [e], as
    the Tensor Assembler decodes it from the record: the kind flags, then
    position, linear velocity, forward, up, angular velocity, boost amount,
    demolition timer and the three flags. *)
Definition decoded_state (L : StateLayout) (encoded_states demo_timers : arr2) : arr4 :=
  fun p t e c =>
    if c =? IS_MATE then (1 - at1 (teams_of L encoded_states) e)%Q
    else if c =? IS_OPP then at1 (teams_of L encoded_states) e
    else player_cell L encoded_states demo_timers e p t c 0%Q.

(** The teammate, opponent, ball and pad channels. *)
Definition is_kind_channel (c : nat) : Prop := 1 <= c < 5.

(** Lines 60-63: the teammate flag for a blue player, the opponent flag for
    any other. *)
Definition old_team_flags (p : NectoObsOLD.PlayerData) (c : nat) (old : Q) : Q :=
  if c =? 1 then (if NectoObsOLD.team_num p =? NectoObsOLD.BLUE_TEAM then 1%Q else old)
  else if c =? 2 then (if NectoObsOLD.team_num p =? NectoObsOLD.BLUE_TEAM then old else 1%Q)
  else old.

(** Channels 0-4 of row [e] of the tensor the non-batched encoder returns
    to the player in place [i] of [state.players]. *)
Definition legacy_kind (s : NectoObsOLD.GameState) (cap i e c : nat) : Q :=
  let ball_row e c := if (e =? 0) && (c =? 3) then 1%Q else 0%Q in
  let with_players e c :=
    if 1 <=? e
    then match nth_error (NectoObsOLD.players s) (e - 1) with
         | Some p => old_team_flags p c (ball_row e c)
         | None => ball_row e c
         end
    else ball_row e c in
  let with_pads e c := if (1 + cap <=? e) && (c =? 4) then 1%Q else with_players e c in
  let with_main e c := if (e =? i + 1) && (c =? 0) then 1%Q else with_pads e c in
  let invert :=
    match nth_error (NectoObsOLD.players s) i with
    | Some p => NectoObsOLD.team_num p =? NectoObsOLD.ORANGE_TEAM
    | None => false
    end in
  if invert
  then (if c =? 1 then with_main e 2 else if c =? 2 then with_main e 1 else with_main e c)
  else with_main e c.

(** Channels 0-4 of row [e] of the tensor the batched builder returns to
    observer [i]. *)
Definition batched_kind (L : StateLayout) (encoded_states : arr2) (n lim i e c : nat) : Q :=
  let team := at1 (teams_of L encoded_states) e in
  let raw c :=
    if e <? n then
      if c =? IS_SELF then (if e =? i then 1%Q else 0%Q)
      else if c =? IS_MATE then (1 - team)%Q
      else if c =? IS_OPP then team
      else 0%Q
    else if e <? lim then 0%Q
    else if e =? lim then (if c =? IS_BALL then 1%Q else 0%Q)
    else (if c =? IS_BOOST then 1%Q else 0%Q) in
  if orange (teams_of L encoded_states) i
  then (if c =? IS_MATE then raw IS_OPP else if c =? IS_OPP then raw IS_MATE else raw c)
  else raw c.

(** The effect of [add_actions] on one query array. *)

(** A query array takes an action block: it has a row 0 and 33 channels, and
    the block has one row per tick or one row, and 8 columns or one. *)
Definition takes_actions (q : arr3) (act : arr2) : bool :=
  (0 <? dim1 q) && (stop ACTIONS <=? dim2 q)
  && broadcastable (rows act) (dim0 q)
  && broadcastable (cols act) (stop ACTIONS - start ACTIONS).

(** The cells [q[:, 0, ACTIONS] = act] leaves. *)
Definition actions_written (q : arr3) (act : arr2) (t r c : nat) : Q :=
  if (r =? 0) && in_slice ACTIONS c
  then at2 act (bidx (rows act) t) (bidx (cols act) (c - start ACTIONS))
  else at3 q t r c.


(** The sign the Team Normalizer gives the x and y components. *)
Definition mirror (on : bool) : Q := if on then (-1)%Q else 1%Q.


(** ** The rows of the non-batched tensor *)

(** The ball's row before normalisation: lines 51-54. *)
Definition old_ball_cell (s : NectoObsOLD.GameState) (c : nat) : Q :=
  if c =? 3 then 1%Q
  else if in_slice (5, 8) c
       then NectoObsOLD.coord (NectoObsOLD.position (NectoObsOLD.ball s)) (c - 5)
  else if in_slice (8, 11) c
       then NectoObsOLD.coord (NectoObsOLD.linear_velocity (NectoObsOLD.ball s)) (c - 8)
  else if in_slice (17, 20) c
       then NectoObsOLD.coord (NectoObsOLD.angular_velocity (NectoObsOLD.ball s)) (c - 17)
  else 0%Q.

(** What lines 60-74 leave in channel [c] of a player's row, where the cell
    held [old]. *)
Definition old_player_cell (p : NectoObsOLD.PlayerData) (c : nat) (old : Q) : Q :=
  let car := NectoObsOLD.car_data p in
  if c =? 1 then (if NectoObsOLD.team_num p =? NectoObsOLD.BLUE_TEAM then 1%Q else old)
  else if c =? 2 then (if NectoObsOLD.team_num p =? NectoObsOLD.BLUE_TEAM then old else 1%Q)
  else if in_slice (5, 8) c then NectoObsOLD.coord (NectoObsOLD.position car) (c - 5)
  else if in_slice (8, 11) c then NectoObsOLD.coord (NectoObsOLD.linear_velocity car) (c - 8)
  else if in_slice (11, 14) c then NectoObsOLD.coord (NectoObsOLD.forward car) (c - 11)
  else if in_slice (14, 17) c then NectoObsOLD.coord (NectoObsOLD.up car) (c - 14)
  else if in_slice (17, 20) c
       then NectoObsOLD.coord (NectoObsOLD.angular_velocity car) (c - 17)
  else if c =? 20 then NectoObsOLD.boost_amount p
  else if c =? 22 then NectoObsOLD.of_bool (NectoObsOLD.on_ground p)
  else if c =? 23 then NectoObsOLD.of_bool (NectoObsOLD.has_flip p)
  else old.

(** [demos]: which player slots hold a demolished car. *)
Definition demos_of (s : NectoObsOLD.GameState) (b : nat) : Q :=
  match nth_error (NectoObsOLD.players s) b with
  | Some p => NectoObsOLD.of_bool (NectoObsOLD.is_demoed p)
  | None => 0%Q
  end.

(** The tensor [_maybe_update_obs] builds for a state of no more players
    than the [cap] slots, before it is divided by [_norm]: the ball in row
    0, the player slots behind it, then the pads; channel 21 holds the timers
    armed from the carried ones. *)
Definition old_raw (locs : arr2) (s : NectoObsOLD.GameState) (cap : nat)
           (carried_boost carried_demo : arr1) : NectoObsOLD.plane :=
  fun e c =>
    let n := 1 + cap in
    let big b := Qltb 72 (at2 locs b 2) in
    if n <=? e then
      if c =? 4 then 1%Q
      else if in_slice (5, 8) c then at2 locs (e - n) (c - 5)
      else if c =? 20 then ((12 # 100) + (88 # 100) * NectoObsOLD.of_bool (big (e - n)%nat))%Q
      else if c =? 21
           then NectoObsOLD.armed (at1 carried_boost) (at1 (NectoObsOLD.boost_pads s))
                  (fun b => ((4 # 10) + (6 # 10) * NectoObsOLD.of_bool (big b))%Q) (e - n)
      else 0%Q
    else if e =? 0 then old_ball_cell s c
    else if c =? 21
         then NectoObsOLD.armed (at1 carried_demo) (demos_of s) (fun _ => (3 # 10)%Q) (e - 1)
    else match nth_error (NectoObsOLD.players s) (e - 1) with
         | Some p => old_player_cell p c 0%Q
         | None => 0%Q
         end.

(** The stored tensor as [build_obs] turns it for one observer: the self
    flag on the observer's row [main_n], then, for an orange observer, the
    team flags exchanged and every channel multiplied by [_invert]. *)
Definition old_canon (invert : bool) (stored : NectoObsOLD.plane) (main_n : nat)
  : NectoObsOLD.plane :=
  let qkv := NectoObsOLD.set_row stored main_n (fun c => c =? 0) (fun _ => 1%Q) in
  if invert then
    let swapped : NectoObsOLD.plane :=
      fun e c => if c =? 1 then qkv e 2 else if c =? 2 then qkv e 1 else qkv e c in
    fun e c => (swapped e c * nth c NectoObsOLD._invert 1)%Q
  else qkv.


(** The same tensor from the values before normalisation: divided by
    [_norm], then multiplied by [_invert] for an orange observer. *)
Definition old_view (invert : bool) (raw : NectoObsOLD.plane) : NectoObsOLD.plane :=
  fun e c =>
    let v := (raw e c / nth c NectoObsOLD._norm 1)%Q in
    if invert then (v * nth c NectoObsOLD._invert 1)%Q else v.

(** [car_data.forward()] and [car_data.up()] are the first and the last
    column of the rotation matrix of the car's quaternion, which is what the
    record holds of the car's orientation. *)
Definition same_frames (L : StateLayout) (encoded_states : arr2) (t : nat)
           (s : NectoObsOLD.GameState) : Prop :=
  forall i p, nth_error (NectoObsOLD.players s) i = Some p ->
    forall k, k < 3 ->
      (NectoObsOLD.coord (NectoObsOLD.forward (NectoObsOLD.car_data p)) k
       == at3 (rot_mtx_of L encoded_states i) t k 0)%Q /\
      (NectoObsOLD.coord (NectoObsOLD.up (NectoObsOLD.car_data p)) k
       == at3 (rot_mtx_of L encoded_states i) t k 2)%Q.

(** The number of channels of the Key-Value tensor the non-batched encoder
    returned. *)
Definition old_kv_width (r : NectoObsOLD.Builder * option NectoObsOLD.Result) : option nat :=
  match snd r with
  | Some (NectoObsOLD.Triple _ kv _) => Some (dim2 kv)
  | _ => None
  end.

(** Two cells that both exist and hold different numbers. *)
Definition differ (a b : option Q) : bool :=
  match a, b with
  | Some x, Some y => negb (Qeq_bool x y)
  | _, _ => false
  end.

(** * Properties *)

(** ** Exceptions and loops *)

Lemma bind_some {A B : Type} (m : option A) (k : A -> option B) (a : A) :
  m = Some a -> bind m k = k a.
Proof. intros ->. reflexivity. Qed.

Lemma guard_true (b : bool) : b = true -> guard b = Some tt.
Proof. intros ->. reflexivity. Qed.

(** A loop whose body raises at index [k] whatever the state raises. *)
Lemma for_range_raises {St : Type} (body : nat -> St -> option St) (k : nat) :
  (forall s, body k s = None) ->
  forall n lo s, lo <= k < lo + n -> for_range lo n body s = None.
Proof.
  intros Hk n. induction n as [|n IH]; intros lo s Hlo; [lia|].
  cbn [for_range]. destruct (Nat.eq_dec lo k) as [->|Hne].
  - rewrite Hk. reflexivity.
  - destruct (body lo s) as [s'|]; [|reflexivity].
    cbn [bind]. apply IH. lia.
Qed.

(** A loop whose body keeps an invariant runs to its end and keeps it. *)
Lemma for_range_inv {St : Type} (P : nat -> St -> Prop) (body : nat -> St -> option St) :
  forall n lo s,
    P lo s ->
    (forall k s0, lo <= k < lo + n -> P k s0 -> exists s1, body k s0 = Some s1 /\ P (S k) s1) ->
    exists s', for_range lo n body s = Some s' /\ P (lo + n) s'.
Proof.
  induction n as [|n IH]; intros lo s H0 Hstep.
  - exists s. rewrite Nat.add_0_r. split; [reflexivity|assumption].
  - destruct (Hstep lo s ltac:(lia) H0) as [s1 [Hb H1]].
    destruct (IH (S lo) s1 H1) as [s' [Hr Hp]].
    + intros k s0 Hk. apply Hstep. lia.
    + exists s'. cbn [for_range]. rewrite Hb. cbn [bind].
      replace (lo + S n) with (S lo + n) by lia. split; assumption.
Qed.

(** ** The timer recurrence the code computes *)

Lemma read2_unchecked mem id a i b :
  read2 (unchecked mem) id a i b = Some (stray_read mem id a i b).
Proof. unfold read2, stray_read, unchecked. destruct (in_bounds a i b); reflexivity. Qed.

Lemma read2_checked_out id a i b :
  in_bounds a i b = false -> read2 checked id a i b = None.
Proof. unfold read2. intros ->. reflexivity. Qed.

Lemma set2_same a i b v : set2 a i b v i b = v.
Proof. unfold set2. rewrite !Nat.eqb_refl. reflexivity. Qed.

Lemma set2_other a i b v i' b' : (i', b') <> (i, b) -> set2 a i b v i' b' = a i' b'.
Proof.
  unfold set2. intros H.
  destruct (Nat.eqb_spec i' i), (Nat.eqb_spec b' b); subst; try reflexivity.
  contradiction H. reflexivity.
Qed.

Lemma boost_body_writes mem locs tick_skip boost_states :
  writes_cell (boost_body (unchecked mem) locs tick_skip boost_states)
              (boost_cell mem locs tick_skip boost_states).
Proof.
  intros i b t Hi. unfold boost_body, boost_cell.
  rewrite !read2_unchecked. cbn [bind].
  destruct (Qeq_bool (stray_read mem BoostStates boost_states i b) 0).
  - destruct (Qltb 72 (stray_read mem BoostLocations locs b 2));
      eexists; (split; [reflexivity|]); split;
      try (intros; apply set2_other; assumption); intros; apply set2_same.
  - replace (0 <=? Z.of_nat i - 1)%Z with true by (symmetry; apply Z.leb_le; lia).
    cbn [andb]. destruct (Qltb 0 (t (i - 1) b)).
    + eexists; (split; [reflexivity|]); split;
        try (intros; apply set2_other; assumption); intros; apply set2_same.
    + exists t. split; [reflexivity|]. split; [reflexivity|]. intros ->. reflexivity.
Qed.

Lemma demo_body_writes mem tick_skip demo_states :
  writes_cell (demo_body (unchecked mem) tick_skip demo_states)
              (demo_cell mem tick_skip demo_states).
Proof.
  intros i b t Hi. unfold demo_body, demo_cell.
  rewrite !read2_unchecked. cbn [bind].
  destruct (Qeq_bool (stray_read mem DemoStates demo_states i b) 1).
  - eexists; (split; [reflexivity|]); split;
      try (intros; apply set2_other; assumption); intros; apply set2_same.
  - replace (0 <=? Z.of_nat i - 1)%Z with true by (symmetry; apply Z.leb_le; lia).
    cbn [andb]. destruct (Qltb 0 (t (i - 1) b)).
    + eexists; (split; [reflexivity|]); split;
        try (intros; apply set2_other; assumption); intros; apply set2_same.
    + exists t. split; [reflexivity|]. split; [reflexivity|]. intros ->. reflexivity.
Qed.

Lemma timer_row_loop (body : nat -> nat -> (nat -> nat -> Q) -> option (nat -> nat -> Q))
      (cell : nat -> nat -> Q -> Q) (width k : nat) (s0 : nat -> nat -> Q) :
  writes_cell body cell -> 1 <= k -> (forall b, s0 k b = 0%Q) ->
  exists s1, for_range 0 width (fun b t => body k b t) s0 = Some s1 /\
             (forall i' b', i' <> k -> s1 i' b' = s0 i' b') /\
             (forall b', b' < width -> s1 k b' = cell k b' (s0 (k - 1) b')) /\
             (forall b', width <= b' -> s1 k b' = s0 k b').
Proof.
  intros Hw Hk Hz.
  destruct (for_range_inv
              (fun b t => (forall i' b', i' <> k -> t i' b' = s0 i' b') /\
                          (forall b', b' < b -> t k b' = cell k b' (s0 (k - 1) b')) /\
                          (forall b', b <= b' -> t k b' = s0 k b'))
              (fun b t => body k b t) width 0 s0) as [s1 [Hr Hp]].
  - split; [|split]; intros; try reflexivity. lia.
  - intros b t _ (Ho & Hd & Hu).
    destruct (Hw k b t Hk) as [t' (Hb & Hoth & Hcell)].
    exists t'. split; [exact Hb|]. split; [|split].
    + intros i' b' Hne. rewrite Hoth by congruence. apply Ho, Hne.
    + intros b' Hb'. destruct (Nat.eq_dec b' b) as [->|Hne].
      * rewrite Hcell by (rewrite Hu by lia; apply Hz).
        rewrite Ho by lia. reflexivity.
      * rewrite Hoth by congruence. apply Hd. lia.
    + intros b' Hb'. rewrite Hoth by (intros [= ]; lia). apply Hu. lia.
  - exists s1. split; [exact Hr|]. exact Hp.
Qed.

(** Under unchecked reads the loops run to their end, and row [i] of the
    result is the recurrence unrolled [i + 1] times from the carried row. *)
Lemma run_timers_spec (body : arr2 -> nat -> nat -> (nat -> nat -> Q) -> option (nat -> nat -> Q))
      (cell : nat -> nat -> Q -> Q) (carried : arr1) (states : arr2) :
  broadcastable (len carried) (cols states) = true ->
  writes_cell (body states) cell ->
  exists out, run_timers body carried states = Some out /\
              rows out = rows states /\ cols out = cols states /\
              forall i b, i < rows states -> b < cols states ->
                          at2 out i b = timer_at cell (carried_row carried) (S i) b.
Proof.
  intros Hbc Hw. unfold run_timers. rewrite (guard_true _ Hbc). cbn [bind]. cbv zeta.
  rewrite Nat.add_sub.
  set (c := carried_row carried).
  destruct (for_range_inv
              (fun i t => (forall b, t 0 b = c b) /\
                          (forall i' b, 1 <= i' < i -> b < cols states ->
                                        t i' b = timer_at cell c i' b) /\
                          (forall i' b, i <= i' -> t i' b = 0%Q))
              (fun i t => for_range 0 (cols states) (fun b t' => body states i b t') t)
              (rows states) 1
              (fun i b => if i =? 0 then at1 carried (bidx (len carried) b) else 0%Q))
    as [t [Hr (H0 & Hspec & _)]].
  - split; [|split]; intros.
    + reflexivity.
    + lia.
    + destruct i'; [lia|reflexivity].
  - intros k s0 Hk (J0 & J1 & J2).
    destruct (timer_row_loop (body states) cell (cols states) k s0 Hw ltac:(lia))
      as [s1 (Hb & Ho & Hd & Hu)].
    { intros b. apply J2. lia. }
    exists s1. split; [exact Hb|]. split; [|split].
    + intros b. rewrite Ho by lia. apply J0.
    + intros i' b Hi' Hb'. destruct (Nat.eq_dec i' k) as [->|Hne].
      * rewrite Hd by assumption. destruct k as [|k']; [lia|].
        cbn [timer_at]. f_equal. replace (S k' - 1) with k' by lia.
        destruct k' as [|k'']; [apply J0|]. apply J1; [lia|assumption].
      * rewrite Ho by assumption. apply J1; [lia|assumption].
    + intros i' b Hi'. rewrite Ho by lia. apply J2. lia.
  - rewrite Hr. cbn [bind]. eexists. split; [reflexivity|].
    cbn [rows cols at2]. split; [reflexivity|]. split; [reflexivity|].
    intros i b Hi Hb. apply Hspec; [lia|assumption].
Qed.

Lemma update_timers_spec mem locs tick_skip carried_boost carried_demo boost_states demo_states :
  broadcastable (len carried_boost) (cols boost_states) = true ->
  broadcastable (len carried_demo) (cols demo_states) = true ->
  exists boost_timers demo_timers,
    _update_timers (unchecked mem) locs tick_skip carried_boost carried_demo
                   boost_states demo_states = Some (boost_timers, demo_timers) /\
    rows boost_timers = rows boost_states /\ cols boost_timers = cols boost_states /\
    rows demo_timers = rows demo_states /\ cols demo_timers = cols demo_states /\
    (forall i b, i < rows boost_states -> b < cols boost_states ->
       at2 boost_timers i b =
       timer_at (boost_cell mem locs tick_skip boost_states) (carried_row carried_boost) (S i) b) /\
    (forall i b, i < rows demo_states -> b < cols demo_states ->
       at2 demo_timers i b =
       timer_at (demo_cell mem tick_skip demo_states) (carried_row carried_demo) (S i) b).
Proof.
  intros Hb Hd. unfold _update_timers.
  destruct (run_timers_spec (boost_body (unchecked mem) locs tick_skip) _ carried_boost
              boost_states Hb (boost_body_writes mem locs tick_skip boost_states))
    as [bt (Hbt & Hbr & Hbc & Hbs)].
  destruct (run_timers_spec (demo_body (unchecked mem) tick_skip) _ carried_demo
              demo_states Hd (demo_body_writes mem tick_skip demo_states))
    as [dt (Hdt & Hdr & Hdc & Hds)].
  exists bt, dt. rewrite Hbt. cbn [bind]. rewrite Hdt. cbn [bind].
  repeat split; assumption.
Qed.

(** ** Timer Simulator: the state row read for a tick *)

(** C4, with bounds checked.  On every batch of one or more ticks and one or
    more pads the pad loop reads [boost_states[i, b]] at [i = shape[0]], one
    row past the end: with bounds checked the call raises, whatever the
    values are. *)
Theorem update_timers_reads_past_last_tick
        (locs : arr2) (tick_skip : Q) (carried_boost carried_demo : arr1)
        (boost_states demo_states : arr2) :
  1 <= rows boost_states -> 1 <= cols boost_states ->
  in_bounds boost_states (rows boost_states) 0 = false /\
  _update_timers checked locs tick_skip carried_boost carried_demo
                 boost_states demo_states = None.
Proof.
  intros Hr Hc. split.
  - unfold in_bounds. rewrite Nat.ltb_irrefl. reflexivity.
  - unfold _update_timers, run_timers.
    destruct (guard (broadcastable (len carried_boost) (cols boost_states))); [|reflexivity].
    cbn [bind]. cbv zeta. rewrite Nat.add_sub.
    rewrite (for_range_raises _ (rows boost_states)); [reflexivity| |lia].
    intros s. apply (for_range_raises _ 0); [|lia].
    intros s'. unfold boost_body. rewrite read2_checked_out; [reflexivity|].
    unfold in_bounds. rewrite Nat.ltb_irrefl. reflexivity.
Qed.

Lemma update_timers_reads_past_last_tick_witness :
  in_bounds (all_available 1) 1 0 = false /\
  _update_timers checked BOOST_LOCATIONS 8 (zeros 34) (zeros 1)
                 (all_available 1) (nobody_demoed 1 1) = None.
Proof.
  apply (update_timers_reads_past_last_tick BOOST_LOCATIONS 8 (zeros 34) (zeros 1)
           (all_available 1) (nobody_demoed 1 1)); cbn; lia.
Defined.

(** Without the check the last tick's row is decided by what lies behind
    the array: the same inputs give different timers. *)
Lemma update_timers_result_depends_on_stray_memory :
  option_map (fun r => at2 (fst r) 0 0)
    (_update_timers (unchecked (fun _ _ _ => 0%Q)) BOOST_LOCATIONS 8 (zeros 34) (zeros 1)
                    (all_available 1) (nobody_demoed 1 1)) = Some 4%Q /\
  option_map (fun r => at2 (fst r) 0 0)
    (_update_timers (unchecked (fun _ _ _ => 1%Q)) BOOST_LOCATIONS 8 (zeros 34) (zeros 1)
                    (all_available 1) (nobody_demoed 1 1)) = Some 0%Q.
Proof. split; vm_compute; reflexivity. Qed.

(** C1, at a failing input.  Pad 3 is consumed at tick 0, so the recurrence
    of the specification gives timer 10 at tick 0 and [10 - 8/120] at tick 1.
    The code decides tick 0 from the state row of tick 1 (available) and
    leaves the timer at 0, whatever lies behind the array. *)
Theorem update_timers_lags_one_tick (mem : array_id -> nat -> nat -> Q) :
  at2 pad3_consumed_at_tick0 0 3 = 0%Q /\
  exists boost_timers demo_timers,
    _update_timers (unchecked mem) BOOST_LOCATIONS 8 (zeros 34) (zeros 1)
                   pad3_consumed_at_tick0 (nobody_demoed 2 1)
    = Some (boost_timers, demo_timers) /\
    at2 boost_timers 0 3 = 0%Q /\
    at2 boost_timers 1 3 = (if Qeq_bool (mem BoostStates 2 3) 0 then 10%Q else 0%Q).
Proof.
  split; [reflexivity|].
  destruct (update_timers_spec mem BOOST_LOCATIONS 8 (zeros 34) (zeros 1)
              pad3_consumed_at_tick0 (nobody_demoed 2 1) eq_refl eq_refl)
    as [bt [dt (Hrun & _ & _ & _ & _ & Hb & _)]].
  exists bt, dt. split; [exact Hrun|]. split.
  - rewrite Hb by (cbn; lia). reflexivity.
  - rewrite Hb by (cbn; lia). cbn [timer_at]. unfold boost_cell at 1.
    change (stray_read mem BoostStates pad3_consumed_at_tick0 2 3) with (mem BoostStates 2 3).
    destruct (Qeq_bool (mem BoostStates 2 3) 0); reflexivity.
Qed.

(** The scenario of a single tick with all pads available, nobody demolished
    and zero carried timers: the pad timers are not all zero when the memory
    behind the pad bits holds zeros. *)
Lemma single_tick_timers_not_all_zero :
  option_map (fun r => to_rows (fst r))
    (_update_timers (unchecked (fun _ _ _ => 0%Q)) BOOST_LOCATIONS 8 (zeros 34) (zeros 1)
                    (all_available 1) (nobody_demoed 1 1))
  <> Some [repeat 0%Q 34].
Proof. vm_compute. discriminate. Qed.

(** ** Orientation Resolver *)

Lemma rank_nth (sel : nat -> bool) (n f : nat) :
  f < n -> sel f = true -> nth (rank sel f) (mask_idx n sel) 0 = f.
Proof.
  intros Hf Hs. unfold rank, mask_idx.
  replace n with (f + S (n - S f)) by lia.
  rewrite seq_app, filter_app. cbn [seq filter Nat.add]. rewrite Hs.
  apply nth_middle.
Qed.

Lemma mask_idx_selected (sel : nat -> bool) (n k : nat) :
  k < length (mask_idx n sel) -> sel (nth k (mask_idx n sel) 0) = true.
Proof.
  intros Hk. pose proof (nth_In (mask_idx n sel) 0 Hk) as Hin.
  unfold mask_idx in Hin at 2. apply filter_In in Hin. apply Hin.
Qed.

Lemma Qeq_bool_false (x y : Q) : Qeq_bool x y = false <-> ~ (x == y)%Q.
Proof.
  split.
  - intros H E. apply Qeq_bool_iff in E. congruence.
  - intros H. destruct (Qeq_bool x y) eqn:E; [|reflexivity].
    apply Qeq_bool_iff in E. contradiction.
Qed.

Lemma quat_sel_true (quats : arr2) (f : nat) :
  f < rows quats -> ~ (quat_norm quats f == 0)%Q -> quat_sel quats f = true.
Proof.
  intros Hf Hn. unfold quat_sel.
  apply Nat.ltb_lt in Hf. rewrite Hf. apply Qeq_bool_false in Hn. rewrite Hn. reflexivity.
Qed.

Lemma quat_sel_false (quats : arr2) (f : nat) :
  (quat_norm quats f == 0)%Q -> quat_sel quats f = false.
Proof.
  intros Hn. unfold quat_sel. apply Qeq_bool_iff in Hn. rewrite Hn.
  apply andb_false_r.
Qed.

(** C7.  A quaternion whose squared norm is zero gets an all-zero rotation
    matrix (so zero forward and up vectors); no number the function divides
    by is zero; the call returns; and a row with non-zero squared norm gets
    the rotation matrix of the negated quaternion scaled by [1 / norm]. *)
Theorem quats_to_rot_mtx_zero_norm (quats : arr2) :
  3 < cols quats ->
  exists theta,
    _quats_to_rot_mtx quats = Some theta /\
    dim0 theta = rows quats /\
    (forall f a b, f < rows quats -> (quat_norm quats f == 0)%Q -> at3 theta f a b = 0%Q) /\
    (forall k, k < len (divisors quats) -> ~ (at1 (divisors quats) k == 0)%Q) /\
    (forall f, f < rows quats -> ~ (quat_norm quats f == 0)%Q ->
       let w := (- at2 quats f 0)%Q in
       let x := (- at2 quats f 1)%Q in
       let y := (- at2 quats f 2)%Q in
       let z := (- at2 quats f 3)%Q in
       let s := (1 / quat_norm quats f)%Q in
       at3 theta f 0 0 = (1 - 2 * s * (y * y + z * z))%Q /\
       at3 theta f 1 0 = (2 * s * (x * y + z * w))%Q /\
       at3 theta f 2 0 = (2 * s * (x * z - y * w))%Q /\
       at3 theta f 0 1 = (2 * s * (x * y - z * w))%Q /\
       at3 theta f 1 1 = (1 - 2 * s * (x * x + z * z))%Q /\
       at3 theta f 2 1 = (2 * s * (y * z + x * w))%Q /\
       at3 theta f 0 2 = (2 * s * (x * z + y * w))%Q /\
       at3 theta f 1 2 = (2 * s * (y * z - x * w))%Q /\
       at3 theta f 2 2 = (1 - 2 * s * (x * x + y * y))%Q).
Proof.
  intros Hc. unfold _quats_to_rot_mtx.
  rewrite guard_true by (apply Nat.ltb_lt; exact Hc). cbn [bind].
  eexists. split; [reflexivity|]. cbn [dim0 at3]. split; [reflexivity|].
  split; [|split].
  - intros f a b Hf Hn. unfold mask_set. rewrite (quat_sel_false quats f Hn).
    reflexivity.
  - intros k Hk Hz. unfold divisors, compress in *. cbn [len at1] in *.
    pose proof (mask_idx_selected _ _ _ Hk) as Hs.
    unfold quat_sel at 1 in Hs. apply andb_prop in Hs. destruct Hs as [_ Hs].
    apply negb_true_iff, Qeq_bool_false in Hs. contradiction.
  - intros f Hf Hn. cbv zeta. unfold mask_set, divisors, compress. cbn [at1].
    rewrite (quat_sel_true quats f Hf Hn), (rank_nth _ _ _ Hf (quat_sel_true quats f Hf Hn)).
    cbn [andb Nat.eqb]. repeat split; reflexivity.
Qed.

(** ** Team Normalizer *)

Lemma Qmult_one_exact (x : Q) : (x * 1)%Q = x.
Proof.
  destruct x as [a b]. unfold Qmult. cbn [Qnum Qden].
  rewrite Z.mul_1_r, Pos.mul_1_r. reflexivity.
Qed.

Lemma Qmult_minus_one_twice_exact (x : Q) : (x * -1 * -1)%Q = x.
Proof.
  destruct x as [a b]. unfold Qmult. cbn [Qnum Qden].
  rewrite !Pos.mul_1_r. f_equal. lia.
Qed.

Lemma invert_sign (c : nat) : nth c _invert 1%Q = 1%Q \/ nth c _invert 1%Q = (-1)%Q.
Proof.
  do 55 (destruct c as [|c]; [vm_compute; auto|]).
  left. destruct c; reflexivity.
Qed.

Lemma invert_twice_exact (x : Q) (c : nat) :
  (x * nth c _invert 1 * nth c _invert 1)%Q = x.
Proof.
  destruct (invert_sign c) as [-> | ->].
  - rewrite !Qmult_one_exact. reflexivity.
  - apply Qmult_minus_one_twice_exact.
Qed.

(** C8.  Multiplying by the inversion mask and swapping the teammate and
    opponent channels, done twice, gives back every value of the tensor
    exactly. *)
Theorem team_invert_involutive (on : nat -> bool) (kv : arr4) (p t e c : nat) :
  team_invert on (team_invert on kv) p t e c = kv p t e c.
Proof.
  unfold team_invert, swap_teams, invert_values, assign.
  destruct (on p); cbn [andb]; [|reflexivity].
  destruct c as [|[|[|c]]]; cbn [Nat.eqb orb IS_MATE IS_OPP].
  - apply invert_twice_exact.
  - change (nth 1 _invert 1%Q) with 1%Q. change (nth 2 _invert 1%Q) with 1%Q.
    rewrite !Qmult_one_exact. reflexivity.
  - change (nth 1 _invert 1%Q) with 1%Q. change (nth 2 _invert 1%Q) with 1%Q.
    rewrite !Qmult_one_exact. reflexivity.
  - apply invert_twice_exact.
Qed.

(** ** Frame Transformer *)

(** C3, what the code does to the base channels.  The subtraction on line
    253 indexes the 15-channel view with the offsets of the full row, so it
    lands on channels 10 to 15 of [kv] (the vertical velocity, the forward
    vector and two components of the up vector), which lose the observer's
    position and velocity; the other base channels keep their values. *)
Theorem add_relative_components_base_channels
        (M : NumpyMath) (q kv : arr4) (p t e c : nat) :
  c < start ACTIONS ->
  add_relative_components M q kv p t e c =
  if (10 <=? c) && (c <? 16) then (kv p t e c - q p t 0%nat (c - 5)%nat)%Q else kv p t e c.
Proof.
  intros Hc. unfold ACTIONS, start in Hc. cbn [fst] in Hc.
  do 25 (destruct c as [|c]; [reflexivity|]). lia.
Qed.

Lemma add_relative_components_base_channels_witness :
  add_relative_components zero_angle_math query_at_x1 entity_at_rest 0 0 0 10 = (0 - 1)%Q.
Proof.
  apply (add_relative_components_base_channels zero_angle_math query_at_x1 entity_at_rest
           0 0 0 10).
  cbn. lia.
Defined.

Lemma add_relative_components_overwrites_channel_10 (M : NumpyMath) :
  add_relative_components M query_at_x1 entity_at_rest 0 0 0 10
  <> entity_at_rest 0 0 0 10.
Proof. cbv. discriminate. Qed.

(** ** Well-formed layouts and batches *)

Lemma rlgym_layout_ok : layout_ok rlgym_layout.
Proof. constructor; cbn; lia. Qed.

(** ** Index arithmetic *)

Lemma slice_len_inside (lo hi n : nat) : hi <= n -> slice_len lo hi n = hi - lo.
Proof. unfold slice_len. lia. Qed.

Lemma stride_len_blocks (s off step n r : nat) :
  off < step -> r <= off -> stride_len (s + off) step (s + n * step + r) = n.
Proof.
  intros Hoff Hr. unfold stride_len.
  destruct n as [|n].
  - replace (s + 0 * step + r <=? s + off) with true
      by (symmetry; apply Nat.leb_le; lia).
    reflexivity.
  - replace (s + S n * step + r <=? s + off) with false
      by (symmetry; apply Nat.leb_gt; cbn [Nat.mul]; lia).
    symmetry. apply (Nat.div_unique _ _ _ (r + step - 1 - off)); [lia|].
    cbn [Nat.mul]. nia.
Qed.

Lemma floor_div_blocks (s step n r : nat) :
  r < step ->
  ((Z.of_nat (s + n * step + r) - Z.of_nat s) / Z.of_nat step)%Z = Z.of_nat n.
Proof.
  intros Hr. symmetry. apply (Z.div_unique_pos _ _ _ (Z.of_nat r)); nia.
Qed.

Lemma bidx_lt (n e : nat) : e < n -> bidx n e = e.
Proof. unfold bidx. intros He. destruct (Nat.eqb_spec n 1); [lia|reflexivity]. Qed.

Lemma broadcastable_refl (n : nat) : broadcastable n n = true.
Proof. unfold broadcastable. rewrite Nat.eqb_refl. reflexivity. Qed.

(** ** Tensor Assembler: the rows before team normalisation *)

Ltac each_channel c :=
  do 55 (destruct c as [|c]; [try reflexivity|]); try reflexivity.

Lemma shared_rows_spec (L : StateLayout) (locs encoded_states boost_timers : arr2)
      (n lim : nat) :
  n <= lim ->
  ball_start_index L + 9 <= cols encoded_states ->
  rows locs = 34 -> cols locs = 3 -> cols boost_timers = 34 ->
  len (teams_of L encoded_states) = n ->
  exists kv0,
    shared_rows L locs encoded_states boost_timers n lim (fun _ _ _ _ => 0%Q) = Some kv0 /\
    forall p t e c, kv0 p t e c = shared_cell L locs encoded_states boost_timers n lim p t e c.
Proof.
  intros Hn Hw Hlr Hlc Hbt Hteams. unfold shared_rows. cbv zeta.
  cbn [cols cols_slice]. rewrite (slice_len_inside _ _ _ Hw).
  replace (ball_start_index L + 9 - ball_start_index L) with 9 by lia.
  rewrite Hlr, Hlc, Hbt, Hteams.
  replace (lim + 1 + 34 - (lim + 1)) with 34 by lia.
  replace (Nat.min n (lim + 1 + 34)) with n by lia.
  rewrite !broadcastable_refl.
  change (guard (broadcastable 9 (length (r_ [POS; LIN_VEL; ANG_VEL])))) with (Some tt).
  change (guard (true && broadcastable 3 (stop POS - start POS))) with (Some tt).
  cbn [bind guard].
  eexists. split; [reflexivity|].
  intros p t e c. unfold assign, shared_cell. cbn [at2].
  destruct (Nat.ltb_spec e n) as [He|He].
  - replace (e =? lim) with false by (symmetry; apply Nat.eqb_neq; lia).
    replace (lim + 1 <=? e) with false by (symmetry; apply Nat.leb_gt; lia).
    rewrite (bidx_lt n e He). cbn [andb].
    each_channel c.
  - destruct (Nat.ltb_spec e lim) as [Hl|Hl].
    + replace (e =? lim) with false by (symmetry; apply Nat.eqb_neq; lia).
      replace (lim + 1 <=? e) with false by (symmetry; apply Nat.leb_gt; lia).
      cbn [andb]. reflexivity.
    + destruct (Nat.eqb_spec e lim) as [->|Hne].
      * replace (lim + 1 <=? lim) with false by (symmetry; apply Nat.leb_gt; lia).
        cbn [andb]. each_channel c.
      * replace (lim + 1 <=? e) with true by (symmetry; apply Nat.leb_le; lia).
        cbn [andb]. each_channel c.
Qed.

Lemma quats_to_rot_mtx_returns (quats : arr2) :
  3 < cols quats ->
  _quats_to_rot_mtx quats
  = Some (match _quats_to_rot_mtx quats with
          | Some theta => theta
          | None => {| dim0 := 0; dim1 := 0; dim2 := 0; at3 := fun _ _ _ => 0%Q |}
          end).
Proof.
  intros Hc. unfold _quats_to_rot_mtx.
  rewrite guard_true by (apply Nat.ltb_lt; exact Hc). reflexivity.
Qed.

Lemma encoded_player_cols (L : StateLayout) (encoded_states : arr2) (i : nat) :
  players_start_index L + (i + 1) * player_length L <= cols encoded_states ->
  cols (encoded_player_of L encoded_states i) = player_length L.
Proof.
  intros Hw. unfold encoded_player_of. cbn [cols cols_slice].
  rewrite slice_len_inside by exact Hw. lia.
Qed.

Lemma player_body_spec (L : StateLayout) (encoded_states demo_timers : arr2)
      (n_entities i : nat) (kv : arr4) :
  layout_ok L -> i < n_entities ->
  players_start_index L + (i + 1) * player_length L <= cols encoded_states ->
  i < cols demo_timers ->
  exists kv',
    player_body L encoded_states demo_timers n_entities i kv = Some kv' /\
    forall p t e c,
      kv' p t e c = if e =? i
                    then player_cell L encoded_states demo_timers i p t c (kv p t e c)
                    else kv p t e c.
Proof.
  intros HL Hi Hw Hd. destruct HL.
  pose proof (encoded_player_cols L encoded_states i Hw) as Hep.
  unfold player_length in Hep.
  unfold player_body, assign_row_slice, assign_row_col. cbv zeta.
  rewrite (guard_true (i <? n_entities)) by (apply Nat.ltb_lt; exact Hi).
  rewrite (quats_to_rot_mtx_returns
             (cols_slice (encoded_player_of L encoded_states i)
                         (SC_CAR_QUAT_W L) (SC_CAR_QUAT_Z L + 1)))
    by (cbn [cols cols_slice]; rewrite Hep, slice_len_inside; lia).
  cbn [cols cols_slice]. rewrite Hep.
  rewrite !slice_len_inside by lia.
  replace (SC_CAR_POS_Z L + 1 - SC_CAR_POS_X L) with 3 by lia.
  replace (SC_CAR_LINEAR_VEL_Z L + 1 - SC_CAR_LINEAR_VEL_X L) with 3 by lia.
  replace (SC_CAR_ANGULAR_VEL_Z L + 1 - SC_CAR_ANGULAR_VEL_X L) with 3 by lia.
  rewrite !(guard_true (_ <? _)) by (apply Nat.ltb_lt; lia).
  change (guard (broadcastable 3 (stop POS - start POS))) with (Some tt).
  change (guard (broadcastable 3 (stop LIN_VEL - start LIN_VEL))) with (Some tt).
  change (guard (broadcastable 3 (stop ANG_VEL - start ANG_VEL))) with (Some tt).
  cbn [bind].
  eexists. split; [reflexivity|].
  intros p t e c. unfold assign, player_cell, player_field, rot_mtx_of, quats_of.
  cbn [at2 cols_slice encoded_player_of].
  destruct (p =? i); destruct (e =? i); cbn [andb]; each_channel c.
Qed.

Lemma players_loop_spec (L : StateLayout) (encoded_states demo_timers : arr2)
      (n_entities n : nat) (kv0 : arr4) :
  layout_ok L -> n <= n_entities ->
  players_start_index L + n * player_length L <= cols encoded_states ->
  n <= cols demo_timers ->
  exists kv,
    for_range 0 n (player_body L encoded_states demo_timers n_entities) kv0 = Some kv /\
    forall p t e c,
      kv p t e c = if e <? n
                   then player_cell L encoded_states demo_timers e p t c (kv0 p t e c)
                   else kv0 p t e c.
Proof.
  intros HL Hn Hw Hd.
  destruct (for_range_inv
              (fun k kv => forall p t e c,
                   kv p t e c = if e <? k
                                then player_cell L encoded_states demo_timers e p t c
                                                 (kv0 p t e c)
                                else kv0 p t e c)
              (player_body L encoded_states demo_timers n_entities) n 0 kv0)
    as [kv [Hr Hp]].
  - intros p t e c. reflexivity.
  - intros k kv1 Hk Hinv.
    destruct (player_body_spec L encoded_states demo_timers n_entities k kv1 HL)
      as [kv2 [Hb Hcell]]; [lia|nia|lia|].
    exists kv2. split; [exact Hb|].
    intros p t e c. rewrite Hcell, Hinv.
    destruct (Nat.eqb_spec e k) as [->|Hne].
    + rewrite Nat.ltb_irrefl.
      replace (k <? S k) with true by (symmetry; apply Nat.ltb_lt; lia). reflexivity.
    + destruct (Nat.ltb_spec e k), (Nat.ltb_spec e (S k)); try lia; reflexivity.
  - exists kv. split; [exact Hr|exact Hp].
Qed.

(** On a well-formed batch, with unchecked timer reads, the builder returns:
    the rows it hands to the last stage are the player rows for the [n]
    players found in the record, then what [shared_rows] wrote. *)
Lemma batched_build_obs_runs (L : StateLayout) (M : NumpyMath) (locs : arr2)
      (mem : array_id -> nat -> nat -> Q) (self : Builder) (encoded_states : arr2)
      (n slack lim : nat) :
  layout_ok L -> batch_ok L locs self encoded_states n slack lim ->
  slack <= 1 -> n <= lim ->
  exists carried_boost carried_demo boost_timers demo_timers kv self',
    self_boost_timers self = Some carried_boost /\
    self_demo_timers self = Some carried_demo /\
    _update_timers (unchecked mem) locs (self_tick_skip self) carried_boost carried_demo
                   (cols_slice encoded_states 3 (3 + 34))
                   (cols_stride encoded_states (players_start_index L + 33) (player_length L))
    = Some (boost_timers, demo_timers) /\
    rows demo_timers = rows encoded_states /\ cols demo_timers = n /\
    (forall p t e c,
        kv p t e c =
        if e <? n
        then player_cell L encoded_states demo_timers e p t c
                         (shared_cell L locs encoded_states boost_timers n lim p t e c)
        else shared_cell L locs encoded_states boost_timers n lim p t e c) /\
    batched_build_obs L M locs (unchecked mem) self encoded_states
    = Some (self', finish_obs M (teams_of L encoded_states) (rows encoded_states) n lim
                              (fun _ _ _ _ => 0%Q) kv (fun _ _ _ => 0%Q)).
Proof.
  intros HL HB Hs Hn. pose proof HL as HL'. destruct HL', HB.
  destruct ok_boost_timers0 as [cb [Hcb Hcbl]].
  destruct ok_demo_timers0 as [cd [Hcd Hcdl]].
  destruct ok_locs0 as [Hlr Hlc].
  unfold player_length in *. unfold players_start_index, ball_start_index in ok_width0.
  assert (Hteams : len (teams_of L encoded_states) = n).
  { unfold teams_of, row_stride. cbn [len].
    unfold players_start_index, ball_start_index, player_length.
    rewrite ok_width0. apply stride_len_blocks; lia. }
  assert (Hdcols : cols (cols_stride encoded_states (players_start_index L + 33)
                                     (player_length L)) = n).
  { cbn [cols cols_stride].
    unfold players_start_index, ball_start_index, player_length.
    rewrite ok_width0. apply stride_len_blocks; lia. }
  assert (Hbcols : cols (cols_slice encoded_states 3 (3 + 34)) = 34).
  { cbn [cols cols_slice]. rewrite slice_len_inside; lia. }
  destruct (update_timers_spec mem locs (self_tick_skip self) cb cd
              (cols_slice encoded_states 3 (3 + 34))
              (cols_stride encoded_states (players_start_index L + 33) (player_length L)))
    as [bt [dt (Hrun & Hbr & Hbc & Hdr & Hdc & _)]].
  { rewrite Hbcols, Hcbl. reflexivity. }
  { rewrite Hdcols, Hcdl. apply broadcastable_refl. }
  rewrite Hbcols in Hbc. rewrite Hdcols in Hdc.
  cbn [rows cols_slice cols_stride] in Hbr, Hdr.
  destruct (shared_rows_spec L locs encoded_states bt n lim Hn) as [kv0 [Hshared Hcell0]];
    try assumption.
  { unfold ball_start_index. lia. }
  destruct (players_loop_spec L encoded_states dt (lim + 1 + 34) n kv0 HL)
    as [kv [Hloop Hcell]].
  { lia. }
  { unfold players_start_index, ball_start_index, player_length. lia. }
  { lia. }
  exists cb, cd, bt, dt, kv. eexists.
  split; [exact Hcb|]. split; [exact Hcd|]. split; [exact Hrun|].
  split; [exact Hdr|]. split; [exact Hdc|]. split.
  { intros p t e c. rewrite Hcell, !Hcell0. reflexivity. }
  unfold batched_build_obs. cbv zeta.
  rewrite (guard_true (negb (player_length L =? 0)))
    by (unfold player_length; apply negb_true_iff, Nat.eqb_neq; lia).
  rewrite Hcb, Hcd. cbn [bind]. rewrite Hrun. cbn [bind fst snd].
  rewrite (guard_true ((0 <? rows bt) && (0 <? rows dt)))
    by (rewrite Hbr, Hdr; apply andb_true_intro; split; apply Nat.ltb_lt; lia).
  cbn [bind].
  assert (Hnz : ((Z.of_nat (cols encoded_states) - Z.of_nat (players_start_index L))
                   / Z.of_nat (player_length L))%Z = Z.of_nat n).
  { unfold players_start_index, ball_start_index, player_length.
    rewrite ok_width0. apply floor_div_blocks. lia. }
  rewrite Hnz.
  assert (Hlim : Z.to_nat (match self_n_players self with
                           | Some k => Z.of_nat k
                           | None => Z.of_nat n
                           end) = lim).
  { rewrite ok_capacity0. destruct (self_n_players self); apply Nat2Z.id. }
  rewrite Hlim, Nat2Z.id.
  rewrite (guard_true (0 <=? Z.of_nat n)%Z) by (apply Z.leb_le; lia).
  cbn [bind]. rewrite Hshared. cbn [bind]. rewrite Hloop. cbn [bind].
  rewrite Hteams, Nat.eqb_refl. cbn [guard bind]. reflexivity.
Qed.

(** The same when the record holds more players than the capacity: the
    player rows then run over the rows of the ball and of the first pads. *)
Lemma shared_rows_over (L : StateLayout) (locs encoded_states boost_timers : arr2)
      (n lim : nat) :
  n <= lim + 35 ->
  ball_start_index L + 9 <= cols encoded_states ->
  rows locs = 34 -> cols locs = 3 -> cols boost_timers = 34 ->
  len (teams_of L encoded_states) = n ->
  exists kv0,
    shared_rows L locs encoded_states boost_timers n lim (fun _ _ _ _ => 0%Q) = Some kv0 /\
    forall p t, kv0 p t lim IS_BALL = 1%Q.
Proof.
  intros Hn Hw Hlr Hlc Hbt Hteams. unfold shared_rows. cbv zeta.
  cbn [cols cols_slice]. rewrite (slice_len_inside _ _ _ Hw).
  replace (ball_start_index L + 9 - ball_start_index L) with 9 by lia.
  rewrite Hlr, Hlc, Hbt, Hteams.
  replace (lim + 1 + 34 - (lim + 1)) with 34 by lia.
  replace (Nat.min n (lim + 1 + 34)) with n by lia.
  rewrite !broadcastable_refl.
  change (guard (broadcastable 9 (length (r_ [POS; LIN_VEL; ANG_VEL])))) with (Some tt).
  change (guard (true && broadcastable 3 (stop POS - start POS))) with (Some tt).
  cbn [bind guard].
  eexists. split; [reflexivity|].
  intros p t. unfold assign.
  replace (lim + 1 <=? lim) with false by (symmetry; apply Nat.leb_gt; lia).
  rewrite Nat.eqb_refl. destruct (lim <? n); reflexivity.
Qed.

Lemma batched_build_obs_runs_over (L : StateLayout) (M : NumpyMath) (locs : arr2)
      (mem : array_id -> nat -> nat -> Q) (self : Builder) (encoded_states : arr2)
      (n slack lim : nat) :
  layout_ok L -> batch_ok L locs self encoded_states n slack lim ->
  slack <= 1 -> n <= lim + 35 ->
  exists demo_timers kv0 kv self',
    (forall p t, kv0 p t lim IS_BALL = 1%Q) /\
    (forall p t e c,
        kv p t e c =
        if e <? n
        then player_cell L encoded_states demo_timers e p t c (kv0 p t e c)
        else kv0 p t e c) /\
    batched_build_obs L M locs (unchecked mem) self encoded_states
    = Some (self', finish_obs M (teams_of L encoded_states) (rows encoded_states) n lim
                              (fun _ _ _ _ => 0%Q) kv (fun _ _ _ => 0%Q)).
Proof.
  intros HL HB Hs Hn. pose proof HL as HL'. destruct HL', HB.
  destruct ok_boost_timers0 as [cb [Hcb Hcbl]].
  destruct ok_demo_timers0 as [cd [Hcd Hcdl]].
  destruct ok_locs0 as [Hlr Hlc].
  unfold player_length in *. unfold players_start_index, ball_start_index in ok_width0.
  assert (Hteams : len (teams_of L encoded_states) = n).
  { unfold teams_of, row_stride. cbn [len].
    unfold players_start_index, ball_start_index, player_length.
    rewrite ok_width0. apply stride_len_blocks; lia. }
  assert (Hdcols : cols (cols_stride encoded_states (players_start_index L + 33)
                                     (player_length L)) = n).
  { cbn [cols cols_stride].
    unfold players_start_index, ball_start_index, player_length.
    rewrite ok_width0. apply stride_len_blocks; lia. }
  assert (Hbcols : cols (cols_slice encoded_states 3 (3 + 34)) = 34).
  { cbn [cols cols_slice]. rewrite slice_len_inside; lia. }
  destruct (update_timers_spec mem locs (self_tick_skip self) cb cd
              (cols_slice encoded_states 3 (3 + 34))
              (cols_stride encoded_states (players_start_index L + 33) (player_length L)))
    as [bt [dt (Hrun & Hbr & Hbc & Hdr & Hdc & _)]].
  { rewrite Hbcols, Hcbl. reflexivity. }
  { rewrite Hdcols, Hcdl. apply broadcastable_refl. }
  rewrite Hbcols in Hbc. rewrite Hdcols in Hdc.
  cbn [rows cols_slice cols_stride] in Hbr, Hdr.
  destruct (shared_rows_over L locs encoded_states bt n lim Hn) as [kv0 [Hshared Hball]];
    try assumption.
  { unfold ball_start_index. lia. }
  destruct (players_loop_spec L encoded_states dt (lim + 1 + 34) n kv0 HL)
    as [kv [Hloop Hcell]].
  { lia. }
  { unfold players_start_index, ball_start_index, player_length. lia. }
  { lia. }
  exists dt, kv0, kv. eexists.
  split; [exact Hball|]. split; [exact Hcell|].
  unfold batched_build_obs. cbv zeta.
  rewrite (guard_true (negb (player_length L =? 0)))
    by (unfold player_length; apply negb_true_iff, Nat.eqb_neq; lia).
  rewrite Hcb, Hcd. cbn [bind]. rewrite Hrun. cbn [bind fst snd].
  rewrite (guard_true ((0 <? rows bt) && (0 <? rows dt)))
    by (rewrite Hbr, Hdr; apply andb_true_intro; split; apply Nat.ltb_lt; lia).
  cbn [bind].
  assert (Hnz : ((Z.of_nat (cols encoded_states) - Z.of_nat (players_start_index L))
                   / Z.of_nat (player_length L))%Z = Z.of_nat n).
  { unfold players_start_index, ball_start_index, player_length.
    rewrite ok_width0. apply floor_div_blocks. lia. }
  rewrite Hnz.
  assert (Hlim : Z.to_nat (match self_n_players self with
                           | Some k => Z.of_nat k
                           | None => Z.of_nat n
                           end) = lim).
  { rewrite ok_capacity0. destruct (self_n_players self); apply Nat2Z.id. }
  rewrite Hlim, Nat2Z.id.
  rewrite (guard_true (0 <=? Z.of_nat n)%Z) by (apply Z.leb_le; lia).
  cbn [bind]. rewrite Hshared. cbn [bind]. rewrite Hloop. cbn [bind].
  rewrite Hteams, Nat.eqb_refl. cbn [guard bind]. reflexivity.
Qed.

(** ** The returned list *)

Lemma tab_length {A : Type} (n : nat) (f : nat -> A) : length (tab n f) = n.
Proof. unfold tab. rewrite length_map, length_seq. reflexivity. Qed.

Lemma tab_nth_error {A : Type} (n : nat) (f : nat -> A) (i : nat) (a : A) :
  nth_error (tab n f) i = Some a -> i < n /\ a = f i.
Proof.
  intros H. assert (Hi : i < n).
  { rewrite <- (tab_length n f). apply nth_error_Some. congruence. }
  split; [exact Hi|]. unfold tab in H.
  rewrite (map_nth_error f i (seq 0 n) (d := i)) in H; [congruence|].
  rewrite (nth_error_nth' _ 0) by (rewrite length_seq; exact Hi).
  rewrite seq_nth by exact Hi. reflexivity.
Qed.

Lemma count_in_range (a b m : nat) :
  length (filter (fun e => (a <=? e) && (e <? b)) (seq 0 m)) = Nat.min b m - a.
Proof.
  induction m as [|m IH]; [cbn; lia|].
  rewrite seq_S, filter_app, length_app, IH. cbn [filter Nat.add].
  destruct (Nat.leb_spec a m), (Nat.ltb_spec m b); cbn [andb length]; lia.
Qed.

(** ** Mask *)

(** C9.  With room for [lim] players and [n] players in the record, the
    builder returns one triple per player; every mask has one row per tick
    and one column per entity row, marks exactly the rows [n .. lim - 1]
    with 1, the same ones at every tick and for every observer, and so
    marks [lim - n] rows per tick. *)
Theorem mask_marks_unused_capacity (L : StateLayout) (M : NumpyMath) (locs : arr2)
        (mem : array_id -> nat -> nat -> Q) (self : Builder) (encoded_states : arr2)
        (n slack lim : nat) :
  layout_ok L -> batch_ok L locs self encoded_states n slack lim ->
  slack <= 1 -> n <= lim ->
  exists self' obs,
    batched_build_obs L M locs (unchecked mem) self encoded_states = Some (self', obs) /\
    length obs = n /\
    forall i o, nth_error obs i = Some o ->
      rows (obs_m o) = rows encoded_states /\
      cols (obs_m o) = lim + 1 + 34 /\
      (forall t e, at2 (obs_m o) t e = if (n <=? e) && (e <? lim) then 1%Q else 0%Q) /\
      (forall t, length (filter (fun e => Qeq_bool (at2 (obs_m o) t e) 1)
                                (seq 0 (cols (obs_m o)))) = lim - n).
Proof.
  intros HL HB Hs Hn.
  destruct (batched_build_obs_runs L M locs mem self encoded_states n slack lim HL HB Hs Hn)
    as (cb & cd & bt & dt & kv & self' & _ & _ & _ & _ & _ & _ & Hrun).
  eexists self', _. split; [exact Hrun|]. unfold finish_obs.
  split; [apply tab_length|].
  intros i o Ho. apply tab_nth_error in Ho. destruct Ho as [Hi ->].
  cbn [obs_m rows cols at2]. split; [reflexivity|]. split; [reflexivity|].
  split; [reflexivity|].
  intros t.
  rewrite (filter_ext _ (fun e => (n <=? e) && (e <? lim))).
  - rewrite count_in_range. lia.
  - intros e. destruct ((n <=? e) && (e <? lim)); reflexivity.
Qed.

Lemma mask_marks_unused_capacity_witness :
  exists self' obs,
    batched_build_obs rlgym_layout zero_angle_math BOOST_LOCATIONS (unchecked stray_ones)
                      (fresh_builder (Some 6) 2) two_players_one_tick = Some (self', obs) /\
    length obs = 2 /\
    forall i o, nth_error obs i = Some o ->
      forall t, length (filter (fun e => Qeq_bool (at2 (obs_m o) t e) 1)
                               (seq 0 (cols (obs_m o)))) = 4.
Proof.
  destruct (mask_marks_unused_capacity rlgym_layout zero_angle_math BOOST_LOCATIONS
              stray_ones (fresh_builder (Some 6) 2) two_players_one_tick 2 0 6)
    as (self' & obs & Hrun & Hlen & Hobs).
  - exact rlgym_layout_ok.
  - constructor; cbn; try lia; try reflexivity; eexists; split; reflexivity.
  - lia.
  - lia.
  - exists self', obs. split; [exact Hrun|]. split; [exact Hlen|].
    intros i o Ho t. apply (Hobs i o Ho).
Defined.

(** ** Record width *)

Lemma stride_len_over (s step n r : nat) :
  2 <= r < step -> stride_len (s + 1) step (s + n * step + r) = n + 1.
Proof.
  intros Hr. unfold stride_len.
  replace (s + n * step + r <=? s + 1) with false by (symmetry; apply Nat.leb_gt; lia).
  symmetry. apply (Nat.div_unique _ _ _ (r - 2)); [lia|]. nia.
Qed.

(** The call raises when the team column does not have one entry per player
    the width was floored to: [kv[teams == 1]] needs a boolean index as long
    as the axis. *)
Lemma team_count_mismatch_raises (L : StateLayout) (M : NumpyMath) (locs : arr2)
      (oob : oracle) (self : Builder) (encoded_states : arr2) (n : nat) :
  ((Z.of_nat (cols encoded_states) - Z.of_nat (players_start_index L))
     / Z.of_nat (player_length L))%Z = Z.of_nat n ->
  len (teams_of L encoded_states) <> n ->
  batched_build_obs L M locs oob self encoded_states = None.
Proof.
  intros Hnz Hteams. unfold batched_build_obs. cbv zeta.
  destruct (guard (negb (player_length L =? 0))); [|reflexivity]. cbn [bind].
  destruct (self_boost_timers self); [|reflexivity]. cbn [bind].
  destruct (self_demo_timers self); [|reflexivity]. cbn [bind].
  destruct (_update_timers _ _ _ _ _ _ _) as [[bt dt]|]; [|reflexivity]. cbn [bind fst snd].
  destruct (guard ((0 <? rows bt) && (0 <? rows dt))); [|reflexivity]. cbn [bind].
  rewrite Hnz, Nat2Z.id.
  destruct (guard (0 <=? Z.of_nat n)%Z); [|reflexivity]. cbn [bind].
  destruct (shared_rows _ _ _ _ _ _ _); [|reflexivity]. cbn [bind].
  destruct (for_range _ _ _ _); [|reflexivity]. cbn [bind].
  replace (len (teams_of L encoded_states) =? n) with false
    by (symmetry; apply Nat.eqb_neq; exact Hteams).
  reflexivity.
Qed.

(** The call raises when the record holds more players than there are rows
    behind the player slots: [1 - teams] does not fit [kv[:, :, :n_players]]. *)
Lemma too_many_blocks_raises (L : StateLayout) (M : NumpyMath) (locs : arr2)
      (oob : oracle) (self : Builder) (encoded_states : arr2) (n k : nat) :
  ((Z.of_nat (cols encoded_states) - Z.of_nat (players_start_index L))
     / Z.of_nat (player_length L))%Z = Z.of_nat n ->
  len (teams_of L encoded_states) = n ->
  self_n_players self = Some k -> k + 35 < n ->
  batched_build_obs L M locs oob self encoded_states = None.
Proof.
  intros Hnz Hteams Hk Hover. unfold batched_build_obs. cbv zeta.
  destruct (guard (negb (player_length L =? 0))); [|reflexivity]. cbn [bind].
  destruct (self_boost_timers self); [|reflexivity]. cbn [bind].
  destruct (self_demo_timers self); [|reflexivity]. cbn [bind].
  destruct (_update_timers _ _ _ _ _ _ _) as [[bt dt]|]; [|reflexivity]. cbn [bind fst snd].
  destruct (guard ((0 <? rows bt) && (0 <? rows dt))); [|reflexivity]. cbn [bind].
  rewrite Hnz, Hk, !Nat2Z.id.
  destruct (guard (0 <=? Z.of_nat n)%Z); [|reflexivity]. cbn [bind].
  replace (shared_rows L locs encoded_states bt n k (fun _ _ _ _ => 0%Q)) with (@None arr4);
    [reflexivity|].
  symmetry. unfold shared_rows. cbv zeta.
  destruct (guard (broadcastable _ (length (r_ [POS; LIN_VEL; ANG_VEL])))); [|reflexivity].
  cbn [bind].
  destruct (guard (broadcastable (rows locs) _ && broadcastable (cols locs) _));
    [|reflexivity].
  cbn [bind].
  destruct (guard (broadcastable (cols bt) _)); [|reflexivity]. cbn [bind].
  rewrite Hteams. unfold broadcastable.
  replace (Nat.min n (k + 1 + 34)) with (k + 1 + 34) by lia.
  replace (n =? k + 1 + 34) with false by (symmetry; apply Nat.eqb_neq; lia).
  replace (n =? 1) with false by (symmetry; apply Nat.eqb_neq; lia).
  reflexivity.
Qed.

(** C10 as stated fails.  A record of 134 columns is no whole number of
    player blocks behind the 55 leading columns, and the builder returns
    triples for it; and a record of two player blocks is wider than a
    builder with room for one player expects, and the builder returns
    triples for it as well. *)
Lemma extra_column_is_accepted :
  (cols two_players_extra_column = 134 /\
   (forall k, 134 <> players_start_index rlgym_layout + k * player_length rlgym_layout) /\
   batched_build_obs rlgym_layout zero_angle_math BOOST_LOCATIONS (unchecked stray_ones)
                     (fresh_builder (Some 6) 2) two_players_extra_column <> None) /\
  (cols two_players_one_tick
   = players_start_index rlgym_layout + 2 * player_length rlgym_layout /\
   batched_build_obs rlgym_layout zero_angle_math BOOST_LOCATIONS (unchecked stray_ones)
                     (fresh_builder (Some 1) 2) two_players_one_tick <> None).
Proof.
  split; [split; [reflexivity|split]|split; [reflexivity|]].
  - intros k. cbn. lia.
  - intros H.
    assert (Hr : returns (batched_build_obs rlgym_layout zero_angle_math BOOST_LOCATIONS
                            (unchecked stray_ones) (fresh_builder (Some 6) 2)
                            two_players_extra_column) = true) by (vm_compute; reflexivity).
    rewrite H in Hr. discriminate.
  - intros H.
    assert (Hr : returns (batched_build_obs rlgym_layout zero_angle_math BOOST_LOCATIONS
                            (unchecked stray_ones) (fresh_builder (Some 1) 2)
                            two_players_one_tick) = true) by (vm_compute; reflexivity).
    rewrite H in Hr. discriminate.
Qed.

(** C10, amended.  The builder never compares the width with a layout: it
    takes [n = floor((width - players_start_index) / player_length)] for the
    number of players.  The call raises when the record ends before the
    first player block, when two or more columns (less than a block) follow
    the [n] whole player blocks, and when [n] exceeds the capacity by more
    than the 35 rows of the ball and the pads.  A record of [n] whole player
    blocks and at most one more column, with [n] at most the capacity plus
    35, is encoded as [n] players. *)
Theorem width_is_floored_not_validated (L : StateLayout) (M : NumpyMath) (locs : arr2) :
  (forall oob self encoded_states,
      cols encoded_states < players_start_index L ->
      batched_build_obs L M locs oob self encoded_states = None) /\
  (forall oob self encoded_states n slack,
      cols encoded_states = players_start_index L + n * player_length L + slack ->
      2 <= slack < player_length L ->
      batched_build_obs L M locs oob self encoded_states = None) /\
  (forall oob self encoded_states n slack k,
      cols encoded_states = players_start_index L + n * player_length L + slack ->
      slack <= 1 -> 1 < player_length L ->
      self_n_players self = Some k -> k + 35 < n ->
      batched_build_obs L M locs oob self encoded_states = None) /\
  (forall mem self encoded_states n slack lim,
      layout_ok L -> batch_ok L locs self encoded_states n slack lim ->
      slack <= 1 -> n <= lim + 35 ->
      exists self' obs,
        batched_build_obs L M locs (unchecked mem) self encoded_states = Some (self', obs) /\
        length obs = n).
Proof.
  split; [|split; [|split]].
  - intros oob self E Hw. unfold batched_build_obs. cbv zeta.
    destruct (player_length L =? 0) eqn:Hpl; cbn [negb guard bind]; [reflexivity|].
    apply Nat.eqb_neq in Hpl.
    destruct (self_boost_timers self); [|reflexivity]. cbn [bind].
    destruct (self_demo_timers self); [|reflexivity]. cbn [bind].
    destruct (_update_timers _ _ _ _ _ _ _) as [[bt dt]|]; [|reflexivity]. cbn [bind fst snd].
    destruct (guard ((0 <? rows bt) && (0 <? rows dt))); [|reflexivity]. cbn [bind].
    replace (0 <=? (Z.of_nat (cols E) - Z.of_nat (players_start_index L))
                   / Z.of_nat (player_length L))%Z with false; [reflexivity|].
    symmetry. apply Z.leb_gt. apply Z.div_lt_upper_bound; lia.
  - intros oob self E n slack Hw Hslack.
    apply (team_count_mismatch_raises L M locs oob self E n).
    + rewrite Hw. apply floor_div_blocks. lia.
    + unfold teams_of, row_stride. cbn [len]. rewrite Hw.
      rewrite (stride_len_over _ _ _ _ Hslack). lia.
  - intros oob self E n slack k Hw Hslack Hpl Hk Hover.
    apply (too_many_blocks_raises L M locs oob self E n k); try assumption.
    + rewrite Hw. apply floor_div_blocks. lia.
    + unfold teams_of, row_stride. cbn [len]. rewrite Hw.
      apply stride_len_blocks; lia.
  - intros mem self E n slack lim HL HB Hs Hn.
    destruct (batched_build_obs_runs_over L M locs mem self E n slack lim HL HB Hs Hn)
      as (dt & kv0 & kv & self' & _ & _ & Hrun).
    eexists self', _. split; [exact Hrun|]. unfold finish_obs. apply tab_length.
Qed.

Lemma width_is_floored_not_validated_witness :
  batched_build_obs rlgym_layout zero_angle_math BOOST_LOCATIONS (unchecked stray_ones)
                    (fresh_builder (Some 6) 2) two_players_two_extra_columns = None /\
  batched_build_obs rlgym_layout zero_angle_math BOOST_LOCATIONS (unchecked stray_ones)
                    (fresh_builder (Some 0) 36) thirty_six_players_one_tick = None /\
  exists self' obs,
    batched_build_obs rlgym_layout zero_angle_math BOOST_LOCATIONS (unchecked stray_ones)
                      (fresh_builder (Some 6) 2) two_players_extra_column = Some (self', obs) /\
    length obs = 2.
Proof.
  destruct (width_is_floored_not_validated rlgym_layout zero_angle_math BOOST_LOCATIONS)
    as (_ & Hslack & Hover & Hruns).
  split; [|split].
  - apply (Hslack (unchecked stray_ones) (fresh_builder (Some 6) 2)
                  two_players_two_extra_columns 2 2).
    + reflexivity.
    + cbn. lia.
  - apply (Hover (unchecked stray_ones) (fresh_builder (Some 0) 36)
                 thirty_six_players_one_tick 36 0 0).
    + reflexivity.
    + lia.
    + cbn. lia.
    + reflexivity.
    + lia.
  - apply (Hruns stray_ones (fresh_builder (Some 6) 2) two_players_extra_column 2 1 6).
    + exact rlgym_layout_ok.
    + constructor; cbn; try lia; try reflexivity; eexists; split; reflexivity.
    + lia.
    + lia.
Defined.

Lemma quats_to_rot_mtx_zero_norm_witness :
  exists theta,
    _quats_to_rot_mtx identity_and_zero_quats = Some theta /\
    forall a b, at3 theta 1 a b = 0%Q.
Proof.
  destruct (quats_to_rot_mtx_zero_norm identity_and_zero_quats)
    as (theta & Hrun & _ & Hzero & _).
  - cbn. lia.
  - exists theta. split; [exact Hrun|].
    intros a b. apply Hzero; [cbn; lia|reflexivity].
Defined.

(** ** The last stage, cell by cell *)

Lemma Qdiv_one_exact (x : Q) : (x / 1)%Q = x.
Proof. unfold Qdiv. change (/ 1)%Q with 1%Q. apply Qmult_one_exact. Qed.

(** The relative-frame step leaves the base channels outside 10-15 alone. *)
Lemma add_relative_components_keeps (M : NumpyMath) (q kv : arr4) (p t e c : nat) :
  c < 10 \/ 16 <= c < 25 ->
  add_relative_components M q kv p t e c = kv p t e c.
Proof.
  intros Hc. do 25 (destruct c as [|c]; [try reflexivity; lia|]). lia.
Qed.

(** Team inversion and normalisation act on each row by itself. *)
Lemma canon_ext (on : nat -> bool) (kv1 kv2 : arr4) (p t e : nat) :
  (forall c, kv1 p t e c = kv2 p t e c) ->
  forall c, normalize (team_invert on kv1) p t e c = normalize (team_invert on kv2) p t e c.
Proof.
  intros H c. unfold normalize, team_invert, swap_teams, invert_values, assign.
  rewrite !H. reflexivity.
Qed.

(** The five kind channels after team inversion and normalisation: the
    teammate and opponent channels change places for an orange observer,
    and no value changes. *)
Lemma canon_kind (on : nat -> bool) (kv : arr4) (p t e : nat) :
  normalize (team_invert on kv) p t e IS_SELF = kv p t e IS_SELF /\
  normalize (team_invert on kv) p t e IS_MATE
  = (if on p then kv p t e IS_OPP else kv p t e IS_MATE) /\
  normalize (team_invert on kv) p t e IS_OPP
  = (if on p then kv p t e IS_MATE else kv p t e IS_OPP) /\
  normalize (team_invert on kv) p t e IS_BALL = kv p t e IS_BALL /\
  normalize (team_invert on kv) p t e IS_BOOST = kv p t e IS_BOOST.
Proof.
  unfold normalize, team_invert, swap_teams, invert_values, assign.
  destruct (on p); cbn [andb orb Nat.eqb IS_SELF IS_MATE IS_OPP IS_BALL IS_BOOST];
    repeat match goal with
           | |- context [nth ?k _invert 1%Q] =>
               let v := eval vm_compute in (nth k _invert 1%Q) in
               change (nth k _invert 1%Q) with v
           | |- context [nth ?k _norm 1%Q] =>
               let v := eval vm_compute in (nth k _norm 1%Q) in
               change (nth k _norm 1%Q) with v
           end;
    rewrite ?Qdiv_one_exact, ?Qmult_one_exact; repeat split; reflexivity.
Qed.

(** Team inversion and normalisation of a channel other than the team
    flags. *)
Lemma canon_value (on : nat -> bool) (kv : arr4) (p t e c : nat) :
  3 <= c ->
  normalize (team_invert on kv) p t e c
  = ((if on p then kv p t e c * nth c _invert 1 else kv p t e c) / nth c _norm 1)%Q.
Proof.
  intros Hc. unfold normalize, team_invert, swap_teams, invert_values, assign.
  do 3 (destruct c as [|c]; [lia|]).
  cbn [Nat.eqb IS_MATE IS_OPP orb]. rewrite Bool.andb_false_r.
  destruct (on p); reflexivity.
Qed.

(** ** The decoded state of the players *)

Lemma player_rows_decoded (L : StateLayout) (locs encoded_states boost_timers demo_timers : arr2)
      (n lim p t e c : nat) :
  e < n ->
  player_cell L encoded_states demo_timers e p t c
              (shared_cell L locs encoded_states boost_timers n lim p t e c)
  = decoded_state L encoded_states demo_timers p t e c.
Proof.
  intros He. unfold shared_cell, decoded_state, player_cell.
  apply Nat.ltb_lt in He. rewrite He.
  destruct (p =? e); each_channel c.
Qed.

(** ** Self row *)

(** C5 as stated fails: the blue car is at x = 2300 in the record and
    channel 5 of its own row holds 2300/2300; the orange car is at
    x = -2300 and channel 5 of its own row holds +1, mirrored as well. *)
Lemma self_row_is_not_the_raw_state :
  player_field rlgym_layout two_players_one_tick 0 0 (SC_CAR_POS_X rlgym_layout) = 2300%Q /\
  player_field rlgym_layout two_players_one_tick 1 0 (SC_CAR_POS_X rlgym_layout) = (-2300)%Q /\
  exists v w,
    kv_cell (batched_build_obs rlgym_layout zero_angle_math BOOST_LOCATIONS
               (unchecked stray_ones) (fresh_builder (Some 6) 2) two_players_one_tick)
            0 0 0 5 = Some v /\
    kv_cell (batched_build_obs rlgym_layout zero_angle_math BOOST_LOCATIONS
               (unchecked stray_ones) (fresh_builder (Some 6) 2) two_players_one_tick)
            1 0 1 5 = Some w /\
    ~ (v == 2300)%Q /\ ~ (w == -2300)%Q.
Proof.
  split; [reflexivity|]. split; [reflexivity|].
  eexists _, _. split; [vm_compute; reflexivity|]. split; [vm_compute; reflexivity|].
  split; intros H; vm_compute in H; discriminate.
Qed.

(** C5, amended.  In the tensor of observer [i] the self channel is 1 on
    row [i] and 0 on every other row, at every tick.  The observer's query
    row, which is the copy of row [i] taken before the relative-frame step,
    holds the player's decoded state as the Team Normalizer and the
    normalisation leave it: mirrored with the team flags exchanged when the
    observer is orange, and divided by [_norm].  Row [i] of the returned
    tensor holds the same values in channels 0-9 and 16-24. *)
Theorem self_row_is_the_canonical_state (L : StateLayout) (M : NumpyMath) (locs : arr2)
        (mem : array_id -> nat -> nat -> Q) (self : Builder) (encoded_states : arr2)
        (n slack lim : nat) :
  layout_ok L -> batch_ok L locs self encoded_states n slack lim ->
  slack <= 1 -> n <= lim ->
  exists carried_boost carried_demo boost_timers demo_timers self' obs,
    self_boost_timers self = Some carried_boost /\
    self_demo_timers self = Some carried_demo /\
    _update_timers (unchecked mem) locs (self_tick_skip self) carried_boost carried_demo
                   (cols_slice encoded_states 3 (3 + 34))
                   (cols_stride encoded_states (players_start_index L + 33) (player_length L))
    = Some (boost_timers, demo_timers) /\
    batched_build_obs L M locs (unchecked mem) self encoded_states = Some (self', obs) /\
    length obs = n /\
    forall i o, nth_error obs i = Some o ->
      let canon :=
        normalize (team_invert (orange (teams_of L encoded_states))
                               (decoded_state L encoded_states demo_timers)) in
      (forall t e, at3 (obs_kv o) t e IS_SELF = if e =? i then 1%Q else 0%Q) /\
      (forall t c, c < 25 -> at3 (obs_q o) t 0 c = canon i t i c) /\
      (forall t c, c < 10 \/ 16 <= c < 25 -> at3 (obs_kv o) t i c = canon i t i c).
Proof.
  intros HL HB Hs Hn.
  destruct (batched_build_obs_runs L M locs mem self encoded_states n slack lim HL HB Hs Hn)
    as (cb & cd & bt & dt & kv & self' & Hcb & Hcd & Htimers & _ & _ & Hcell & Hrun).
  exists cb, cd, bt, dt, self'. eexists.
  split; [exact Hcb|]. split; [exact Hcd|]. split; [exact Htimers|].
  split; [exact Hrun|]. unfold finish_obs. split; [apply tab_length|].
  intros i o Ho. apply tab_nth_error in Ho. destruct Ho as [Hi ->].
  cbn [obs_kv obs_q at3]. cbv zeta.
  assert (Hrow : forall t c, kv i t i c = decoded_state L encoded_states dt i t i c).
  { intros t c. rewrite Hcell. replace (i <? n) with true by (symmetry; apply Nat.ltb_lt; lia).
    apply player_rows_decoded. exact Hi. }
  split; [|split].
  - intros t e. rewrite add_relative_components_keeps by (left; unfold IS_SELF; lia).
    destruct (canon_kind (orange (teams_of L encoded_states)) kv i t e) as [-> _].
    rewrite Hcell. destruct (Nat.ltb_spec e n) as [He|He].
    + rewrite player_rows_decoded by exact He.
      unfold decoded_state, player_cell. cbn [Nat.eqb IS_SELF IS_MATE IS_OPP].
      rewrite (Nat.eqb_sym i e). reflexivity.
    + replace (e =? i) with false by (symmetry; apply Nat.eqb_neq; lia).
      unfold shared_cell. replace (e <? n) with false by (symmetry; apply Nat.ltb_ge; lia).
      destruct (e <? lim); [reflexivity|]. destruct (e =? lim); reflexivity.
  - intros t c Hc. unfold fill_query, assign.
    replace (i <? n) with true by (symmetry; apply Nat.ltb_lt; lia).
    replace (c <? HAS_JUMP + 1) with true
      by (symmetry; apply Nat.ltb_lt; unfold HAS_JUMP; lia).
    cbn [andb Nat.eqb]. apply canon_ext. intros c'. apply Hrow.
  - intros t c Hc. rewrite add_relative_components_keeps by exact Hc.
    apply canon_ext. intros c'. apply Hrow.
Qed.

Lemma self_row_is_the_canonical_state_witness :
  exists self' obs,
    batched_build_obs rlgym_layout zero_angle_math BOOST_LOCATIONS (unchecked stray_ones)
                      (fresh_builder (Some 6) 2) two_players_one_tick = Some (self', obs) /\
    forall i o, nth_error obs i = Some o ->
      forall t e, at3 (obs_kv o) t e IS_SELF = if e =? i then 1%Q else 0%Q.
Proof.
  destruct (self_row_is_the_canonical_state rlgym_layout zero_angle_math BOOST_LOCATIONS
              stray_ones (fresh_builder (Some 6) 2) two_players_one_tick 2 0 6)
    as (cb & cd & bt & dt & self' & obs & _ & _ & _ & Hrun & _ & Hobs).
  - exact rlgym_layout_ok.
  - constructor; cbn; try lia; try reflexivity; eexists; split; reflexivity.
  - lia.
  - lia.
  - exists self', obs. split; [exact Hrun|].
    intros i o Ho. apply (Hobs i o Ho).
Defined.

(** ** Kind indicators *)

(** C6 as stated fails: the observer's own row carries the self flag and
    the teammate flag. *)
Lemma self_row_is_also_a_teammate :
  IS_SELF <> IS_MATE /\
  exists v0 v1,
    kv_cell (batched_build_obs rlgym_layout zero_angle_math BOOST_LOCATIONS
               (unchecked stray_ones) (fresh_builder (Some 6) 2) two_players_one_tick)
            0 0 0 IS_SELF = Some v0 /\
    kv_cell (batched_build_obs rlgym_layout zero_angle_math BOOST_LOCATIONS
               (unchecked stray_ones) (fresh_builder (Some 6) 2) two_players_one_tick)
            0 0 0 IS_MATE = Some v1 /\
    ~ (v0 == 0)%Q /\ ~ (v1 == 0)%Q.
Proof.
  split; [discriminate|]. exists 1%Q, 1%Q.
  split; [vm_compute; reflexivity|]. split; [vm_compute; reflexivity|].
  split; intros H; vm_compute in H; discriminate.
Qed.

Lemma team_flags_exclude (x : Q) :
  (x == 0 \/ x == 1)%Q -> ~ (1 - x == 0)%Q -> ~ (x == 0)%Q -> False.
Proof.
  intros [H|H] H1 H2; [apply H2; exact H|].
  apply H1. rewrite H. reflexivity.
Qed.

(** The kind channels of row [e] before team inversion: a player row holds
    the two team flags, an unused row nothing, the ball row the ball flag,
    a pad row the pad flag. *)
Lemma raw_kind_channels (L : StateLayout) (locs encoded_states boost_timers demo_timers : arr2)
      (n lim : nat) (kv : arr4) :
  (forall p t e c,
      kv p t e c =
      if e <? n
      then player_cell L encoded_states demo_timers e p t c
                       (shared_cell L locs encoded_states boost_timers n lim p t e c)
      else shared_cell L locs encoded_states boost_timers n lim p t e c) ->
  forall p t e,
    (e < n /\
     kv p t e IS_MATE = (1 - at1 (teams_of L encoded_states) e)%Q /\
     kv p t e IS_OPP = at1 (teams_of L encoded_states) e /\
     kv p t e IS_BALL = 0%Q /\ kv p t e IS_BOOST = 0%Q) \/
    (n <= e /\ kv p t e IS_MATE = 0%Q /\ kv p t e IS_OPP = 0%Q /\
     ((kv p t e IS_BALL = 0%Q /\ kv p t e IS_BOOST = 0%Q) \/
      (kv p t e IS_BALL = 1%Q /\ kv p t e IS_BOOST = 0%Q) \/
      (kv p t e IS_BALL = 0%Q /\ kv p t e IS_BOOST = 1%Q))).
Proof.
  intros Hcell p t e. rewrite !Hcell.
  destruct (Nat.ltb_spec e n) as [He|He].
  - left. split; [exact He|]. rewrite !player_rows_decoded by exact He.
    repeat split; reflexivity.
  - right. split; [exact He|]. unfold shared_cell.
    replace (e <? n) with false by (symmetry; apply Nat.ltb_ge; lia).
    destruct (e <? lim); [repeat split; try reflexivity; left; split; reflexivity|].
    destruct (e =? lim); repeat split; try reflexivity.
    + right; left. split; reflexivity.
    + right; right. split; reflexivity.
Qed.

(** C6, amended.  When the team fields of the record are 0 or 1, at most
    one of the four channels teammate, opponent, ball and pad is non-zero in
    any row; the self channel is non-zero only on the observer's own row,
    and there the teammate channel is non-zero as well. *)
Theorem kind_channels_exclusive_apart_from_self
        (L : StateLayout) (M : NumpyMath) (locs : arr2)
        (mem : array_id -> nat -> nat -> Q) (self : Builder) (encoded_states : arr2)
        (n slack lim : nat) :
  layout_ok L -> batch_ok L locs self encoded_states n slack lim ->
  slack <= 1 -> n <= lim ->
  (forall e, e < n -> (at1 (teams_of L encoded_states) e == 0
                       \/ at1 (teams_of L encoded_states) e == 1)%Q) ->
  exists self' obs,
    batched_build_obs L M locs (unchecked mem) self encoded_states = Some (self', obs) /\
    length obs = n /\
    forall i o, nth_error obs i = Some o ->
      forall t e,
        (forall c1 c2, is_kind_channel c1 -> is_kind_channel c2 ->
                       ~ (at3 (obs_kv o) t e c1 == 0)%Q ->
                       ~ (at3 (obs_kv o) t e c2 == 0)%Q -> c1 = c2) /\
        (~ (at3 (obs_kv o) t e IS_SELF == 0)%Q ->
         e = i /\ ~ (at3 (obs_kv o) t e IS_MATE == 0)%Q).
Proof.
  intros HL HB Hs Hn Hteams.
  destruct (batched_build_obs_runs L M locs mem self encoded_states n slack lim HL HB Hs Hn)
    as (cb & cd & bt & dt & kv & self' & _ & _ & _ & _ & _ & Hcell & Hrun).
  exists self'. eexists. split; [exact Hrun|]. unfold finish_obs.
  split; [apply tab_length|].
  intros i o Ho. apply tab_nth_error in Ho. destruct Ho as [Hi ->].
  cbn [obs_kv at3]. intros t e.
  set (on := orange (teams_of L encoded_states)).
  set (q := fill_query n (fun _ _ _ _ => 0%Q) (normalize (team_invert on kv))).
  assert (Hlow : forall c, c < 10 ->
                           add_relative_components M q (normalize (team_invert on kv)) i t e c
                           = normalize (team_invert on kv) i t e c).
  { intros c Hc. apply add_relative_components_keeps. left. exact Hc. }
  destruct (canon_kind on kv i t e) as (K0 & K1 & K2 & K3 & K4).
  destruct (raw_kind_channels L locs encoded_states bt dt n lim kv Hcell i t e)
    as [(He & R1 & R2 & R3 & R4) | (He & R1 & R2 & R)].
  - (* a player row *)
    specialize (Hteams e He). split.
    + intros c1 c2 [H1 H1'] [H2 H2'] N1 N2.
      rewrite Hlow in N1, N2 by lia.
      assert (C1 : c1 = IS_MATE \/ c1 = IS_OPP \/ c1 = IS_BALL \/ c1 = IS_BOOST)
        by (unfold IS_MATE, IS_OPP, IS_BALL, IS_BOOST; lia).
      assert (C2 : c2 = IS_MATE \/ c2 = IS_OPP \/ c2 = IS_BALL \/ c2 = IS_BOOST)
        by (unfold IS_MATE, IS_OPP, IS_BALL, IS_BOOST; lia).
      destruct C1 as [-> | [-> | [-> | ->]]], C2 as [-> | [-> | [-> | ->]]];
        try reflexivity; exfalso;
        rewrite ?K1, ?K2, ?K3, ?K4 in N1; rewrite ?K1, ?K2, ?K3, ?K4 in N2;
        destruct (on i); rewrite ?R1, ?R2, ?R3, ?R4 in N1; rewrite ?R1, ?R2, ?R3, ?R4 in N2;
        try (apply N1; reflexivity); try (apply N2; reflexivity);
        eauto using team_flags_exclude.
    + intros N0. rewrite Hlow in N0 by (unfold IS_SELF; lia).
      rewrite Hlow by (unfold IS_MATE; lia).
      rewrite K0, Hcell in N0. rewrite K1, R1, R2.
      replace (e <? n) with true in N0 by (symmetry; apply Nat.ltb_lt; lia).
      rewrite player_rows_decoded in N0 by exact He.
      unfold decoded_state, player_cell in N0. cbn [Nat.eqb IS_SELF IS_MATE IS_OPP] in N0.
      destruct (Nat.eqb_spec i e) as [->|Hne]; [|exfalso; apply N0; reflexivity].
      split; [reflexivity|]. unfold on, orange.
      destruct (Qeq_bool (at1 (teams_of L encoded_states) e) 1) eqn:Ht.
      * apply Qeq_bool_iff in Ht. rewrite Ht. discriminate.
      * apply Qeq_bool_false in Ht. destruct Hteams as [H0|H1]; [|contradiction].
        rewrite H0. discriminate.
  - (* an unused row, the ball row or a pad row *)
    split.
    + intros c1 c2 [H1 H1'] [H2 H2'] N1 N2.
      rewrite Hlow in N1, N2 by lia.
      assert (C1 : c1 = IS_MATE \/ c1 = IS_OPP \/ c1 = IS_BALL \/ c1 = IS_BOOST)
        by (unfold IS_MATE, IS_OPP, IS_BALL, IS_BOOST; lia).
      assert (C2 : c2 = IS_MATE \/ c2 = IS_OPP \/ c2 = IS_BALL \/ c2 = IS_BOOST)
        by (unfold IS_MATE, IS_OPP, IS_BALL, IS_BOOST; lia).
      destruct R as [[R3 R4] | [[R3 R4] | [R3 R4]]];
        destruct C1 as [-> | [-> | [-> | ->]]], C2 as [-> | [-> | [-> | ->]]];
        try reflexivity; exfalso;
        rewrite ?K1, ?K2, ?K3, ?K4 in N1; rewrite ?K1, ?K2, ?K3, ?K4 in N2;
        destruct (on i); rewrite ?R1, ?R2, ?R3, ?R4 in N1; rewrite ?R1, ?R2, ?R3, ?R4 in N2;
        try (apply N1; reflexivity); try (apply N2; reflexivity).
    + intros N0. exfalso. rewrite Hlow in N0 by (unfold IS_SELF; lia).
      rewrite K0, Hcell in N0.
      replace (e <? n) with false in N0 by (symmetry; apply Nat.ltb_ge; lia).
      unfold shared_cell in N0.
      replace (e <? n) with false in N0 by (symmetry; apply Nat.ltb_ge; lia).
      apply N0. destruct (e <? lim); [reflexivity|]. destruct (e =? lim); reflexivity.
Qed.

Lemma kind_channels_exclusive_apart_from_self_witness :
  exists self' obs,
    batched_build_obs rlgym_layout zero_angle_math BOOST_LOCATIONS (unchecked stray_ones)
                      (fresh_builder (Some 6) 2) two_players_one_tick = Some (self', obs) /\
    forall i o, nth_error obs i = Some o ->
      forall t e, ~ (at3 (obs_kv o) t e IS_SELF == 0)%Q ->
                  e = i /\ ~ (at3 (obs_kv o) t e IS_MATE == 0)%Q.
Proof.
  destruct (kind_channels_exclusive_apart_from_self rlgym_layout zero_angle_math
              BOOST_LOCATIONS stray_ones (fresh_builder (Some 6) 2) two_players_one_tick 2 0 6)
    as (self' & obs & Hrun & _ & Hobs).
  - exact rlgym_layout_ok.
  - constructor; cbn; try lia; try reflexivity; eexists; split; reflexivity.
  - lia.
  - lia.
  - intros e He. destruct e as [|[|e]]; [left|right|lia]; vm_compute; reflexivity.
  - exists self', obs. split; [exact Hrun|].
    intros i o Ho t e. apply (Hobs i o Ho t e).
Defined.

(** ** The non-batched encoder: what a call leaves and returns *)

Lemma cooled_nonneg (tick_skip : Q) (timers : nat -> Q) (b : nat) :
  (0 <= NectoObsOLD.cooled tick_skip timers b)%Q.
Proof.
  unfold NectoObsOLD.cooled, Qltb. cbv zeta.
  destruct (Qle_bool 0 (timers b - tick_skip / 1200)) eqn:E; cbn [negb].
  - apply Qle_bool_iff. exact E.
  - apply Qle_refl.
Qed.

Lemma add_players_cells (ps : list NectoObsOLD.PlayerData) :
  forall n n_rows cap qkv demos,
    1 <= n -> n + length ps <= n_rows -> n + length ps <= cap + 1 ->
    exists qkv' demos',
      NectoObsOLD.add_players n_rows cap ps n qkv demos = Some (qkv', demos') /\
      (forall e c,
          qkv' e c = if n <=? e
                     then match nth_error ps (e - n) with
                          | Some p => old_player_cell p c (qkv e c)
                          | None => qkv e c
                          end
                     else qkv e c) /\
      (forall b,
          demos' b = if n - 1 <=? b
                     then match nth_error ps (b - (n - 1)) with
                          | Some p => NectoObsOLD.of_bool (NectoObsOLD.is_demoed p)
                          | None => demos b
                          end
                     else demos b).
Proof.
  induction ps as [|a ps IH]; intros n n_rows cap qkv demos Hn Hrows Hcap.
  - exists qkv, demos. split; [reflexivity|]. split.
    + intros e c. destruct (n <=? e); [|reflexivity]. destruct (e - n); reflexivity.
    + intros b. destruct (n - 1 <=? b); [|reflexivity]. destruct (b - (n - 1)); reflexivity.
  - cbn [length] in Hrows, Hcap. cbn [NectoObsOLD.add_players].
    rewrite (guard_true (n <? n_rows)) by (apply Nat.ltb_lt; lia).
    rewrite (guard_true (n - 1 <? cap)) by (apply Nat.ltb_lt; lia).
    cbn [bind].
    match goal with
    | |- context [NectoObsOLD.add_players _ _ _ _ ?Q1 ?D1] => set (q1 := Q1); set (d1 := D1)
    end.
    assert (Hq1 : forall e c,
               q1 e c = if e =? n then old_player_cell a c (qkv e c) else qkv e c).
    { intros e c. subst q1. unfold NectoObsOLD.set_row, old_player_cell.
      destruct (NectoObsOLD.team_num a =? NectoObsOLD.BLUE_TEAM); destruct (e =? n);
        cbn [andb]; do 24 (destruct c as [|c]; [reflexivity|]); reflexivity. }
    destruct (IH (n + 1) n_rows cap q1 d1) as (qkv' & demos' & Hrun & Hk & Hd); try lia.
    exists qkv', demos'. split; [exact Hrun|]. split.
    + intros e c. rewrite Hk, !Hq1.
      destruct (Nat.leb_spec (n + 1) e) as [Hle|Hle].
      * replace (n <=? e) with true by (symmetry; apply Nat.leb_le; lia).
        replace (e - n) with (S (e - (n + 1))) by lia. cbn [nth_error].
        replace (e =? n) with false by (symmetry; apply Nat.eqb_neq; lia). reflexivity.
      * destruct (Nat.eqb_spec e n) as [->|Hne].
        -- rewrite Nat.leb_refl, Nat.sub_diag. reflexivity.
        -- replace (n <=? e) with false by (symmetry; apply Nat.leb_gt; lia). reflexivity.
    + intros b. rewrite Hd. subst d1. cbv beta.
      replace (n + 1 - 1) with n by lia.
      destruct (Nat.leb_spec n b) as [Hle|Hle].
      * replace (n - 1 <=? b) with true by (symmetry; apply Nat.leb_le; lia).
        replace (b - (n - 1)) with (S (b - n)) by lia. cbn [nth_error].
        destruct (nth_error ps (b - n)); [reflexivity|].
        replace (b =? n - 1) with false by (symmetry; apply Nat.eqb_neq; lia). reflexivity.
      * destruct (Nat.eqb_spec b (n - 1)) as [->|Hne].
        -- rewrite Nat.leb_refl, Nat.sub_diag. reflexivity.
        -- replace (n - 1 <=? b) with false by (symmetry; apply Nat.leb_gt; lia). reflexivity.
Qed.

(** What the update leaves in the encoder, for a state it has not seen. *)
Lemma legacy_update_spec (locs : arr2) (old : NectoObsOLD.Builder)
      (s : NectoObsOLD.GameState) (carried_boost carried_demo : arr1) :
  rows locs = 34 -> cols locs = 3 ->
  NectoObsOLD.boost_timers old = Some carried_boost -> len carried_boost = 34 ->
  NectoObsOLD.demo_timers old = Some carried_demo ->
  len carried_demo = NectoObsOLD.n_players old ->
  match NectoObsOLD.current_state old with
  | Some id => id =? NectoObsOLD.ident s
  | None => false
  end = false ->
  len (NectoObsOLD.boost_pads s) = 34 ->
  length (NectoObsOLD.players s) <= NectoObsOLD.n_players old ->
  exists old',
    NectoObsOLD._maybe_update_obs locs old s = (old', Some tt) /\
    NectoObsOLD.n_players old' = NectoObsOLD.n_players old /\
    NectoObsOLD.tick_skip old' = NectoObsOLD.tick_skip old /\
    NectoObsOLD.current_state old' = Some (NectoObsOLD.ident s) /\
    (exists pads, NectoObsOLD.boost_timers old' = Some pads /\ len pads = 34 /\
                  forall b, (0 <= at1 pads b)%Q) /\
    (exists cars, NectoObsOLD.demo_timers old' = Some cars /\
                  len cars = NectoObsOLD.n_players old /\
                  forall b, (0 <= at1 cars b)%Q) /\
    (exists stored,
        NectoObsOLD.current_qkv old' = Some (1 + NectoObsOLD.n_players old + 34, stored) /\
        forall e c,
          stored e c
          = (old_raw locs s (NectoObsOLD.n_players old) carried_boost carried_demo e c
             / nth c NectoObsOLD._norm 1)%Q) /\
    (exists mask,
        NectoObsOLD.current_mask old' = Some (1 + NectoObsOLD.n_players old + 34, mask) /\
        forall e, mask e = if (1 + length (NectoObsOLD.players s) <=? e)
                              && (e <? 1 + NectoObsOLD.n_players old)
                           then 1%Q else 0%Q).
Proof.
  intros Hlr Hlc Hbt Hbtl Hdt Hdtl Hfresh Hpads Hn.
  destruct (add_players_cells (NectoObsOLD.players s) 1
              (1 + NectoObsOLD.n_players old + len (NectoObsOLD.boost_pads s))
              (NectoObsOLD.n_players old)
              (NectoObsOLD.set_row
                 (NectoObsOLD.set_row
                    (NectoObsOLD.set_row
                       (NectoObsOLD.set_row (fun _ _ => 0%Q) 0 (fun c => c =? 3) (fun _ => 1%Q))
                       0 (in_slice (5, 8))
                       (fun c => NectoObsOLD.coord
                                   (NectoObsOLD.position (NectoObsOLD.ball s)) (c - 5)))
                    0 (in_slice (8, 11))
                    (fun c => NectoObsOLD.coord
                                (NectoObsOLD.linear_velocity (NectoObsOLD.ball s)) (c - 8)))
                 0 (in_slice (17, 20))
                 (fun c => NectoObsOLD.coord
                             (NectoObsOLD.angular_velocity (NectoObsOLD.ball s)) (c - 17)))
              (fun _ => 0%Q))
    as (qkv1 & demos1 & Hadd & Hcells & Hdemos); try lia.
  unfold NectoObsOLD._maybe_update_obs. rewrite Hfresh, Hbt.
  cbv zeta. cbn [NectoObsOLD.n_players NectoObsOLD.tick_skip NectoObsOLD.demo_timers
                 NectoObsOLD.boost_timers NectoObsOLD.current_state
                 NectoObsOLD.current_qkv NectoObsOLD.current_mask].
  rewrite Hadd. cbn [bind fst snd].
  rewrite Hlr, Hlc, Hpads, Hdt. cbn [bind]. rewrite Hbtl, Hdtl.
  change (guard (broadcastable 34 34 && broadcastable 3 3)) with (Some tt).
  change (guard ((34 =? 34) && (34 =? 34))) with (Some tt).
  rewrite Nat.eqb_refl. cbn [guard bind fst snd].
  eexists. split; [reflexivity|].
  cbn [NectoObsOLD.n_players NectoObsOLD.tick_skip NectoObsOLD.demo_timers
                 NectoObsOLD.boost_timers NectoObsOLD.current_state
                 NectoObsOLD.current_qkv NectoObsOLD.current_mask].
  split; [reflexivity|]. split; [reflexivity|]. split; [reflexivity|].
  split; [|split; [|split]].
  - eexists. split; [reflexivity|]. split; [exact Hbtl|]. intros b. apply cooled_nonneg.
  - eexists. split; [reflexivity|]. split; [exact Hdtl|]. intros b. apply cooled_nonneg.
  - eexists. split; [reflexivity|]. intros e c. cbv beta. f_equal.
    unfold old_raw. cbv zeta.
    assert (Hball : forall e' c', e' <> 0 ->
              NectoObsOLD.set_row
                (NectoObsOLD.set_row
                   (NectoObsOLD.set_row
                      (NectoObsOLD.set_row (fun _ _ => 0%Q) 0 (fun c => c =? 3) (fun _ => 1%Q))
                      0 (in_slice (5, 8))
                      (fun c => NectoObsOLD.coord
                                  (NectoObsOLD.position (NectoObsOLD.ball s)) (c - 5)))
                   0 (in_slice (8, 11))
                   (fun c => NectoObsOLD.coord
                               (NectoObsOLD.linear_velocity (NectoObsOLD.ball s)) (c - 8)))
                0 (in_slice (17, 20))
                (fun c => NectoObsOLD.coord
                            (NectoObsOLD.angular_velocity (NectoObsOLD.ball s)) (c - 17))
                e' c' = 0%Q).
    { intros e' c' He'. unfold NectoObsOLD.set_row.
      replace (e' =? 0) with false by (symmetry; apply Nat.eqb_neq; exact He').
      reflexivity. }
    destruct (Nat.leb_spec (1 + NectoObsOLD.n_players old) e) as [Hpad|Hpad].
    + (* a pad row *)
      replace (e <? 1 + NectoObsOLD.n_players old) with false
        by (symmetry; apply Nat.ltb_ge; exact Hpad).
      assert (Hz : qkv1 e c = 0%Q).
      { rewrite Hcells. replace (1 <=? e) with true by (symmetry; apply Nat.leb_le; lia).
        replace (nth_error (NectoObsOLD.players s) (e - 1)) with (@None NectoObsOLD.PlayerData)
          by (symmetry; apply nth_error_None; lia).
        apply Hball. lia. }
      rewrite Hz, Bool.andb_false_r. unfold bidx. cbn [Nat.eqb andb].
      do 24 (destruct c as [|c]; [reflexivity|]). reflexivity.
    + replace (1 + NectoObsOLD.n_players old <=? e) with false
        by (symmetry; apply Nat.leb_gt; exact Hpad).
      cbn [andb].
      destruct e as [|e].
      * (* the ball *)
        cbn [Nat.leb Nat.eqb andb]. rewrite Hcells. cbn [Nat.leb].
        unfold NectoObsOLD.set_row, old_ball_cell.
        do 24 (destruct c as [|c]; [reflexivity|]). reflexivity.
      * (* a player slot *)
        replace (S e <? 1 + NectoObsOLD.n_players old) with true
          by (symmetry; apply Nat.ltb_lt; lia).
        cbn [Nat.leb Nat.eqb andb].
        destruct (Nat.eqb_spec c 21) as [->|Hc].
        -- unfold NectoObsOLD.armed. rewrite Hdemos. cbn [Nat.sub Nat.leb].
           unfold demos_of. rewrite Nat.sub_0_r. reflexivity.
        -- rewrite Hcells. cbn [Nat.leb]. rewrite Hball by lia. reflexivity.
  - eexists. split; [reflexivity|]. intros e. reflexivity.
Qed.

(** [build_obs] is the update followed by the triple. *)
Lemma legacy_build_obs_of_update (locs : arr2) (b b' : NectoObsOLD.Builder)
      (s : NectoObsOLD.GameState) (i : nat) (previous_action carried : arr1)
      (ended : option unit) :
  NectoObsOLD.boost_timers b = Some carried ->
  NectoObsOLD._maybe_update_obs locs b s = (b', ended) ->
  NectoObsOLD.build_obs locs b i s previous_action
  = (b', _ <- ended ;; NectoObsOLD.triple_of b' i s previous_action).
Proof.
  intros Hb Hup. unfold NectoObsOLD.build_obs. rewrite Hb, Hup. reflexivity.
Qed.

(** The triple, cell by cell, from the stored tensor and mask. *)
Lemma legacy_triple (b : NectoObsOLD.Builder) (s : NectoObsOLD.GameState) (i : nat)
      (previous_action : arr1) (the_player : NectoObsOLD.PlayerData) (n_rows n_mask : nat)
      (stored : NectoObsOLD.plane) (stored_mask : nat -> Q) :
  nth_error (NectoObsOLD.players s) i = Some the_player ->
  NectoObsOLD.current_qkv b = Some (n_rows, stored) ->
  NectoObsOLD.current_mask b = Some (n_mask, stored_mask) ->
  i + 1 < n_rows ->
  exists q kv mask,
    NectoObsOLD.triple_of b i s previous_action = Some (NectoObsOLD.Triple q kv mask) /\
    dim1 kv = n_rows /\ dim2 kv = 24 /\ cols mask = n_mask /\
    dim2 q = 24 + len previous_action /\
    (forall t e, at2 mask t e = stored_mask e) /\
    (forall t r c, 24 <= c -> at3 q t r c = at1 previous_action (c - 24)) /\
    let canon :=
      old_canon (NectoObsOLD.team_num the_player =? NectoObsOLD.ORANGE_TEAM) stored (i + 1) in
    (forall t r c, c < 24 -> at3 q t r c = canon (i + 1) c) /\
    (forall t e c, at3 kv t e c = if in_slice (5, 11) c
                                  then (canon e c - canon (i + 1)%nat c)%Q
                                  else canon e c).
Proof.
  intros Hp Hq Hm Hi. unfold NectoObsOLD.triple_of. rewrite Hp. cbn [bind].
  rewrite Hq, Hm. cbn [bind fst snd].
  rewrite (guard_true (i + 1 <? n_rows)) by (apply Nat.ltb_lt; exact Hi).
  cbn [bind]. eexists _, _, _. split; [reflexivity|]. cbn [dim1 dim2 cols at2 at3].
  do 4 (split; [reflexivity|]). split; [|split; [|split]].
  - intros _ e. reflexivity.
  - intros _ _ c Hc.
    replace (c <? 24) with false by (symmetry; apply Nat.ltb_ge; exact Hc). reflexivity.
  - intros _ _ c Hc.
    replace (c <? 24) with true by (symmetry; apply Nat.ltb_lt; exact Hc).
    unfold old_canon.
    destruct (NectoObsOLD.team_num the_player =? NectoObsOLD.ORANGE_TEAM); reflexivity.
  - intros _ e c. unfold old_canon.
    destruct (in_slice (5, 11) c) eqn:Hc.
    + assert (Hc' : (c <? 24) = true).
      { unfold in_slice in Hc. cbn [start stop fst snd] in Hc.
        apply andb_prop in Hc. destruct Hc as [_ Hc]. apply Nat.ltb_lt in Hc.
        apply Nat.ltb_lt. lia. }
      rewrite Hc'.
      destruct (NectoObsOLD.team_num the_player =? NectoObsOLD.ORANGE_TEAM); reflexivity.
    + destruct (NectoObsOLD.team_num the_player =? NectoObsOLD.ORANGE_TEAM); reflexivity.
Qed.

(** Outside the three flag channels the observer's view of the stored
    tensor is the stored value, multiplied by [_invert] for an orange
    observer. *)
Lemma old_canon_value (invert : bool) (stored : NectoObsOLD.plane) (main_n e c : nat) :
  3 <= c ->
  old_canon invert stored main_n e c
  = if invert then (stored e c * nth c NectoObsOLD._invert 1)%Q else stored e c.
Proof.
  intros Hc. unfold old_canon. do 3 (destruct c as [|c]; [lia|]).
  destruct invert; cbv beta zeta; unfold NectoObsOLD.set_row; cbn [Nat.eqb];
    rewrite Bool.andb_false_r; reflexivity.
Qed.

Lemma legacy_build_obs_kind (locs : arr2) (old : NectoObsOLD.Builder)
      (s : NectoObsOLD.GameState) (i : nat) (previous_action carried_boost carried_demo : arr1) :
  rows locs = 34 -> cols locs = 3 ->
  NectoObsOLD.boost_timers old = Some carried_boost -> len carried_boost = 34 ->
  NectoObsOLD.demo_timers old = Some carried_demo ->
  len carried_demo = NectoObsOLD.n_players old ->
  match NectoObsOLD.current_state old with
  | Some id => id =? NectoObsOLD.ident s
  | None => false
  end = false ->
  len (NectoObsOLD.boost_pads s) = 34 ->
  length (NectoObsOLD.players s) <= NectoObsOLD.n_players old ->
  i < length (NectoObsOLD.players s) ->
  exists old' q kv mask the_player,
    NectoObsOLD.build_obs locs old i s previous_action
    = (old', Some (NectoObsOLD.Triple q kv mask)) /\
    nth_error (NectoObsOLD.players s) i = Some the_player /\
    dim1 kv = 1 + NectoObsOLD.n_players old + 34 /\
    dim2 kv = 24 /\
    cols mask = 1 + NectoObsOLD.n_players old + 34 /\
    dim2 q = 24 + len previous_action /\
    (forall e, at2 mask 0 e
               = if (1 + length (NectoObsOLD.players s) <=? e)
                    && (e <? 1 + NectoObsOLD.n_players old)
                 then 1%Q else 0%Q) /\
    (forall e c, c < 5 ->
                 at3 kv 0 e c = legacy_kind s (NectoObsOLD.n_players old) i e c) /\
    (forall c, 24 <= c -> at3 q 0 0 c = at1 previous_action (c - 24)) /\
    let canon :=
      old_view (NectoObsOLD.team_num the_player =? NectoObsOLD.ORANGE_TEAM)
               (old_raw locs s (NectoObsOLD.n_players old) carried_boost carried_demo) in
    (forall c, c < 5 -> at3 q 0 0 c = at3 kv 0 (i + 1) c) /\
    (forall c, 3 <= c < 24 -> at3 q 0 0 c = canon (i + 1) c) /\
    (forall e c, 3 <= c < 24 ->
                 at3 kv 0 e c = if in_slice (5, 11) c
                                then (canon e c - canon (i + 1)%nat c)%Q
                                else canon e c).
Proof.
  intros Hlr Hlc Hbt Hbtl Hdt Hdtl Hfresh Hpads Hn Hi.
  destruct (nth_error (NectoObsOLD.players s) i) as [p|] eqn:Hp;
    [|apply nth_error_None in Hp; lia].
  destruct (legacy_update_spec locs old s carried_boost carried_demo)
    as (old' & Hup & _ & _ & _ & _ & _ & (stored & Hq & Hstored) & (mk & Hm & Hmask));
    try assumption.
  destruct (legacy_triple old' s i previous_action p _ _ stored mk Hp Hq Hm ltac:(lia))
    as (q & kv & mask & Htriple & Hd1 & Hd2 & Hmc & Hqd & Hmv & Htail & Hqv & Hkv).
  exists old', q, kv, mask, p.
  split.
  { rewrite (legacy_build_obs_of_update locs old old' s i previous_action carried_boost
               (Some tt) Hbt Hup).
    cbn [bind]. rewrite Htriple. reflexivity. }
  split; [reflexivity|]. split; [exact Hd1|]. split; [exact Hd2|]. split; [exact Hmc|].
  split; [exact Hqd|]. split; [intros e; rewrite Hmv; apply Hmask|].
  cbv zeta in Hqv, Hkv. split.
  { intros e c Hc. rewrite Hkv.
    replace (in_slice (5, 11) c) with false
      by (do 5 (destruct c as [|c]; [reflexivity|]); lia).
    unfold old_canon, legacy_kind. rewrite Hp.
    destruct (NectoObsOLD.team_num p =? NectoObsOLD.ORANGE_TEAM); cbv beta zeta;
      unfold NectoObsOLD.set_row; rewrite !Hstored;
      unfold old_raw, old_ball_cell, old_player_cell, old_team_flags; cbv zeta;
      (destruct (Nat.leb_spec (1 + NectoObsOLD.n_players old) e) as [Hpad|Hpad];
       [ replace (nth_error (NectoObsOLD.players s) (e - 1))
           with (@None NectoObsOLD.PlayerData)
           by (symmetry; apply nth_error_None; lia);
         replace (1 <=? e) with true by (symmetry; apply Nat.leb_le; lia);
         replace (e =? 0) with false by (symmetry; apply Nat.eqb_neq; lia);
         destruct (e =? i + 1);
         do 5 (destruct c as [|c]; [vm_compute; reflexivity|]); lia
       | destruct e as [|e];
         [ destruct (0 =? i + 1);
           do 5 (destruct c as [|c]; [vm_compute; reflexivity|]); lia
         | destruct (S e =? i + 1);
           cbn [Nat.leb Nat.eqb Nat.sub]; rewrite Nat.sub_0_r;
           destruct (nth_error (NectoObsOLD.players s) e) as [pe|];
           try destruct (NectoObsOLD.team_num pe =? NectoObsOLD.BLUE_TEAM);
           do 5 (destruct c as [|c]; [vm_compute; reflexivity|]); lia ] ]). }
  split.
  { intros c Hc. apply Htail. exact Hc. }
  cbv zeta. split; [|split].
  - intros c Hc. rewrite Hqv by lia. rewrite Hkv.
    replace (in_slice (5, 11) c) with false
      by (do 5 (destruct c as [|c]; [reflexivity|]); lia).
    reflexivity.
  - intros c Hc. rewrite Hqv by lia. rewrite old_canon_value by lia.
    unfold old_view. rewrite Hstored. reflexivity.
  - intros e c Hc. rewrite Hkv. rewrite !old_canon_value by lia.
    unfold old_view. rewrite !Hstored. reflexivity.
Qed.

Lemma batched_kind_values (L : StateLayout) (locs encoded_states boost_timers demo_timers : arr2)
      (n lim : nat) (kv : arr4) :
  (forall p t e c,
      kv p t e c =
      if e <? n
      then player_cell L encoded_states demo_timers e p t c
                       (shared_cell L locs encoded_states boost_timers n lim p t e c)
      else shared_cell L locs encoded_states boost_timers n lim p t e c) ->
  forall i t e c, c < 5 ->
    normalize (team_invert (orange (teams_of L encoded_states)) kv) i t e c
    = batched_kind L encoded_states n lim i e c.
Proof.
  intros Hcell i t e c Hc.
  destruct (canon_kind (orange (teams_of L encoded_states)) kv i t e)
    as (K0 & K1 & K2 & K3 & K4).
  assert (Hraw : forall c', c' < 5 ->
            kv i t e c' =
            if e <? n then
              if c' =? IS_SELF then (if e =? i then 1%Q else 0%Q)
              else if c' =? IS_MATE then (1 - at1 (teams_of L encoded_states) e)%Q
              else if c' =? IS_OPP then at1 (teams_of L encoded_states) e
              else 0%Q
            else if e <? lim then 0%Q
            else if e =? lim then (if c' =? IS_BALL then 1%Q else 0%Q)
            else (if c' =? IS_BOOST then 1%Q else 0%Q)).
  { intros c' Hc'. rewrite Hcell. destruct (Nat.ltb_spec e n) as [He|He].
    - rewrite player_rows_decoded by exact He. unfold decoded_state, player_cell.
      rewrite (Nat.eqb_sym i e).
      destruct (e =? i); do 5 (destruct c' as [|c']; [reflexivity|]); lia.
    - unfold shared_cell. replace (e <? n) with false by (symmetry; apply Nat.ltb_ge; lia).
      destruct (e <? lim); [reflexivity|].
      destruct (e =? lim); do 5 (destruct c' as [|c']; [reflexivity|]); lia. }
  unfold batched_kind.
  unfold IS_SELF, IS_MATE, IS_OPP, IS_BALL, IS_BOOST in K0, K1, K2, K3, K4.
  do 5 (destruct c as [|c];
        [ first [rewrite K0 | rewrite K1 | rewrite K2 | rewrite K3 | rewrite K4];
          destruct (orange (teams_of L encoded_states) i);
          rewrite Hraw by lia; reflexivity |]).
  lia.
Qed.

Lemma team_num_orange (x : Q) (k : nat) :
  k <= 1 -> (inject_Z (Z.of_nat k) == x)%Q ->
  Qeq_bool x 1 = (k =? NectoObsOLD.ORANGE_TEAM).
Proof.
  intros Hk Hx. destruct k as [|[|k]]; [| |lia].
  - apply Qeq_bool_false. intros H. rewrite <- Hx in H. vm_compute in H. discriminate.
  - apply Qeq_bool_iff. rewrite <- Hx. reflexivity.
Qed.

Lemma team_flags_agree (x : Q) (k : nat) :
  k <= 1 -> (inject_Z (Z.of_nat k) == x)%Q ->
  ((if k =? NectoObsOLD.BLUE_TEAM then 1 else 0) == 1 - x)%Q /\
  ((if k =? NectoObsOLD.BLUE_TEAM then 0 else 1) == x)%Q.
Proof.
  intros Hk Hx. destruct k as [|[|k]]; [| |lia]; cbn [Nat.eqb NectoObsOLD.BLUE_TEAM];
    rewrite <- Hx; split; reflexivity.
Qed.

(** Row by row, the two encoders give the kind channels the same values. *)
Lemma kinds_agree (L : StateLayout) (encoded_states : arr2) (s : NectoObsOLD.GameState)
      (n lim i tick : nat) :
  same_tick L encoded_states tick s -> len (teams_of L encoded_states) = n ->
  n <= lim -> i < n ->
  forall e c, c < 5 ->
    (legacy_kind s lim i (legacy_row lim e) c == batched_kind L encoded_states n lim i e c)%Q.
Proof.
  intros (Hlen & _ & _ & _ & _ & _ & Hplayers) Hteams Hn Hi e c Hc.
  rewrite Hteams in Hlen.
  destruct (nth_error (NectoObsOLD.players s) i) as [pi|] eqn:Hpi;
    [|apply nth_error_None in Hpi; lia].
  destruct (Hplayers i pi Hpi) as (Hk & Hx & _).
  unfold legacy_kind, batched_kind, orange. rewrite Hpi.
  rewrite (team_num_orange _ _ Hk Hx).
  unfold legacy_row.
  destruct (Nat.ltb_spec e lim) as [Hel|Hel].
  - (* a player slot *)
    replace (e + 1 =? 0) with false by (symmetry; apply Nat.eqb_neq; lia).
    replace (1 <=? e + 1) with true by (symmetry; apply Nat.leb_le; lia).
    replace (1 + lim <=? e + 1) with false by (symmetry; apply Nat.leb_gt; lia).
    replace (e + 1 - 1) with e by lia.
    replace (e + 1 =? i + 1) with (e =? i)
      by (destruct (Nat.eqb_spec e i), (Nat.eqb_spec (e + 1) (i + 1)); lia || reflexivity).
    destruct (Nat.ltb_spec e n) as [He|He].
    + destruct (nth_error (NectoObsOLD.players s) e) as [p|] eqn:Hp;
        [|apply nth_error_None in Hp; lia].
      destruct (Hplayers e p Hp) as (Hkp & Hxp & _).
      destruct (team_flags_agree _ _ Hkp Hxp) as [F1 F2].
      unfold old_team_flags.
      destruct (NectoObsOLD.team_num pi =? NectoObsOLD.ORANGE_TEAM); destruct (e =? i);
        do 5 (destruct c as [|c];
              [cbn [Nat.eqb andb IS_SELF IS_MATE IS_OPP IS_BALL IS_BOOST];
               first [assumption | reflexivity]|]);
        lia.
    + assert (Hnone : nth_error (NectoObsOLD.players s) e = None)
        by (apply nth_error_None; lia).
      rewrite Hnone.
      replace (e =? i) with false by (symmetry; apply Nat.eqb_neq; lia).
      destruct (NectoObsOLD.team_num pi =? NectoObsOLD.ORANGE_TEAM);
        do 5 (destruct c as [|c]; [reflexivity|]); lia.
  - replace (e <? n) with false by (symmetry; apply Nat.ltb_ge; lia).
    destruct (Nat.eqb_spec e lim) as [->|Hne].
    + (* the ball *)
      replace (0 =? i + 1) with false by (symmetry; apply Nat.eqb_neq; lia).
      replace (1 + lim <=? 0) with false by (symmetry; apply Nat.leb_gt; lia).
      destruct (NectoObsOLD.team_num pi =? NectoObsOLD.ORANGE_TEAM);
        do 5 (destruct c as [|c]; [reflexivity|]); lia.
    + (* a pad *)
      replace (e =? i + 1) with false by (symmetry; apply Nat.eqb_neq; lia).
      replace (1 + lim <=? e) with true by (symmetry; apply Nat.leb_le; lia).
      replace (1 <=? e) with true by (symmetry; apply Nat.leb_le; lia).
      replace (e =? 0) with false by (symmetry; apply Nat.eqb_neq; lia).
      assert (Hnone : nth_error (NectoObsOLD.players s) (e - 1) = None)
        by (apply nth_error_None; lia).
      rewrite Hnone.
      destruct (NectoObsOLD.team_num pi =? NectoObsOLD.ORANGE_TEAM);
        do 5 (destruct c as [|c]; [reflexivity|]); lia.
Qed.

Lemma teams_len (L : StateLayout) (locs : arr2) (self : Builder) (encoded_states : arr2)
      (n slack lim : nat) :
  layout_ok L -> batch_ok L locs self encoded_states n slack lim -> slack <= 1 ->
  len (teams_of L encoded_states) = n.
Proof.
  intros HL HB Hs. destruct HL, HB.
  unfold teams_of, row_stride. cbn [len]. rewrite ok_width0.
  unfold player_length. apply stride_len_blocks; lia.
Qed.

(** ** Batched against non-batched *)

Lemma two_players_same_tick :
  same_tick rlgym_layout two_players_one_tick 0 two_players_state.
Proof.
  unfold same_tick, same_vec. split; [reflexivity|]. split; [reflexivity|].
  split.
  { intros b Hb. do 34 (destruct b as [|b]; [vm_compute; reflexivity|]). lia. }
  split; [intros k Hk; do 3 (destruct k as [|k]; [vm_compute; reflexivity|]); lia|].
  split; [intros k Hk; do 3 (destruct k as [|k]; [vm_compute; reflexivity|]); lia|].
  split; [intros k Hk; do 3 (destruct k as [|k]; [vm_compute; reflexivity|]); lia|].
  intros i p Hp. destruct i as [|[|i]]; cbn in Hp.
  - injection Hp as <-. cbv zeta.
    split; [cbn; lia|]. split; [vm_compute; reflexivity|].
    repeat (split;
            [ first [ intros k Hk; do 3 (destruct k as [|k]; [vm_compute; reflexivity|]); lia
                    | vm_compute; reflexivity ] |]).
    vm_compute; reflexivity.
  - injection Hp as <-. cbv zeta.
    split; [cbn; lia|]. split; [vm_compute; reflexivity|].
    repeat (split;
            [ first [ intros k Hk; do 3 (destruct k as [|k]; [vm_compute; reflexivity|]); lia
                    | vm_compute; reflexivity ] |]).
    vm_compute; reflexivity.
  - destruct i; discriminate.
Qed.

(** ** The two encoders, cell by cell *)

Lemma norm_lists_agree (c : nat) :
  c < 24 -> c <> 21 -> nth c NectoObsOLD._norm 1%Q = nth c _norm 1%Q.
Proof. intros Hc Hn. do 24 (destruct c as [|c]; [reflexivity || lia|]). lia. Qed.

Lemma invert_lists_agree (c : nat) :
  c < 24 -> nth c NectoObsOLD._invert 1%Q = nth c _invert 1%Q.
Proof. intros Hc. do 24 (destruct c as [|c]; [reflexivity|]). lia. Qed.

Lemma same_vec_field (L : StateLayout) (encoded_states : arr2) (t i off k : nat)
      (v : NectoObsOLD.vec3) :
  same_vec v encoded_states t (players_start_index L + i * player_length L + off) ->
  k < 3 ->
  (NectoObsOLD.coord v k == player_field L encoded_states i t (off + k))%Q.
Proof.
  intros Hv Hk. unfold player_field.
  replace (players_start_index L + i * player_length L + (off + k))
    with (players_start_index L + i * player_length L + off + k) by lia.
  apply Hv. exact Hk.
Qed.

Lemma same_vec_at (encoded_states : arr2) (t off k j : nat) (v : NectoObsOLD.vec3) :
  same_vec v encoded_states t off -> k < 3 -> j = off + k ->
  (NectoObsOLD.coord v k == at2 encoded_states t j)%Q.
Proof. intros Hv Hk ->. apply Hv. exact Hk. Qed.

(** Before normalisation and mirroring the two encoders hold the same
    values in channels 5-23 of the rows they both describe, apart from the
    charge of the pads and the timers of players and pads. *)
Lemma raw_cells_agree (L : StateLayout) (locs encoded_states bt dt : arr2)
      (s : NectoObsOLD.GameState) (cb cd : arr1) (n lim tick : nat) (kvb : arr4) :
  same_tick L encoded_states tick s -> same_frames L encoded_states tick s ->
  len (teams_of L encoded_states) = n -> n <= lim ->
  (forall p t e c,
      kvb p t e c =
      if e <? n
      then player_cell L encoded_states dt e p t c
                       (shared_cell L locs encoded_states bt n lim p t e c)
      else shared_cell L locs encoded_states bt n lim p t e c) ->
  forall i e c,
    5 <= c < 24 -> (c = 20 -> e <= lim) -> (c = 21 -> n <= e <= lim) ->
    (old_raw locs s lim cb cd (legacy_row lim e) c == kvb i tick e c)%Q.
Proof.
  intros (Hlen & _ & _ & Hbp & Hbv & Hba & Hplayers) Hframes Hteams Hn Hcell i e c Hc H20 H21.
  rewrite Hteams in Hlen. rewrite Hcell.
  unfold legacy_row, old_raw. cbv zeta.
  destruct (Nat.ltb_spec e lim) as [Hel|Hel].
  - (* a player slot *)
    replace (1 + lim <=? e + 1) with false by (symmetry; apply Nat.leb_gt; lia).
    replace (e + 1 =? 0) with false by (symmetry; apply Nat.eqb_neq; lia).
    replace (e + 1 - 1) with e by lia.
    destruct (Nat.ltb_spec e n) as [He|He].
    + assert (Hc21 : (c =? 21) = false) by (apply Nat.eqb_neq; lia).
      rewrite Hc21.
      destruct (nth_error (NectoObsOLD.players s) e) as [p|] eqn:Hp;
        [|apply nth_error_None in Hp; lia].
      destruct (Hplayers e p Hp) as (_ & _ & Hpos & Hvel & Hang & Hboost & _ & Hground & Hflip).
      pose proof (Hframes e p Hp) as Hfr.
      rewrite (player_rows_decoded L locs encoded_states bt dt n lim i tick e c He).
      unfold decoded_state, player_cell, old_player_cell. cbv zeta.
      do 5 (destruct c as [|c]; [lia|]).
      do 19 (destruct c as [|c];
             [ cbn [Nat.eqb IS_SELF IS_MATE IS_OPP in_slice start stop fst snd POS LIN_VEL FW UP
                    ANG_VEL BOOST DEMO ON_GROUND HAS_FLIP HAS_JUMP Nat.leb Nat.ltb andb Nat.sub];
               first [ apply (same_vec_field L encoded_states tick e _ _ _ Hpos); lia
                     | apply (same_vec_field L encoded_states tick e _ _ _ Hvel); lia
                     | apply (same_vec_field L encoded_states tick e _ _ _ Hang); lia
                     | apply Hfr; lia
                     | exact Hboost | exact Hground | exact Hflip | lia ] |]).
      lia.
    + (* an unused slot *)
      assert (Hnone : nth_error (NectoObsOLD.players s) e = None)
        by (apply nth_error_None; lia).
      rewrite Hnone. unfold shared_cell.
      replace (e <? n) with false by (symmetry; apply Nat.ltb_ge; lia).
      replace (e <? lim) with true by (symmetry; apply Nat.ltb_lt; lia).
      destruct (c =? 21); [|reflexivity].
      unfold NectoObsOLD.armed, demos_of. rewrite Hnone. ring.
  - replace (e <? n) with false by (symmetry; apply Nat.ltb_ge; lia).
    unfold shared_cell.
    replace (e <? n) with false by (symmetry; apply Nat.ltb_ge; lia).
    replace (e <? lim) with false by (symmetry; apply Nat.ltb_ge; lia).
    destruct (Nat.eqb_spec e lim) as [->|Hne].
    + (* the ball *)
      replace (1 + lim <=? 0) with false by (symmetry; apply Nat.leb_gt; lia).
      cbn [Nat.eqb]. unfold old_ball_cell.
      do 5 (destruct c as [|c]; [lia|]).
      do 19 (destruct c as [|c];
             [ cbn [Nat.eqb IS_BALL in_slice start stop fst snd Nat.leb Nat.ltb andb Nat.sub];
               vm_compute (index_of _ _);
               first [ apply (same_vec_at _ _ _ _ _ _ Hbp); lia
                     | apply (same_vec_at _ _ _ _ _ _ Hbv); lia
                     | apply (same_vec_at _ _ _ _ _ _ Hba); lia
                     | reflexivity ] |]).
      lia.
    + (* a pad *)
      replace (1 + lim <=? e) with true by (symmetry; apply Nat.leb_le; lia).
      replace (e - (1 + lim)) with (e - (lim + 1)) by lia.
      do 5 (destruct c as [|c]; [lia|]).
      do 19 (destruct c as [|c];
             [ cbn [Nat.eqb IS_BOOST BOOST DEMO in_slice start stop fst snd POS Nat.leb Nat.ltb
                    andb Nat.sub];
               first [ reflexivity | lia ] |]).
      lia.
Qed.

(** The same after normalisation and mirroring: the non-batched encoder
    divides by [_norm] first and multiplies by [_invert] afterwards, the
    batched builder the other way round. *)
Lemma canon_cells_agree (L : StateLayout) (locs encoded_states bt dt : arr2)
      (s : NectoObsOLD.GameState) (cb cd : arr1) (n lim tick i : nat) (kvb : arr4)
      (p : NectoObsOLD.PlayerData) :
  same_tick L encoded_states tick s -> same_frames L encoded_states tick s ->
  len (teams_of L encoded_states) = n -> n <= lim ->
  nth_error (NectoObsOLD.players s) i = Some p ->
  (forall p t e c,
      kvb p t e c =
      if e <? n
      then player_cell L encoded_states dt e p t c
                       (shared_cell L locs encoded_states bt n lim p t e c)
      else shared_cell L locs encoded_states bt n lim p t e c) ->
  forall e c,
    5 <= c < 24 -> (c = 20 -> e <= lim) -> (c = 21 -> n <= e <= lim) ->
    old_view (NectoObsOLD.team_num p =? NectoObsOLD.ORANGE_TEAM)
             (old_raw locs s lim cb cd) (legacy_row lim e) c
    == normalize (team_invert (orange (teams_of L encoded_states)) kvb) i tick e c.
Proof.
  intros Hsame Hframes Hteams Hn Hp Hcell e c Hc H20 H21.
  pose proof (raw_cells_agree L locs encoded_states bt dt s cb cd n lim tick kvb
                Hsame Hframes Hteams Hn Hcell i e c Hc H20 H21) as R.
  destruct Hsame as (_ & _ & _ & _ & _ & _ & Hplayers).
  destruct (Hplayers i p Hp) as (Hk & Hx & _).
  rewrite canon_value by lia. unfold orange, old_view.
  rewrite (team_num_orange _ _ Hk Hx). cbv zeta.
  rewrite (invert_lists_agree c) by lia.
  destruct (Nat.eq_dec c 21) as [->|Hc21].
  - assert (Hz : kvb i tick e 21 = 0%Q).
    { rewrite Hcell. unfold shared_cell.
      replace (e <? n) with false by (symmetry; apply Nat.ltb_ge; lia).
      destruct (Nat.ltb_spec e lim); [reflexivity|].
      replace (e =? lim) with true by (symmetry; apply Nat.eqb_eq; lia).
      reflexivity. }
    rewrite Hz in R |- *.
    destruct (NectoObsOLD.team_num p =? NectoObsOLD.ORANGE_TEAM); rewrite R;
      vm_compute; reflexivity.
  - rewrite (norm_lists_agree c) by lia.
    destruct (NectoObsOLD.team_num p =? NectoObsOLD.ORANGE_TEAM); rewrite R;
      unfold Qdiv; ring.
Qed.

Lemma two_players_same_frames :
  same_frames rlgym_layout two_players_one_tick 0 two_players_state.
Proof.
  intros i p Hp k Hk. destruct i as [|[|i]]; cbn in Hp.
  - injection Hp as <-.
    do 3 (destruct k as [|k]; [split; vm_compute; reflexivity|]). lia.
  - injection Hp as <-.
    do 3 (destruct k as [|k]; [split; vm_compute; reflexivity|]). lia.
  - destruct i; discriminate.
Qed.



(** What line 253 does to channels 10-15. *)
Lemma add_relative_components_shifts (M : NumpyMath) (q kv : arr4) (p t e c : nat) :
  10 <= c < 16 ->
  add_relative_components M q kv p t e c = (kv p t e c - q p t 0%nat (c - 5)%nat)%Q.
Proof.
  intros Hc. do 10 (destruct c as [|c]; [lia|]).
  do 6 (destruct c as [|c]; [reflexivity|]). lia.
Qed.

Ltac ring_over_cells :=
  repeat match goal with
         | |- context [?f ?a ?b ?c ?d] =>
             match type of f with
             | arr4 => let x := fresh "x" in set (x := f a b c d); clearbody x
             end
         end;
  ring.




(** ** Timer Simulator: what the loops compute *)

Lemma max0_nonneg (x : Q) : (0 <= max0 x)%Q.
Proof.
  unfold max0, Qltb. destruct (Qle_bool x 0) eqn:E; cbn [negb].
  - apply Qle_refl.
  - apply Qlt_le_weak, Qnot_le_lt. intros H. apply Qle_bool_iff in H. congruence.
Qed.

Lemma boost_cell_nonneg mem locs tick_skip boost_states i b prev :
  (0 <= boost_cell mem locs tick_skip boost_states i b prev)%Q.
Proof.
  unfold boost_cell.
  destruct (Qeq_bool _ 0); [destruct (Qltb 72 _); discriminate|].
  destruct (Qltb 0 prev); [apply max0_nonneg|apply Qle_refl].
Qed.

Lemma demo_cell_nonneg mem tick_skip demo_states i b prev :
  (0 <= demo_cell mem tick_skip demo_states i b prev)%Q.
Proof.
  unfold demo_cell.
  destruct (Qeq_bool _ 1); [discriminate|].
  destruct (Qltb 0 prev); [apply max0_nonneg|apply Qle_refl].
Qed.

(** With unchecked reads the call returns two matrices of the shapes of the
    state arrays, and the timer of tick [i] is decided by the state row
    [i + 1] (the stray row behind the array for the last tick) and by the
    timer of tick [i - 1] (the carried row for the first tick): the constant
    10, 4 or 3 on a reset, else the previous value less [tick_skip / 120]
    floored at zero when that value is positive, else zero. *)
Theorem update_timers_recurrence
        (mem : array_id -> nat -> nat -> Q) (locs : arr2) (tick_skip : Q)
        (carried_boost carried_demo : arr1) (boost_states demo_states : arr2) :
  broadcastable (len carried_boost) (cols boost_states) = true ->
  broadcastable (len carried_demo) (cols demo_states) = true ->
  exists boost_timers demo_timers,
    _update_timers (unchecked mem) locs tick_skip carried_boost carried_demo
                   boost_states demo_states = Some (boost_timers, demo_timers) /\
    rows boost_timers = rows boost_states /\ cols boost_timers = cols boost_states /\
    rows demo_timers = rows demo_states /\ cols demo_timers = cols demo_states /\
    (forall i b, i < rows boost_states -> b < cols boost_states ->
       at2 boost_timers i b
       = boost_cell mem locs tick_skip boost_states (S i) b
                    (if i =? 0 then carried_row carried_boost b
                     else at2 boost_timers (i - 1) b)) /\
    (forall i b, i < rows demo_states -> b < cols demo_states ->
       at2 demo_timers i b
       = demo_cell mem tick_skip demo_states (S i) b
                   (if i =? 0 then carried_row carried_demo b
                    else at2 demo_timers (i - 1) b)).
Proof.
  intros Hb Hd.
  destruct (update_timers_spec mem locs tick_skip carried_boost carried_demo
              boost_states demo_states Hb Hd)
    as [bt [dt (Hrun & Hbr & Hbc & Hdr & Hdc & Hbs & Hds)]].
  exists bt, dt. split; [exact Hrun|].
  split; [exact Hbr|]. split; [exact Hbc|]. split; [exact Hdr|]. split; [exact Hdc|].
  split.
  - intros i b Hi Hb'. rewrite Hbs by assumption. cbn [timer_at]. f_equal.
    destruct i as [|i]; [reflexivity|].
    cbn [Nat.eqb]. replace (S i - 1) with i by lia. rewrite Hbs by (assumption || lia).
    reflexivity.
  - intros i b Hi Hb'. rewrite Hds by assumption. cbn [timer_at]. f_equal.
    destruct i as [|i]; [reflexivity|].
    cbn [Nat.eqb]. replace (S i - 1) with i by lia. rewrite Hds by (assumption || lia).
    reflexivity.
Qed.

Lemma update_timers_recurrence_witness :
  exists boost_timers demo_timers,
    _update_timers (unchecked stray_ones) BOOST_LOCATIONS 8 (zeros 34) (zeros 1)
                   pad3_consumed_at_tick0 (nobody_demoed 2 1)
    = Some (boost_timers, demo_timers) /\
    rows boost_timers = 2 /\ cols boost_timers = 34.
Proof.
  destruct (update_timers_recurrence stray_ones BOOST_LOCATIONS 8 (zeros 34) (zeros 1)
              pad3_consumed_at_tick0 (nobody_demoed 2 1))
    as (bt & dt & Hrun & Hr & Hc & _).
  - reflexivity.
  - reflexivity.
  - exists bt, dt. split; [exact Hrun|]. split; [exact Hr|exact Hc].
Defined.

(** Every timer the call returns is non-negative, whatever the carried
    timers and whatever lies behind the arrays. *)
Theorem update_timers_nonnegative
        (mem : array_id -> nat -> nat -> Q) (locs : arr2) (tick_skip : Q)
        (carried_boost carried_demo : arr1) (boost_states demo_states : arr2) :
  broadcastable (len carried_boost) (cols boost_states) = true ->
  broadcastable (len carried_demo) (cols demo_states) = true ->
  exists boost_timers demo_timers,
    _update_timers (unchecked mem) locs tick_skip carried_boost carried_demo
                   boost_states demo_states = Some (boost_timers, demo_timers) /\
    (forall i b, i < rows boost_states -> b < cols boost_states ->
                 (0 <= at2 boost_timers i b)%Q) /\
    (forall i b, i < rows demo_states -> b < cols demo_states ->
                 (0 <= at2 demo_timers i b)%Q).
Proof.
  intros Hb Hd.
  destruct (update_timers_spec mem locs tick_skip carried_boost carried_demo
              boost_states demo_states Hb Hd)
    as [bt [dt (Hrun & _ & _ & _ & _ & Hbs & Hds)]].
  exists bt, dt. split; [exact Hrun|]. split.
  - intros i b Hi Hb'. rewrite Hbs by assumption. apply boost_cell_nonneg.
  - intros i b Hi Hb'. rewrite Hds by assumption. apply demo_cell_nonneg.
Qed.

Lemma update_timers_nonnegative_witness :
  exists boost_timers demo_timers,
    _update_timers (unchecked stray_ones) BOOST_LOCATIONS 8 (zeros 34) (zeros 1)
                   pad3_consumed_at_tick0 (nobody_demoed 2 1)
    = Some (boost_timers, demo_timers) /\
    (0 <= at2 boost_timers 1 3)%Q.
Proof.
  destruct (update_timers_nonnegative stray_ones BOOST_LOCATIONS 8 (zeros 34) (zeros 1)
              pad3_consumed_at_tick0 (nobody_demoed 2 1))
    as (bt & dt & Hrun & Hb & _).
  - reflexivity.
  - reflexivity.
  - exists bt, dt. split; [exact Hrun|]. apply Hb; cbn; lia.
Defined.

(** * Further properties of the code *)

(** ** Timer Simulator: bounds *)

Lemma max0_le (x bound : Q) : (0 <= bound)%Q -> (x <= bound)%Q -> (max0 x <= bound)%Q.
Proof. intros H0 Hx. unfold max0. destruct (Qltb 0 x); assumption. Qed.

Lemma step_down_le (prev tick_skip bound : Q) :
  (0 <= tick_skip)%Q -> (prev <= bound)%Q -> (prev - tick_skip / 120 <= bound)%Q.
Proof.
  intros Hs Hp. apply Qle_trans with prev; [|exact Hp].
  assert (H : (0 <= tick_skip / 120)%Q).
  { apply Qle_shift_div_l; [reflexivity|]. rewrite Qmult_0_l. exact Hs. }
  rewrite <- (Qplus_0_r prev) at 2. unfold Qminus. apply Qplus_le_r.
  apply (Qopp_le_compat 0 (tick_skip / 120)). exact H.
Qed.

Lemma timer_at_le (cell : nat -> nat -> Q -> Q) (carried : nat -> Q) (bound : Q) (b : nat) :
  (forall i prev, (prev <= bound)%Q -> (cell i b prev <= bound)%Q) ->
  (carried b <= bound)%Q ->
  forall i, (timer_at cell carried i b <= bound)%Q.
Proof.
  intros Hcell Hc i. induction i as [|i IH]; cbn [timer_at]; [exact Hc|].
  apply Hcell, IH.
Qed.

(** A pad timer never exceeds 10 and a demolition timer never exceeds 3,
    when the carried timers do not and [tick_skip] is not negative. *)
Theorem update_timers_bounded
        (mem : array_id -> nat -> nat -> Q) (locs : arr2) (tick_skip : Q)
        (carried_boost carried_demo : arr1) (boost_states demo_states : arr2) :
  broadcastable (len carried_boost) (cols boost_states) = true ->
  broadcastable (len carried_demo) (cols demo_states) = true ->
  (0 <= tick_skip)%Q ->
  (forall b, b < cols boost_states -> (carried_row carried_boost b <= 10)%Q) ->
  (forall b, b < cols demo_states -> (carried_row carried_demo b <= 3)%Q) ->
  exists boost_timers demo_timers,
    _update_timers (unchecked mem) locs tick_skip carried_boost carried_demo
                   boost_states demo_states = Some (boost_timers, demo_timers) /\
    (forall i b, i < rows boost_states -> b < cols boost_states ->
                 (at2 boost_timers i b <= 10)%Q) /\
    (forall i b, i < rows demo_states -> b < cols demo_states ->
                 (at2 demo_timers i b <= 3)%Q).
Proof.
  intros Hb Hd Hs Hcb Hcd.
  destruct (update_timers_spec mem locs tick_skip carried_boost carried_demo
              boost_states demo_states Hb Hd)
    as [bt [dt (Hrun & _ & _ & _ & _ & Hbs & Hds)]].
  exists bt, dt. split; [exact Hrun|]. split.
  - intros i b Hi Hb'. rewrite Hbs by assumption.
    apply timer_at_le; [|apply Hcb; exact Hb'].
    intros k prev Hp. unfold boost_cell.
    destruct (Qeq_bool _ 0); [destruct (Qltb 72 _); discriminate|].
    destruct (Qltb 0 prev); [|discriminate].
    apply max0_le; [discriminate|]. apply step_down_le; assumption.
  - intros i b Hi Hb'. rewrite Hds by assumption.
    apply timer_at_le; [|apply Hcd; exact Hb'].
    intros k prev Hp. unfold demo_cell.
    destruct (Qeq_bool _ 1); [discriminate|].
    destruct (Qltb 0 prev); [|discriminate].
    apply max0_le; [discriminate|]. apply step_down_le; assumption.
Qed.

Lemma update_timers_bounded_witness :
  exists boost_timers demo_timers,
    _update_timers (unchecked stray_ones) BOOST_LOCATIONS 8 (zeros 34) (zeros 1)
                   pad3_consumed_at_tick0 (nobody_demoed 2 1)
    = Some (boost_timers, demo_timers) /\
    (at2 boost_timers 1 3 <= 10)%Q.
Proof.
  destruct (update_timers_bounded stray_ones BOOST_LOCATIONS 8 (zeros 34) (zeros 1)
              pad3_consumed_at_tick0 (nobody_demoed 2 1))
    as (bt & dt & Hrun & Hb & _).
  - reflexivity.
  - reflexivity.
  - discriminate.
  - intros b _. discriminate.
  - intros b _. discriminate.
  - exists bt, dt. split; [exact Hrun|]. apply Hb; cbn; lia.
Defined.

(** ** Relative frames: the added channels are rotations of the base triples *)

(** The identity a cosine and sine pair satisfies. *)
Lemma zero_angle_math_pythagoras (a : Q) :
  (np_cos zero_angle_math a * np_cos zero_angle_math a
   + np_sin zero_angle_math a * np_sin zero_angle_math a == 1)%Q.
Proof. reflexivity. Qed.

Lemma turned_car_math_pythagoras (a : Q) :
  (np_cos turned_car_math a * np_cos turned_car_math a
   + np_sin turned_car_math a * np_sin turned_car_math a == 1)%Q.
Proof. cbn. destruct (Qeq_bool a 0); reflexivity. Qed.

(** In the tensor [add_relative_components] leaves, every one of the five
    triples of a row (position, velocity, forward, up, angular velocity, as
    the base channels 5-19 hold them after the call) appears twice more in
    channels 25-54: turned about the vertical axis, with its vertical
    component kept and its horizontal length kept, and turned into the
    observer's frame, with its length kept.  Holds for any cosine and sine
    with [cos^2 + sin^2 = 1]. *)
Theorem add_relative_components_rotates
        (M : NumpyMath) (q kv : arr4) (p t e k : nat) :
  k < 5 ->
  (forall a, (np_cos M a * np_cos M a + np_sin M a * np_sin M a == 1)%Q) ->
  let r := add_relative_components M q kv p t e in
  let x := r (start POS + 3 * k) in
  let y := r (start POS + 3 * k + 1) in
  let z := r (start POS + 3 * k + 2) in
  let fx := r (start ACTIONS + k) in
  let fy := r (start ACTIONS + 5 + k) in
  let fz := r (start ACTIONS + 10 + k) in
  let cx := r (start ACTIONS + 15 + k) in
  let cy := r (start ACTIONS + 20 + k) in
  let cz := r (start ACTIONS + 25 + k) in
  fz = z /\
  (fx * fx + fy * fy == x * x + y * y)%Q /\
  (cx * cx + cy * cy + cz * cz == x * x + y * y + z * z)%Q.
Proof.
  intros Hk Htrig.
  destruct k as [|[|[|[|[|k]]]]]; [| | | | |lia];
    cbv beta zeta delta [add_relative_components];
    cbn [start stop POS LIN_VEL FW UP ANG_VEL ACTIONS Nat.leb Nat.ltb Nat.add Nat.sub
         Nat.mul andb Nat.div Nat.modulo Nat.divmod fst snd];
    repeat match goal with
           | |- context [np_cos ?m ?a] =>
               let H := fresh "T" in
               pose proof (Htrig a) as H;
               let c := fresh "c" in
               let s := fresh "s" in
               set (c := np_cos m a) in *; set (s := np_sin m a) in *;
               clearbody c s
           end;
    (split; [reflexivity|]; split; nsatz).
Qed.

Lemma add_relative_components_rotates_witness :
  let r := add_relative_components turned_car_math query_turned entity_ramp 0 0 0 in
  (r 8 == 8 /\ r 9 == 9 /\ r 10 == 9) /\
  (r 26 == - (12 # 5) /\ r 31 == 59 # 5 /\ r 36 == 9) /\
  (r 41 == - (12 # 5) /\ r 46 == 59 # 5 /\ r 51 == 9) /\
  r 36 = r 10 /\
  r 26 * r 26 + r 31 * r 31 == r 8 * r 8 + r 9 * r 9 /\
  r 41 * r 41 + r 46 * r 46 + r 51 * r 51 == r 8 * r 8 + r 9 * r 9 + r 10 * r 10.
Proof.
  cbv zeta.
  split; [repeat split; vm_compute; reflexivity|].
  split; [repeat split; vm_compute; reflexivity|].
  split; [repeat split; vm_compute; reflexivity|].
  apply (add_relative_components_rotates turned_car_math query_turned entity_ramp 0 0 0 1).
  - lia.
  - exact turned_car_math_pythagoras.
Defined.

(** ** convert_to_relative *)

(** What [kv[..., POS.start:LIN_VEL.stop] -= q[...]] leaves in a channel. *)
Lemma convert_to_relative_outside (M : NumpyMath) (q kv : arr4) (p t e c : nat) :
  c < start POS \/ stop ANG_VEL <= c ->
  convert_to_relative M q kv p t e c = kv p t e c.
Proof.
  intros Hc. unfold convert_to_relative.
  cbv [start stop POS LIN_VEL FW ANG_VEL fst snd] in *.
  destruct Hc as [Hc|Hc].
  - assert (E1 : (5 <=? c) = false) by (apply Nat.leb_gt; lia).
    assert (E2 : (5 + 1 <=? c) = false) by (apply Nat.leb_gt; lia).
    rewrite E1, E2. reflexivity.
  - assert (E1 : (c <? 20) = false) by (apply Nat.ltb_ge; lia).
    assert (E2 : (c <? 11) = false) by (apply Nat.ltb_ge; lia).
    rewrite E1, E2, !Bool.andb_false_r. reflexivity.
Qed.

(** [convert_to_relative] changes channels 5-19 only, and of those the five
    vertical components are not turned: position and velocity lose the
    observer's, the forward, up and angular-velocity ones keep their
    value. *)
Theorem convert_to_relative_frame (M : NumpyMath) (q kv : arr4) (p t e : nat) :
  let r := convert_to_relative M q kv p t e in
  (forall c, c < start POS \/ stop ANG_VEL <= c -> r c = kv p t e c) /\
  r 7 = (kv p t e 7%nat - q p t 0%nat 7%nat)%Q /\
  r 10 = (kv p t e 10%nat - q p t 0%nat 10%nat)%Q /\
  r 13 = kv p t e 13 /\ r 16 = kv p t e 16 /\ r 19 = kv p t e 19.
Proof.
  cbv zeta. split; [intros c Hc; apply convert_to_relative_outside; exact Hc|].
  repeat split; reflexivity.
Qed.

(** The horizontal components of each of the five triples are those of the
    shifted triple turned by one angle: their length is kept, for any
    cosine and sine with [cos^2 + sin^2 = 1]. *)
Theorem convert_to_relative_rotates (M : NumpyMath) (q kv : arr4) (p t e k : nat) :
  k < 5 ->
  (forall a, (np_cos M a * np_cos M a + np_sin M a * np_sin M a == 1)%Q) ->
  let r := convert_to_relative M q kv p t e in
  let shifted c :=
    if c <? stop LIN_VEL then (kv p t e c - q p t 0%nat c)%Q else kv p t e c in
  let x := shifted (start POS + 3 * k) in
  let y := shifted (start POS + 3 * k + 1) in
  let nx := r (start POS + 3 * k) in
  let ny := r (start POS + 3 * k + 1) in
  (nx * nx + ny * ny == x * x + y * y)%Q.
Proof.
  intros Hk Htrig.
  destruct k as [|[|[|[|[|k]]]]]; [| | | | |lia];
    cbv beta zeta delta [convert_to_relative];
    cbn [start stop POS LIN_VEL FW UP ANG_VEL ACTIONS Nat.leb Nat.ltb Nat.add Nat.sub
         Nat.mul andb Nat.div Nat.modulo Nat.divmod fst snd Nat.eqb];
    repeat match goal with
           | |- context [np_cos ?m ?a] =>
               let H := fresh "T" in
               pose proof (Htrig a) as H;
               let c := fresh "c" in
               let s := fresh "s" in
               set (c := np_cos m a) in *; set (s := np_sin m a) in *;
               clearbody c s
           end;
    nsatz.
Qed.

Lemma convert_to_relative_rotates_witness :
  let r := convert_to_relative zero_angle_math query_at_x1 entity_at_rest 0 0 0 in
  r 5 * r 5 + r 6 * r 6 == ((0 - 1) * (0 - 1) + (0 - 0) * (0 - 0))%Q.
Proof.
  apply (convert_to_relative_rotates zero_angle_math query_at_x1 entity_at_rest 0 0 0 0).
  - lia.
  - exact zero_angle_math_pythagoras.
Defined.

(** ** add_actions *)

Lemma set_actions_some (q : arr3) (act : arr2) :
  takes_actions q act = true ->
  exists q', set_actions q act = Some q' /\
             dim0 q' = dim0 q /\ dim1 q' = dim1 q /\ dim2 q' = dim2 q /\
             at3 q' = actions_written q act.
Proof.
  unfold takes_actions, set_actions. intros H.
  apply andb_prop in H. destruct H as [H H3].
  apply andb_prop in H. destruct H as [H H2].
  rewrite H, H2, H3. cbn [andb guard bind].
  eexists. split; [reflexivity|]. repeat split.
Qed.

Lemma set_actions_none (q : arr3) (act : arr2) :
  takes_actions q act = false -> set_actions q act = None.
Proof.
  unfold takes_actions, set_actions. intros H.
  destruct ((0 <? dim1 q) && (stop ACTIONS <=? dim2 q)); [|reflexivity].
  cbn [andb] in H. cbn [guard bind].
  destruct (broadcastable (rows act) (dim0 q)
            && broadcastable (cols act) (stop ACTIONS - start ACTIONS)); [discriminate|].
  reflexivity.
Qed.

Lemma add_actions_zip_spec (previous_actions : arr3) (obs : list Obs) (k : nat) :
  (forall i o, nth_error obs i = Some o -> k + i < dim0 previous_actions ->
               takes_actions (obs_q o) (block previous_actions (k + i)) = true) ->
  exists obs',
    add_actions_zip obs previous_actions k = Some obs' /\
    length obs' = length obs /\
    forall i o, nth_error obs i = Some o ->
      if k + i <? dim0 previous_actions then
        exists q', nth_error obs' i = Some (with_query o q') /\
                   dim0 q' = dim0 (obs_q o) /\ dim1 q' = dim1 (obs_q o) /\
                   dim2 q' = dim2 (obs_q o) /\
                   at3 q' = actions_written (obs_q o) (block previous_actions (k + i))
      else nth_error obs' i = Some o.
Proof.
  revert k. induction obs as [|o rest IH]; intros k Hok.
  - exists []. split; [reflexivity|]. split; [reflexivity|].
    intros i o Hi. destruct i; discriminate.
  - cbn [add_actions_zip]. destruct (k <? dim0 previous_actions) eqn:Hk.
    + destruct (set_actions_some (obs_q o) (block previous_actions k)) as (q' & Hq & Hd).
      { specialize (Hok 0 o eq_refl). rewrite Nat.add_0_r in Hok. apply Hok.
        apply Nat.ltb_lt. exact Hk. }
      destruct (IH (k + 1)) as (rest' & Hrest & Hlen & Hcells).
      { intros i o' Hi Hlt. specialize (Hok (S i) o' Hi).
        replace (k + 1 + i) with (k + S i) in * by lia. apply Hok. exact Hlt. }
      rewrite Hq. cbn [bind]. rewrite Hrest. cbn [bind].
      eexists. split; [reflexivity|]. split; [cbn [length]; rewrite Hlen; reflexivity|].
      intros [|i] o' Hi.
      * injection Hi as <-. rewrite Nat.add_0_r, Hk. exists q'. split; [reflexivity|exact Hd].
      * cbn [nth_error] in Hi |- *. specialize (Hcells i o' Hi).
        replace (k + 1 + i) with (k + S i) in * by lia. exact Hcells.
    + eexists. split; [reflexivity|]. split; [reflexivity|].
      intros i o' Hi.
      assert (E : (k + i <? dim0 previous_actions) = false).
      { apply Nat.ltb_ge. apply Nat.ltb_ge in Hk. lia. }
      rewrite E. exact Hi.
Qed.

(** [add_actions] without a player index: observation [i] is paired with
    block [i] of the actions as far as both lists go.  A paired query holds
    the block in channels 25-32 of row 0 (stretched along a ticks or channel
    axis of length one) and is unchanged elsewhere; unpaired observations,
    every Key-Value tensor and every mask are untouched. *)
Theorem add_actions_all_spec (obs : list Obs) (previous_actions : arr3) :
  (forall i o, nth_error obs i = Some o -> i < dim0 previous_actions ->
               takes_actions (obs_q o) (block previous_actions i) = true) ->
  exists obs',
    add_actions_all obs previous_actions = Some obs' /\
    length obs' = length obs /\
    forall i o, nth_error obs i = Some o ->
      exists o', nth_error obs' i = Some o' /\
                 obs_kv o' = obs_kv o /\ obs_m o' = obs_m o /\
                 dim0 (obs_q o') = dim0 (obs_q o) /\
                 dim1 (obs_q o') = dim1 (obs_q o) /\
                 dim2 (obs_q o') = dim2 (obs_q o) /\
                 forall t r c,
                   at3 (obs_q o') t r c
                   = if (i <? dim0 previous_actions) && (r =? 0) && in_slice ACTIONS c
                     then at3 previous_actions i (bidx (dim1 previous_actions) t)
                              (bidx (dim2 previous_actions) (c - start ACTIONS))
                     else at3 (obs_q o) t r c.
Proof.
  intros Hok. destruct (add_actions_zip_spec previous_actions obs 0 Hok)
    as (obs' & Hrun & Hlen & Hcells).
  exists obs'. split; [exact Hrun|]. split; [exact Hlen|].
  intros i o Hi. specialize (Hcells i o Hi). cbn [Nat.add] in Hcells.
  destruct (i <? dim0 previous_actions).
  - destruct Hcells as (q' & Hn & H0 & H1 & H2 & Hat).
    exists (with_query o q'). split; [exact Hn|]. cbn [with_query obs_q obs_kv obs_m].
    repeat split; try assumption. intros t r c. rewrite Hat. reflexivity.
  - exists o. split; [exact Hcells|]. repeat split.
Qed.

Lemma add_actions_all_spec_witness :
  exists obs',
    add_actions_all
      [ {| obs_q := {| dim0 := 1; dim1 := 1; dim2 := 33; at3 := fun _ _ _ => 0%Q |};
           obs_kv := {| dim0 := 1; dim1 := 1; dim2 := 55; at3 := fun _ _ _ => 0%Q |};
           obs_m := {| rows := 1; cols := 1; at2 := fun _ _ => 0%Q |} |} ]
      {| dim0 := 1; dim1 := 1; dim2 := 8; at3 := fun _ _ _ => 1%Q |} = Some obs' /\
    length obs' = 1.
Proof.
  destruct (add_actions_all_spec
      [ {| obs_q := {| dim0 := 1; dim1 := 1; dim2 := 33; at3 := fun _ _ _ => 0%Q |};
           obs_kv := {| dim0 := 1; dim1 := 1; dim2 := 55; at3 := fun _ _ _ => 0%Q |};
           obs_m := {| rows := 1; cols := 1; at2 := fun _ _ => 0%Q |} |} ]
      {| dim0 := 1; dim1 := 1; dim2 := 8; at3 := fun _ _ _ => 1%Q |})
    as (obs' & Hrun & Hlen & _).
  - intros [|[|i]] o Hi Hlt; cbn in Hi; try discriminate.
    injection Hi as <-. reflexivity.
  - exists obs'. split; [exact Hrun|exact Hlen].
Defined.

Lemma replace_nth_length (obs : list Obs) (i : nat) (o : Obs) :
  length (replace_nth obs i o) = length obs.
Proof.
  revert i. induction obs as [|x rest IH]; intros [|i]; cbn; try reflexivity.
  rewrite IH. reflexivity.
Qed.

Lemma replace_nth_same (obs : list Obs) (i : nat) (o : Obs) :
  i < length obs -> nth_error (replace_nth obs i o) i = Some o.
Proof.
  revert i. induction obs as [|x rest IH]; intros [|i] Hi; cbn in *; try lia.
  - reflexivity.
  - apply IH. lia.
Qed.

Lemma replace_nth_other (obs : list Obs) (i j : nat) (o : Obs) :
  i <> j -> nth_error (replace_nth obs i o) j = nth_error obs j.
Proof.
  revert i j. induction obs as [|x rest IH]; intros [|i] [|j] Hij; cbn; try reflexivity.
  - lia.
  - apply IH. lia.
Qed.

(** [add_actions] with a player index raises exactly when the index is past
    the list or that player's query cannot take the block; otherwise it
    writes the block into that player's query and nothing else changes. *)
Theorem add_actions_at_spec (obs : list Obs) (previous_actions : arr2) (player_index : nat) :
  match nth_error obs player_index with
  | None => add_actions_at obs previous_actions player_index = None
  | Some o =>
      if takes_actions (obs_q o) previous_actions then
        exists obs' q',
          add_actions_at obs previous_actions player_index = Some obs' /\
          length obs' = length obs /\
          nth_error obs' player_index = Some (with_query o q') /\
          dim0 q' = dim0 (obs_q o) /\ dim1 q' = dim1 (obs_q o) /\
          dim2 q' = dim2 (obs_q o) /\
          at3 q' = actions_written (obs_q o) previous_actions /\
          forall j, j <> player_index -> nth_error obs' j = nth_error obs j
      else add_actions_at obs previous_actions player_index = None
  end.
Proof.
  unfold add_actions_at. destruct (nth_error obs player_index) as [o|] eqn:Ho; [|reflexivity].
  cbn [bind]. destruct (takes_actions (obs_q o) previous_actions) eqn:Ht.
  - destruct (set_actions_some _ _ Ht) as (q' & Hq & H0 & H1 & H2 & Hat).
    rewrite Hq. cbn [bind]. eexists. exists q'. split; [reflexivity|].
    assert (Hi : player_index < length obs) by (apply nth_error_Some; congruence).
    split; [apply replace_nth_length|]. split; [apply replace_nth_same; exact Hi|].
    repeat split; try assumption.
    intros j Hj. apply replace_nth_other. congruence.
  - rewrite (set_actions_none _ _ Ht). reflexivity.
Qed.

(** ** The rows the observers share *)

Ltac shared_channel Hcell :=
  rewrite add_relative_components_keeps by (cbv [HAS_JUMP]; lia);
  rewrite canon_value by lia;
  rewrite Hcell; unfold shared_cell;
  repeat match goal with
         | H : (?a <? ?b) = _ |- context [?a <? ?b] => rewrite H
         | H : (?a =? ?b) = _ |- context [?a =? ?b] => rewrite H
         end;
  cbv [mirror];
  match goal with
  | |- context [if ?on then _ else _] => destruct on
  end;
  vm_compute (nth _ _invert _); vm_compute (nth _ _norm _);
  cbn [Nat.eqb IS_BALL IS_BOOST BOOST DEMO in_slice start stop fst snd POS Nat.leb Nat.ltb
       andb Nat.sub index_of r_];
  try reflexivity.

(** Every observer's tensor holds the pad table in the rows behind the ball:
    row [lim + 1 + j] is pad [j], its position divided by 2300 with x and y
    negated for an orange observer, the charge channel 1, the timer channel
    the pad's timer of that tick over 10, and zero velocity, up vector,
    angular velocity and flags. *)
Theorem pad_rows_hold_the_pad_table (L : StateLayout) (M : NumpyMath) (locs : arr2)
        (mem : array_id -> nat -> nat -> Q) (self : Builder) (encoded_states : arr2)
        (n slack lim : nat) :
  layout_ok L -> batch_ok L locs self encoded_states n slack lim ->
  slack <= 1 -> n <= lim ->
  exists carried_boost carried_demo boost_timers demo_timers self' obs,
    self_boost_timers self = Some carried_boost /\
    self_demo_timers self = Some carried_demo /\
    _update_timers (unchecked mem) locs (self_tick_skip self) carried_boost carried_demo
                   (cols_slice encoded_states 3 (3 + 34))
                   (cols_stride encoded_states (players_start_index L + 33) (player_length L))
    = Some (boost_timers, demo_timers) /\
    batched_build_obs L M locs (unchecked mem) self encoded_states = Some (self', obs) /\
    forall i o, nth_error obs i = Some o ->
      forall t j, j < 34 ->
        let row := at3 (obs_kv o) t (lim + 1 + j) in
        let side := mirror (orange (teams_of L encoded_states) i) in
        row 5 == side * at2 locs j 0 / 2300 /\
        row 6 == side * at2 locs j 1 / 2300 /\
        row 7 == at2 locs j 2 / 2300 /\
        row 20 == 1 /\
        row 21 == at2 boost_timers t j / 10 /\
        forall c, c = 8 \/ c = 9 \/ 16 <= c < 20 \/ 22 <= c < 25 -> row c == 0.
Proof.
  intros HL HB Hs Hn.
  destruct (batched_build_obs_runs L M locs mem self encoded_states n slack lim HL HB Hs Hn)
    as (cb & cd & bt & dt & kv & self' & Hcb & Hcd & Htimers & _ & _ & Hcell & Hrun).
  exists cb, cd, bt, dt, self'. eexists.
  split; [exact Hcb|]. split; [exact Hcd|]. split; [exact Htimers|].
  split; [exact Hrun|]. unfold finish_obs.
  intros i o Ho. apply tab_nth_error in Ho. destruct Ho as [Hi ->].
  intros t j Hj. cbn [obs_kv at3]. cbv zeta.
  assert (E1 : (lim + 1 + j <? n) = false) by (apply Nat.ltb_ge; lia).
  assert (E2 : (lim + 1 + j <? lim) = false) by (apply Nat.ltb_ge; lia).
  assert (E3 : (lim + 1 + j =? lim) = false) by (apply Nat.eqb_neq; lia).
  assert (E4 : lim + 1 + j - (lim + 1) = j) by lia.
  repeat split.
  - shared_channel Hcell; rewrite E4; unfold Qdiv; ring.
  - shared_channel Hcell; rewrite E4; unfold Qdiv; ring.
  - shared_channel Hcell; rewrite E4; unfold Qdiv; ring.
  - shared_channel Hcell.
  - shared_channel Hcell; rewrite E4; unfold Qdiv; ring.
  - intros c Hc.
    assert (Hcs : c = 8 \/ c = 9 \/ c = 16 \/ c = 17 \/ c = 18 \/ c = 19 \/ c = 22 \/ c = 23
                  \/ c = 24) by lia.
    clear Hc.
    repeat (destruct Hcs as [->|Hcs]); [..|subst c]; shared_channel Hcell.
Qed.

Lemma pad_rows_hold_the_pad_table_witness :
  exists self' obs,
    batched_build_obs rlgym_layout zero_angle_math BOOST_LOCATIONS (unchecked stray_ones)
                      (fresh_builder (Some 6) 2) two_players_one_tick = Some (self', obs) /\
    forall i o, nth_error obs i = Some o ->
      forall t, at3 (obs_kv o) t 7 7 == at2 BOOST_LOCATIONS 0 2 / 2300.
Proof.
  destruct (pad_rows_hold_the_pad_table rlgym_layout zero_angle_math BOOST_LOCATIONS
              stray_ones (fresh_builder (Some 6) 2) two_players_one_tick 2 0 6)
    as (cb & cd & bt & dt & self' & obs & _ & _ & _ & Hrun & Hobs).
  - exact rlgym_layout_ok.
  - constructor; cbn; try lia; try reflexivity; eexists; split; reflexivity.
  - lia.
  - lia.
  - exists self', obs. split; [exact Hrun|].
    intros i o Ho t. destruct (Hobs i o Ho t 0 ltac:(lia)) as (_ & _ & H & _). exact H.
Defined.

(** Every observer's tensor holds the ball in row [lim]: position and the
    horizontal velocity over 2300 and the angular velocity over 5.5, x and y
    negated for an orange observer, and zero in channel 16 and in the
    charge, timer and flag channels 20-24. *)
Theorem ball_row_holds_the_ball (L : StateLayout) (M : NumpyMath) (locs : arr2)
        (mem : array_id -> nat -> nat -> Q) (self : Builder) (encoded_states : arr2)
        (n slack lim : nat) :
  layout_ok L -> batch_ok L locs self encoded_states n slack lim ->
  slack <= 1 -> n <= lim ->
  exists self' obs,
    batched_build_obs L M locs (unchecked mem) self encoded_states = Some (self', obs) /\
    forall i o, nth_error obs i = Some o ->
      forall t,
        let row := at3 (obs_kv o) t lim in
        let ball k := at2 encoded_states t (ball_start_index L + k) in
        let side := mirror (orange (teams_of L encoded_states) i) in
        row 5 == side * ball 0 / 2300 /\
        row 6 == side * ball 1 / 2300 /\
        row 7 == ball 2 / 2300 /\
        row 8 == side * ball 3 / 2300 /\
        row 9 == side * ball 4 / 2300 /\
        row 17 == side * ball 6 / (55 # 10) /\
        row 18 == side * ball 7 / (55 # 10) /\
        row 19 == ball 8 / (55 # 10) /\
        forall c, c = 16 \/ 20 <= c < 25 -> row c == 0.
Proof.
  intros HL HB Hs Hn.
  destruct (batched_build_obs_runs L M locs mem self encoded_states n slack lim HL HB Hs Hn)
    as (cb & cd & bt & dt & kv & self' & _ & _ & _ & _ & _ & Hcell & Hrun).
  exists self'. eexists. split; [exact Hrun|]. unfold finish_obs.
  intros i o Ho. apply tab_nth_error in Ho. destruct Ho as [Hi ->].
  intros t. cbn [obs_kv at3]. cbv zeta.
  assert (E1 : (lim <? n) = false) by (apply Nat.ltb_ge; lia).
  assert (E2 : (lim <? lim) = false) by (apply Nat.ltb_ge; lia).
  assert (E3 : (lim =? lim) = true) by (apply Nat.eqb_refl).
  repeat split.
  1-8: shared_channel Hcell; vm_compute (index_of _ _); unfold Qdiv; ring.
  intros c Hc.
  assert (Hcs : c = 16 \/ c = 20 \/ c = 21 \/ c = 22 \/ c = 23 \/ c = 24) by lia.
  clear Hc.
  repeat (destruct Hcs as [->|Hcs]); [..|subst c]; shared_channel Hcell.
Qed.

Lemma ball_row_holds_the_ball_witness :
  exists self' obs,
    batched_build_obs rlgym_layout zero_angle_math BOOST_LOCATIONS (unchecked stray_ones)
                      (fresh_builder (Some 6) 2) two_players_one_tick = Some (self', obs) /\
    forall i o, nth_error obs i = Some o ->
      forall t, at3 (obs_kv o) t 6 7
                == at2 two_players_one_tick t (ball_start_index rlgym_layout + 2) / 2300.
Proof.
  destruct (ball_row_holds_the_ball rlgym_layout zero_angle_math BOOST_LOCATIONS
              stray_ones (fresh_builder (Some 6) 2) two_players_one_tick 2 0 6)
    as (self' & obs & Hrun & Hobs).
  - exact rlgym_layout_ok.
  - constructor; cbn; try lia; try reflexivity; eexists; split; reflexivity.
  - lia.
  - lia.
  - exists self', obs. split; [exact Hrun|].
    intros i o Ho t. destruct (Hobs i o Ho t) as (_ & _ & H & _). exact H.
Defined.

(** ** The rows of unused capacity *)

(** The rows [n .. lim - 1], which the mask marks, are zero in channels 0-9
    and 16-24, but not blank: the relative-frame step leaves minus the
    observer's position and velocity (query channels 5-10) in channels
    10-15. *)
Theorem unused_rows_are_not_blank (L : StateLayout) (M : NumpyMath) (locs : arr2)
        (mem : array_id -> nat -> nat -> Q) (self : Builder) (encoded_states : arr2)
        (n slack lim : nat) :
  layout_ok L -> batch_ok L locs self encoded_states n slack lim ->
  slack <= 1 -> n <= lim ->
  exists self' obs,
    batched_build_obs L M locs (unchecked mem) self encoded_states = Some (self', obs) /\
    forall i o, nth_error obs i = Some o ->
      forall t e, n <= e < lim ->
        at2 (obs_m o) t e = 1%Q /\
        (forall c, c < 10 \/ 16 <= c < 25 -> at3 (obs_kv o) t e c == 0) /\
        (forall c, 10 <= c < 16 -> at3 (obs_kv o) t e c == - at3 (obs_q o) t 0 (c - 5)).
Proof.
  intros HL HB Hs Hn.
  destruct (batched_build_obs_runs L M locs mem self encoded_states n slack lim HL HB Hs Hn)
    as (cb & cd & bt & dt & kv & self' & _ & _ & _ & _ & _ & Hcell & Hrun).
  exists self'. eexists. split; [exact Hrun|]. unfold finish_obs.
  intros i o Ho. apply tab_nth_error in Ho. destruct Ho as [Hi ->].
  intros t e He. cbn [obs_kv obs_q obs_m at3 at2].
  assert (E1 : (e <? n) = false) by (apply Nat.ltb_ge; lia).
  assert (E2 : (e <? lim) = true) by (apply Nat.ltb_lt; lia).
  assert (E3 : (n <=? e) = true) by (apply Nat.leb_le; lia).
  assert (Hraw : forall p c, kv p t e c = 0%Q).
  { intros p c. rewrite Hcell, E1. unfold shared_cell. rewrite E1, E2. reflexivity. }
  assert (Hzero : forall c,
             normalize (team_invert (orange (teams_of L encoded_states)) kv) i t e c == 0).
  { intros c. unfold normalize, team_invert, swap_teams, invert_values, assign.
    rewrite !Hraw.
    destruct (orange (teams_of L encoded_states) i);
      destruct ((c =? IS_MATE) || (c =? IS_OPP)); cbn [andb];
      try destruct (c =? IS_MATE); unfold Qdiv; ring. }
  split; [rewrite E2, E3; reflexivity|]. split.
  - intros c Hc. rewrite add_relative_components_keeps by exact Hc. apply Hzero.
  - intros c Hc.
    assert (Hcs : c = 10 \/ c = 11 \/ c = 12 \/ c = 13 \/ c = 14 \/ c = 15) by lia.
    clear Hc.
    repeat (destruct Hcs as [->|Hcs]); [..|subst c];
      cbv beta zeta delta [add_relative_components];
      cbn [start stop POS LIN_VEL FW UP ANG_VEL ACTIONS Nat.leb Nat.ltb Nat.add Nat.sub
           andb fst snd];
      rewrite Hzero; ring.
Qed.

Lemma unused_rows_are_not_blank_witness :
  exists self' obs,
    batched_build_obs rlgym_layout zero_angle_math BOOST_LOCATIONS (unchecked stray_ones)
                      (fresh_builder (Some 6) 2) two_players_one_tick = Some (self', obs) /\
    forall i o, nth_error obs i = Some o ->
      forall t, at3 (obs_kv o) t 3 10 == - at3 (obs_q o) t 0 5.
Proof.
  destruct (unused_rows_are_not_blank rlgym_layout zero_angle_math BOOST_LOCATIONS
              stray_ones (fresh_builder (Some 6) 2) two_players_one_tick 2 0 6)
    as (self' & obs & Hrun & Hobs).
  - exact rlgym_layout_ok.
  - constructor; cbn; try lia; try reflexivity; eexists; split; reflexivity.
  - lia.
  - lia.
  - exists self', obs. split; [exact Hrun|].
    intros i o Ho t. destruct (Hobs i o Ho t 3 ltac:(lia)) as (_ & _ & H).
    apply (H 10). lia.
Defined.

(** ** Observers of one team, observers of opposite teams *)

Lemma rows_shared_between_observers (L : StateLayout) (locs encoded_states bt dt : arr2)
      (n lim : nat) (kv : arr4) :
  (forall p t e c,
      kv p t e c =
      if e <? n
      then player_cell L encoded_states dt e p t c
                       (shared_cell L locs encoded_states bt n lim p t e c)
      else shared_cell L locs encoded_states bt n lim p t e c) ->
  forall i j t e c, 1 <= c -> kv i t e c = kv j t e c.
Proof.
  intros Hcell i j t e c Hc. rewrite !Hcell.
  destruct c as [|c]; [lia|].
  unfold player_cell, shared_cell. cbn [Nat.eqb IS_SELF]. reflexivity.
Qed.

(** Two observers of the same team are handed the same Key-Value rows in
    channels 1-9 and 16-24, at every tick: the tensors differ in the self
    flag and in what the relative-frame step writes.  Two observers of
    opposite teams are handed mirrored rows: the teammate and opponent flags
    change places and every other channel is multiplied by its entry of
    [_invert]. *)
Theorem observers_share_rows (L : StateLayout) (M : NumpyMath) (locs : arr2)
        (mem : array_id -> nat -> nat -> Q) (self : Builder) (encoded_states : arr2)
        (n slack lim : nat) :
  layout_ok L -> batch_ok L locs self encoded_states n slack lim ->
  slack <= 1 -> n <= lim ->
  exists self' obs,
    batched_build_obs L M locs (unchecked mem) self encoded_states = Some (self', obs) /\
    forall i j oi oj, nth_error obs i = Some oi -> nth_error obs j = Some oj ->
      let teams := teams_of L encoded_states in
      (orange teams i = orange teams j ->
       forall t e c, 1 <= c < 10 \/ 16 <= c < 25 ->
                     at3 (obs_kv oi) t e c = at3 (obs_kv oj) t e c) /\
      (orange teams i <> orange teams j ->
       forall t e,
         at3 (obs_kv oi) t e IS_MATE = at3 (obs_kv oj) t e IS_OPP /\
         at3 (obs_kv oi) t e IS_OPP = at3 (obs_kv oj) t e IS_MATE /\
         forall c, 3 <= c < 10 \/ 16 <= c < 25 ->
                   at3 (obs_kv oi) t e c == at3 (obs_kv oj) t e c * nth c _invert 1%Q).
Proof.
  intros HL HB Hs Hn.
  destruct (batched_build_obs_runs L M locs mem self encoded_states n slack lim HL HB Hs Hn)
    as (cb & cd & bt & dt & kv & self' & _ & _ & _ & _ & _ & Hcell & Hrun).
  exists self'. eexists. split; [exact Hrun|]. unfold finish_obs.
  intros i j oi oj Hoi Hoj.
  apply tab_nth_error in Hoi. destruct Hoi as [Hi ->].
  apply tab_nth_error in Hoj. destruct Hoj as [Hj ->].
  cbn [obs_kv at3]. cbv zeta.
  pose proof (rows_shared_between_observers L locs encoded_states bt dt n lim kv Hcell i j)
    as Hsame.
  split.
  - intros Hteam t e c Hc.
    rewrite !add_relative_components_keeps by lia.
    unfold normalize, team_invert, swap_teams, invert_values, assign.
    rewrite Hteam, (Hsame t e c), (Hsame t e IS_MATE), (Hsame t e IS_OPP);
      cbv [IS_MATE IS_OPP]; try lia.
    reflexivity.
  - intros Hteam t e.
    rewrite !add_relative_components_keeps by (cbv [IS_MATE IS_OPP]; lia).
    destruct (canon_kind (orange (teams_of L encoded_states)) kv i t e)
      as (_ & Ki1 & Ki2 & _).
    destruct (canon_kind (orange (teams_of L encoded_states)) kv j t e)
      as (_ & Kj1 & Kj2 & _).
    rewrite Ki1, Ki2, Kj1, Kj2.
    rewrite (Hsame t e IS_MATE), (Hsame t e IS_OPP) by (cbv [IS_MATE IS_OPP]; lia).
    split; [|split].
    + destruct (orange (teams_of L encoded_states) i),
               (orange (teams_of L encoded_states) j); try reflexivity; congruence.
    + destruct (orange (teams_of L encoded_states) i),
               (orange (teams_of L encoded_states) j); try reflexivity; congruence.
    + intros c Hc. rewrite !add_relative_components_keeps by lia.
      rewrite !canon_value by lia. rewrite (Hsame t e c) by lia.
      assert (Hsq : (nth c _invert 1 * nth c _invert 1 == 1)%Q).
      { do 25 (destruct c as [|c]; [try reflexivity; lia|]). lia. }
      destruct (orange (teams_of L encoded_states) i),
               (orange (teams_of L encoded_states) j); try congruence.
      * unfold Qdiv. ring.
      * unfold Qdiv.
        transitivity (kv j t e c * / nth c _norm 1 * (nth c _invert 1 * nth c _invert 1))%Q;
          [rewrite Hsq|]; ring.
Qed.

Lemma observers_share_rows_witness :
  exists self' obs,
    batched_build_obs rlgym_layout zero_angle_math BOOST_LOCATIONS (unchecked stray_ones)
                      (fresh_builder (Some 6) 2) two_players_one_tick = Some (self', obs) /\
    forall oi oj, nth_error obs 0 = Some oi -> nth_error obs 1 = Some oj ->
      forall t e, at3 (obs_kv oi) t e IS_MATE = at3 (obs_kv oj) t e IS_OPP.
Proof.
  destruct (observers_share_rows rlgym_layout zero_angle_math BOOST_LOCATIONS
              stray_ones (fresh_builder (Some 6) 2) two_players_one_tick 2 0 6)
    as (self' & obs & Hrun & Hobs).
  - exact rlgym_layout_ok.
  - constructor; cbn; try lia; try reflexivity; eexists; split; reflexivity.
  - lia.
  - lia.
  - exists self', obs. split; [exact Hrun|].
    intros oi oj Hoi Hoj t e. destruct (Hobs 0 1 oi oj Hoi Hoj) as (_ & H).
    destruct (H ltac:(vm_compute; discriminate) t e) as (H1 & _). exact H1.
Defined.

(** ** The builder's life cycle *)

Lemma run_timers_shape (body : arr2 -> nat -> nat -> (nat -> nat -> Q) -> option (nat -> nat -> Q))
      (carried : arr1) (states out : arr2) :
  run_timers body carried states = Some out ->
  rows out = rows states /\ cols out = cols states.
Proof.
  unfold run_timers. destruct (guard _); [|discriminate]. cbn [bind]. cbv zeta.
  destruct (for_range _ _ _ _); [|discriminate]. cbn [bind].
  intros H. injection H as <-. cbn [rows cols]. rewrite Nat.add_sub. split; reflexivity.
Qed.

Lemma update_timers_shape (oob : oracle) (locs : arr2) (tick_skip : Q)
      (carried_boost carried_demo : arr1) (boost_states demo_states bt dt : arr2) :
  _update_timers oob locs tick_skip carried_boost carried_demo boost_states demo_states
  = Some (bt, dt) ->
  rows bt = rows boost_states /\ cols bt = cols boost_states /\
  rows dt = rows demo_states /\ cols dt = cols demo_states.
Proof.
  unfold _update_timers.
  destruct (run_timers (boost_body oob locs tick_skip) carried_boost boost_states)
    as [b|] eqn:Hb; [|discriminate].
  cbn [bind].
  destruct (run_timers (demo_body oob tick_skip) carried_demo demo_states)
    as [d|] eqn:Hd; [|discriminate].
  cbn [bind]. intros H. injection H as <- <-.
  destruct (run_timers_shape _ _ _ _ Hb), (run_timers_shape _ _ _ _ Hd). auto.
Qed.

(** What a call that returned has read and left in the builder. *)
Lemma batched_build_obs_inv (L : StateLayout) (M : NumpyMath) (locs : arr2) (oob : oracle)
      (self self' : Builder) (encoded_states : arr2) (obs : list Obs) :
  batched_build_obs L M locs oob self encoded_states = Some (self', obs) ->
  exists carried_boost carried_demo boost_timers demo_timers,
    self_boost_timers self = Some carried_boost /\
    self_demo_timers self = Some carried_demo /\
    _update_timers oob locs (self_tick_skip self) carried_boost carried_demo
                   (cols_slice encoded_states 3 (3 + 34))
                   (cols_stride encoded_states (players_start_index L + 33) (player_length L))
    = Some (boost_timers, demo_timers) /\
    0 < rows boost_timers /\ 0 < rows demo_timers /\
    self' = {| self_n_players := self_n_players self;
               self_tick_skip := self_tick_skip self;
               self_boost_timers :=
                 Some {| len := cols boost_timers;
                         at1 := at2 boost_timers (rows boost_timers - 1) |};
               self_demo_timers :=
                 Some {| len := cols demo_timers;
                         at1 := at2 demo_timers (rows demo_timers - 1) |} |}.
Proof.
  unfold batched_build_obs. cbv zeta.
  destruct (guard (negb (player_length L =? 0))); [|discriminate]. cbn [bind].
  destruct (self_boost_timers self) as [cb|]; [|discriminate]. cbn [bind].
  destruct (self_demo_timers self) as [cd|]; [|discriminate]. cbn [bind].
  destruct (_update_timers _ _ _ _ _ _ _) as [[bt dt]|] eqn:Ht; [|discriminate].
  cbn [bind fst snd].
  destruct ((0 <? rows bt) && (0 <? rows dt)) eqn:Hr; [|discriminate]. cbn [guard bind].
  destruct (guard _); [|discriminate]. cbn [bind].
  destruct (shared_rows _ _ _ _ _ _ _); [|discriminate]. cbn [bind].
  destruct (for_range _ _ _ _); [|discriminate]. cbn [bind].
  destruct (guard _); [|discriminate]. cbn [bind].
  intros H. injection H as <- _.
  apply andb_prop in Hr. destruct Hr as [Hr1 Hr2].
  apply Nat.ltb_lt in Hr1, Hr2.
  exists cb, cd, bt, dt. repeat split; assumption.
Qed.

(** A batch of no ticks raises, whatever the builder holds and however the
    timers read memory: [boost_timers[-1, :]] has no row to take. *)
Theorem batched_build_obs_empty_batch (L : StateLayout) (M : NumpyMath) (locs : arr2)
        (oob : oracle) (self : Builder) (encoded_states : arr2) :
  rows encoded_states = 0 ->
  batched_build_obs L M locs oob self encoded_states = None.
Proof.
  intros Hrows.
  destruct (batched_build_obs L M locs oob self encoded_states) as [[self' obs]|] eqn:Hrun;
    [|reflexivity].
  destruct (batched_build_obs_inv _ _ _ _ _ _ _ _ Hrun)
    as (cb & cd & bt & dt & _ & _ & Ht & Hpos & _).
  destruct (update_timers_shape _ _ _ _ _ _ _ _ _ Ht) as (Hbr & _).
  cbn [rows cols_slice] in Hbr. lia.
Qed.

Lemma batched_build_obs_empty_batch_witness :
  batched_build_obs rlgym_layout zero_angle_math BOOST_LOCATIONS checked
                    (fresh_builder (Some 6) 2) (of_rows 133 []) = None.
Proof.
  apply (batched_build_obs_empty_batch rlgym_layout zero_angle_math BOOST_LOCATIONS checked
           (fresh_builder (Some 6) 2) (of_rows 133 [])).
  reflexivity.
Defined.

(** A call that returns keeps the capacity and the tick skip and carries the
    timers of the batch's last tick, 34 pad timers and [n] player timers, so
    that the builder takes the next batch of records of the same width. *)
Theorem batched_build_obs_carries_last_tick (L : StateLayout) (M : NumpyMath) (locs : arr2)
        (mem : array_id -> nat -> nat -> Q) (self : Builder) (encoded_states : arr2)
        (n slack lim : nat) :
  layout_ok L -> batch_ok L locs self encoded_states n slack lim ->
  slack <= 1 -> n <= lim ->
  exists carried_boost carried_demo boost_timers demo_timers self' obs,
    self_boost_timers self = Some carried_boost /\
    self_demo_timers self = Some carried_demo /\
    _update_timers (unchecked mem) locs (self_tick_skip self) carried_boost carried_demo
                   (cols_slice encoded_states 3 (3 + 34))
                   (cols_stride encoded_states (players_start_index L + 33) (player_length L))
    = Some (boost_timers, demo_timers) /\
    batched_build_obs L M locs (unchecked mem) self encoded_states = Some (self', obs) /\
    self_n_players self' = self_n_players self /\
    self_tick_skip self' = self_tick_skip self /\
    (exists pads, self_boost_timers self' = Some pads /\ len pads = 34 /\
                  forall b, at1 pads b = at2 boost_timers (rows encoded_states - 1) b) /\
    (exists cars, self_demo_timers self' = Some cars /\ len cars = n /\
                  forall b, at1 cars b = at2 demo_timers (rows encoded_states - 1) b) /\
    forall mem' next,
      1 <= rows next -> cols next = cols encoded_states ->
      exists self'' obs',
        batched_build_obs L M locs (unchecked mem') self' next = Some (self'', obs') /\
        length obs' = n.
Proof.
  intros HL HB Hs Hn.
  destruct (batched_build_obs_runs L M locs mem self encoded_states n slack lim HL HB Hs Hn)
    as (cb & cd & bt & dt & kv & self' & Hcb & Hcd & Htimers & Hdr & Hdc & _ & Hrun).
  destruct (batched_build_obs_inv _ _ _ _ _ _ _ _ Hrun)
    as (cb' & cd' & bt' & dt' & Hcb' & Hcd' & Ht' & _ & _ & Hself).
  assert (cb' = cb) by congruence. assert (cd' = cd) by congruence. subst cb' cd'.
  assert (bt' = bt /\ dt' = dt) as [-> ->] by (split; congruence).
  destruct (update_timers_shape _ _ _ _ _ _ _ _ _ Htimers) as (Hbr & Hbc & _ & _).
  cbn [rows cols cols_slice] in Hbr, Hbc.
  assert (Hbc' : cols bt = 34).
  { rewrite Hbc. destruct HL, HB. unfold players_start_index, ball_start_index in *.
    rewrite slice_len_inside; lia. }
  exists cb, cd, bt, dt, self'. eexists.
  split; [exact Hcb|]. split; [exact Hcd|]. split; [exact Htimers|].
  split; [exact Hrun|]. subst self'. cbn [self_n_players self_tick_skip
                                           self_boost_timers self_demo_timers].
  split; [reflexivity|]. split; [reflexivity|]. split; [|split].
  - eexists. split; [reflexivity|]. cbn [len at1]. rewrite Hbr. split; [exact Hbc'|reflexivity].
  - eexists. split; [reflexivity|]. cbn [len at1]. rewrite Hdr. split; [exact Hdc|reflexivity].
  - intros mem' next Hrows Hcols.
    match goal with
    | |- context [batched_build_obs L M locs (unchecked mem') ?s next] => set (self1 := s)
    end.
    assert (HB' : batch_ok L locs self1 next n slack lim).
    { destruct HB. constructor.
      - exact Hrows.
      - rewrite Hcols. assumption.
      - assumption.
      - eexists. split; [reflexivity|]. exact Hbc'.
      - eexists. split; [reflexivity|]. exact Hdc.
      - assumption. }
    destruct (batched_build_obs_runs L M locs mem' self1 next n slack lim HL HB' Hs Hn)
      as (_ & _ & _ & _ & kv' & self'' & _ & _ & _ & _ & _ & _ & Hrun').
    exists self''. eexists. split; [exact Hrun'|]. unfold finish_obs. apply tab_length.
Qed.

Lemma batched_build_obs_carries_last_tick_witness :
  exists self' obs self'' obs',
    batched_build_obs rlgym_layout zero_angle_math BOOST_LOCATIONS (unchecked stray_ones)
                      (fresh_builder (Some 6) 2) two_players_one_tick = Some (self', obs) /\
    batched_build_obs rlgym_layout zero_angle_math BOOST_LOCATIONS (unchecked stray_ones)
                      self' two_players_one_tick = Some (self'', obs') /\
    length obs' = 2.
Proof.
  destruct (batched_build_obs_carries_last_tick rlgym_layout zero_angle_math BOOST_LOCATIONS
              stray_ones (fresh_builder (Some 6) 2) two_players_one_tick 2 0 6)
    as (cb & cd & bt & dt & self' & obs & _ & _ & _ & Hrun & _ & _ & _ & _ & Hnext).
  - exact rlgym_layout_ok.
  - constructor; cbn; try lia; try reflexivity; eexists; split; reflexivity.
  - lia.
  - lia.
  - destruct (Hnext stray_ones two_players_one_tick) as (self'' & obs' & Hrun' & Hlen).
    + cbn. lia.
    + reflexivity.
    + exists self', obs, self'', obs'. split; [exact Hrun|]. split; [exact Hrun'|exact Hlen].
Defined.

(** A builder raises until [_reset] has run; after [_reset] on a state of 34
    pads and [n] players it takes a batch of records of [n] player blocks
    and returns one triple per player. *)
Theorem reset_then_build (L : StateLayout) (M : NumpyMath) (locs : arr2)
        (mem : array_id -> nat -> nat -> Q) (capacity : option nat) (tick_skip : Q)
        (initial_state : NectoObsOLD.GameState) (encoded_states : arr2) (n slack : nat) :
  layout_ok L ->
  len (NectoObsOLD.boost_pads initial_state) = 34 ->
  length (NectoObsOLD.players initial_state) = n ->
  rows locs = 34 -> cols locs = 3 ->
  1 <= rows encoded_states ->
  cols encoded_states = players_start_index L + n * player_length L + slack ->
  slack <= 1 ->
  match capacity with None => True | Some k => n <= k end ->
  batched_build_obs L M locs (unchecked mem) (init capacity tick_skip) encoded_states = None /\
  exists self' obs,
    batched_build_obs L M locs (unchecked mem)
                      (_reset (init capacity tick_skip) initial_state) encoded_states
    = Some (self', obs) /\
    length obs = n.
Proof.
  intros HL Hpads Hplayers Hlr Hlc Hrows Hcols Hs Hcap. split.
  - unfold batched_build_obs, init. cbv zeta. cbn [self_boost_timers].
    destruct (guard _); reflexivity.
  - set (lim := match capacity with None => n | Some k => k end).
    assert (Hn : n <= lim) by (subst lim; destruct capacity; lia).
    assert (HB : batch_ok L locs (_reset (init capacity tick_skip) initial_state)
                          encoded_states n slack lim).
    { constructor.
      - exact Hrows.
      - exact Hcols.
      - split; assumption.
      - eexists. split; [reflexivity|]. exact Hpads.
      - eexists. split; [reflexivity|]. exact Hplayers.
      - reflexivity. }
    destruct (batched_build_obs_runs L M locs mem _ encoded_states n slack lim HL HB Hs Hn)
      as (_ & _ & _ & _ & kv & self' & _ & _ & _ & _ & _ & _ & Hrun).
    exists self'. eexists. split; [exact Hrun|]. unfold finish_obs. apply tab_length.
Qed.

Lemma reset_then_build_witness :
  exists self' obs,
    batched_build_obs rlgym_layout zero_angle_math BOOST_LOCATIONS (unchecked stray_ones)
                      (_reset (init (Some 6) 8) two_players_state) two_players_one_tick
    = Some (self', obs) /\
    length obs = 2.
Proof.
  destruct (reset_then_build rlgym_layout zero_angle_math BOOST_LOCATIONS stray_ones
              (Some 6) 8 two_players_state two_players_one_tick 2 0) as (_ & H).
  - exact rlgym_layout_ok.
  - reflexivity.
  - reflexivity.
  - reflexivity.
  - reflexivity.
  - cbn. lia.
  - reflexivity.
  - lia.
  - cbn. lia.
  - exact H.
Defined.

(** ** Shapes, and the space [get_obs_space] declares *)

(** Every returned triple has a query of shape [(ticks, 1, 33)], a
    Key-Value tensor of shape [(ticks, lim + 35, 55)] and a mask of shape
    [(ticks, lim + 35)].  The query has the declared shape; the Key-Value
    tensor and the mask have the declared one exactly when [lim] is what
    [n_players or 6] gives: with a capacity configured, and otherwise only
    with six players in the record. *)
Theorem shapes_and_declared_space (L : StateLayout) (M : NumpyMath) (locs : arr2)
        (mem : array_id -> nat -> nat -> Q) (self : Builder) (encoded_states : arr2)
        (n slack lim : nat) :
  layout_ok L -> batch_ok L locs self encoded_states n slack lim ->
  slack <= 1 -> n <= lim ->
  exists self' obs,
    batched_build_obs L M locs (unchecked mem) self encoded_states = Some (self', obs) /\
    forall i o, nth_error obs i = Some o ->
      let space := get_obs_space locs self in
      dim0 (obs_q o) = rows encoded_states /\
      dim0 (obs_kv o) = rows encoded_states /\
      rows (obs_m o) = rows encoded_states /\
      (dim1 (obs_q o), dim2 (obs_q o)) = (1, 33) /\
      (dim1 (obs_kv o), dim2 (obs_kv o)) = (lim + 35, 55) /\
      cols (obs_m o) = lim + 35 /\
      space_q space = (1, 33) /\
      ((dim1 (obs_kv o), dim2 (obs_kv o)) = space_kv space /\ cols (obs_m o) = space_m space
       <-> match self_n_players self with
           | None => n = 6
           | Some _ => True
           end).
Proof.
  intros HL HB Hs Hn.
  destruct (batched_build_obs_runs L M locs mem self encoded_states n slack lim HL HB Hs Hn)
    as (cb & cd & bt & dt & kv & self' & _ & _ & _ & _ & _ & _ & Hrun).
  exists self'. eexists. split; [exact Hrun|]. unfold finish_obs.
  intros i o Ho. apply tab_nth_error in Ho. destruct Ho as [Hi ->].
  cbn [obs_q obs_kv obs_m dim0 dim1 dim2 rows cols]. cbv zeta.
  destruct HB as [_ _ [Hlr _] _ _ Hcap].
  unfold get_obs_space. cbn [space_q space_kv space_m]. rewrite Hlr.
  change (length _invert) with 55.
  replace (lim + 1 + 34) with (lim + 35) by lia.
  repeat (split; [reflexivity|]).
  unfold players_or_6. destruct (self_n_players self) as [[|k]|].
  - lia.
  - subst lim. split; [intros _; exact I|]. intros _. split; [f_equal; lia|lia].
  - subst lim. split.
    + intros [_ H]. lia.
    + intros ->. split; reflexivity.
Qed.

Lemma shapes_and_declared_space_witness :
  exists self' obs,
    batched_build_obs rlgym_layout zero_angle_math BOOST_LOCATIONS (unchecked stray_ones)
                      (fresh_builder None 2) two_players_one_tick = Some (self', obs) /\
    forall i o, nth_error obs i = Some o ->
      cols (obs_m o) = 37 /\
      space_m (get_obs_space BOOST_LOCATIONS (fresh_builder None 2)) = 41.
Proof.
  destruct (shapes_and_declared_space rlgym_layout zero_angle_math BOOST_LOCATIONS
              stray_ones (fresh_builder None 2) two_players_one_tick 2 0 2)
    as (self' & obs & Hrun & Hobs).
  - exact rlgym_layout_ok.
  - constructor; cbn; try lia; try reflexivity; eexists; split; reflexivity.
  - lia.
  - lia.
  - exists self', obs. split; [exact Hrun|].
    intros i o Ho. destruct (Hobs i o Ho) as (_ & _ & _ & _ & _ & H & _).
    split; [exact H|reflexivity].
Defined.

(** ** The builder followed by add_actions *)

(** The builder leaves the action channels 25-32 of every query at zero, and
    [add_actions] with one block of [(ticks, 8)] actions per player then
    returns: it fills those channels with the player's actions of each tick
    and leaves the 25 channels before them, the Key-Value tensors and the
    masks as the builder made them. *)
Theorem build_then_add_actions (L : StateLayout) (M : NumpyMath) (locs : arr2)
        (mem : array_id -> nat -> nat -> Q) (self : Builder) (encoded_states : arr2)
        (n slack lim : nat) (previous_actions : arr3) :
  layout_ok L -> batch_ok L locs self encoded_states n slack lim ->
  slack <= 1 -> n <= lim ->
  dim0 previous_actions = n ->
  dim1 previous_actions = rows encoded_states ->
  dim2 previous_actions = 8 ->
  exists self' obs obs',
    batched_build_obs L M locs (unchecked mem) self encoded_states = Some (self', obs) /\
    add_actions_all obs previous_actions = Some obs' /\
    length obs' = n /\
    forall i o, nth_error obs i = Some o ->
      (forall t r c, 25 <= c -> at3 (obs_q o) t r c = 0%Q) /\
      exists o', nth_error obs' i = Some o' /\
                 obs_kv o' = obs_kv o /\ obs_m o' = obs_m o /\
                 forall t c, t < rows encoded_states ->
                   at3 (obs_q o') t 0 c
                   = if in_slice ACTIONS c then at3 previous_actions i t (c - 25)
                     else at3 (obs_q o) t 0 c.
Proof.
  intros HL HB Hs Hn Hd0 Hd1 Hd2.
  destruct (batched_build_obs_runs L M locs mem self encoded_states n slack lim HL HB Hs Hn)
    as (cb & cd & bt & dt & kv & self' & _ & _ & _ & _ & _ & _ & Hrun).
  match type of Hrun with _ = Some (_, ?l) => set (obs := l) in * end.
  assert (Hshape : forall i o, nth_error obs i = Some o ->
            i < n /\ dim0 (obs_q o) = rows encoded_states /\
            dim1 (obs_q o) = 1 /\ dim2 (obs_q o) = 33 /\
            forall t r c, 25 <= c -> at3 (obs_q o) t r c = 0%Q).
  { intros i o Ho. subst obs. unfold finish_obs in Ho.
    apply tab_nth_error in Ho. destruct Ho as [Hi ->].
    cbn [obs_q dim0 dim1 dim2 at3]. repeat split; try assumption.
    intros t r c Hc. unfold fill_query, assign.
    replace (c <? HAS_JUMP + 1) with false
      by (symmetry; apply Nat.ltb_ge; unfold HAS_JUMP; lia).
    rewrite Bool.andb_false_r. reflexivity. }
  destruct (add_actions_zip_spec previous_actions obs 0) as (obs' & Hadd & Hlen & Hcells).
  { intros i o Ho _. destruct (Hshape i o Ho) as (_ & H0 & H1 & H2 & _).
    unfold takes_actions, block. cbn [rows cols stop start ACTIONS fst snd Nat.add].
    rewrite H0, H1, H2, Hd1, Hd2, broadcastable_refl. reflexivity. }
  exists self', obs, obs'. split; [exact Hrun|]. split; [exact Hadd|].
  split; [rewrite Hlen; subst obs; unfold finish_obs; apply tab_length|].
  intros i o Ho. destruct (Hshape i o Ho) as (Hi & _ & _ & _ & Hzero).
  split; [exact Hzero|].
  specialize (Hcells i o Ho). cbn [Nat.add] in Hcells. rewrite Hd0 in Hcells.
  replace (i <? n) with true in Hcells by (symmetry; apply Nat.ltb_lt; exact Hi).
  destruct Hcells as (q' & Ho' & _ & _ & _ & Hq).
  exists (with_query o q'). split; [exact Ho'|]. cbn [with_query obs_q obs_kv obs_m].
  split; [reflexivity|]. split; [reflexivity|].
  intros t c Ht. rewrite Hq. unfold actions_written, block. cbn [rows cols at2].
  rewrite Hd1, Hd2.
  cbn [andb Nat.eqb]. destruct (in_slice ACTIONS c) eqn:Hc; [|reflexivity].
  unfold in_slice in Hc. cbn [start stop ACTIONS fst snd] in Hc.
  apply andb_prop in Hc. destruct Hc as [Hc1 Hc2].
  apply Nat.leb_le in Hc1. apply Nat.ltb_lt in Hc2.
  change (start ACTIONS) with 25.
  rewrite (bidx_lt _ _ Ht), (bidx_lt 8 (c - 25)) by lia. reflexivity.
Qed.

Lemma build_then_add_actions_witness :
  exists self' obs obs',
    batched_build_obs rlgym_layout zero_angle_math BOOST_LOCATIONS (unchecked stray_ones)
                      (fresh_builder (Some 6) 2) two_players_one_tick = Some (self', obs) /\
    add_actions_all obs {| dim0 := 2; dim1 := 1; dim2 := 8; at3 := fun _ _ _ => 1%Q |}
    = Some obs' /\
    length obs' = 2.
Proof.
  destruct (build_then_add_actions rlgym_layout zero_angle_math BOOST_LOCATIONS
              stray_ones (fresh_builder (Some 6) 2) two_players_one_tick 2 0 6
              {| dim0 := 2; dim1 := 1; dim2 := 8; at3 := fun _ _ _ => 1%Q |})
    as (self' & obs & obs' & Hrun & Hadd & Hlen & _).
  - exact rlgym_layout_ok.
  - constructor; cbn; try lia; try reflexivity; eexists; split; reflexivity.
  - lia.
  - lia.
  - reflexivity.
  - reflexivity.
  - reflexivity.
  - exists self', obs, obs'. split; [exact Hrun|]. split; [exact Hadd|exact Hlen].
Defined.

(** ** The non-batched encoder: life cycle *)

(** On a state it has not seen yet the encoder returns a triple whose query
    is the observer's own row followed by the previous action, and whose
    Key-Value tensor is relative to the observer: on the observer's own row
    position and velocity are zero and every other channel is the query's. *)
Theorem legacy_own_row_is_the_origin (locs : arr2) (old : NectoObsOLD.Builder)
        (s : NectoObsOLD.GameState) (i : nat)
        (previous_action carried_boost carried_demo : arr1) :
  rows locs = 34 -> cols locs = 3 ->
  NectoObsOLD.boost_timers old = Some carried_boost -> len carried_boost = 34 ->
  NectoObsOLD.demo_timers old = Some carried_demo ->
  len carried_demo = NectoObsOLD.n_players old ->
  match NectoObsOLD.current_state old with
  | Some id => id =? NectoObsOLD.ident s
  | None => false
  end = false ->
  len (NectoObsOLD.boost_pads s) = 34 ->
  length (NectoObsOLD.players s) <= NectoObsOLD.n_players old ->
  i < length (NectoObsOLD.players s) ->
  exists old' q kv mask,
    NectoObsOLD.build_obs locs old i s previous_action
    = (old', Some (NectoObsOLD.Triple q kv mask)) /\
    dim2 q = 24 + len previous_action /\
    (forall t r c, 24 <= c -> at3 q t r c = at1 previous_action (c - 24)) /\
    (forall t c, 5 <= c < 11 -> at3 kv t (i + 1) c == 0) /\
    (forall t r c, c < 5 \/ 11 <= c < 24 -> at3 kv t (i + 1) c = at3 q t r c).
Proof.
  intros Hlr Hlc Hbt Hbtl Hdt Hdtl Hfresh Hpads Hn Hi.
  destruct (legacy_update_spec locs old s carried_boost carried_demo)
    as (old' & Hup & _ & _ & _ & _ & _ & (stored & Hq & _) & (mk & Hm & _)); try assumption.
  destruct (nth_error (NectoObsOLD.players s) i) as [p|] eqn:Hp;
    [|apply nth_error_None in Hp; lia].
  destruct (legacy_triple old' s i previous_action p _ _ stored mk Hp Hq Hm ltac:(lia))
    as (q & kv & mask & Htriple & _ & _ & _ & Hqd & _ & Htail & Hqv & Hkv).
  exists old', q, kv, mask. split.
  { rewrite (legacy_build_obs_of_update locs old old' s i previous_action carried_boost
               (Some tt) Hbt Hup).
    cbn [bind]. rewrite Htriple. reflexivity. }
  split; [exact Hqd|]. split; [exact Htail|]. cbv zeta in Hqv, Hkv. split.
  - intros t c Hc. rewrite Hkv.
    replace (in_slice (5, 11) c) with true
      by (symmetry; unfold in_slice; cbn [start stop fst snd];
          apply andb_true_intro; split; [apply Nat.leb_le|apply Nat.ltb_lt]; lia).
    ring.
  - intros t r c Hc. rewrite Hkv, Hqv by lia.
    replace (in_slice (5, 11) c) with false
      by (symmetry; unfold in_slice; cbn [start stop fst snd];
          destruct (Nat.leb_spec 5 c), (Nat.ltb_spec c 11); try reflexivity; lia).
    reflexivity.
Qed.

Lemma legacy_own_row_is_the_origin_witness :
  exists old' q kv mask,
    NectoObsOLD.build_obs BOOST_LOCATIONS (fresh_old_builder 6) 0 two_players_state no_action
    = (old', Some (NectoObsOLD.Triple q kv mask)) /\
    at3 kv 0 1 5 == 0.
Proof.
  destruct (legacy_own_row_is_the_origin BOOST_LOCATIONS (fresh_old_builder 6)
              two_players_state 0 no_action
              (of_list (repeat 0%Q 34)) (of_list (repeat 0%Q 6)))
    as (old' & q & kv & mask & Hrun & _ & _ & Hzero & _);
    try reflexivity; try (cbn; lia).
  exists old', q, kv, mask. split; [exact Hrun|]. apply (Hzero 0 5). lia.
Defined.

(** The encoder updates once per state: after a call for a state it had not
    seen, a call for any player of the same state returns and leaves the
    encoder, and so its timers, as they are, and the call repeated returns
    the same triple. *)
Theorem legacy_build_obs_updates_once (locs : arr2) (old : NectoObsOLD.Builder)
        (s : NectoObsOLD.GameState) (i : nat)
        (previous_action carried_boost carried_demo : arr1) :
  rows locs = 34 -> cols locs = 3 ->
  NectoObsOLD.boost_timers old = Some carried_boost -> len carried_boost = 34 ->
  NectoObsOLD.demo_timers old = Some carried_demo ->
  len carried_demo = NectoObsOLD.n_players old ->
  match NectoObsOLD.current_state old with
  | Some id => id =? NectoObsOLD.ident s
  | None => false
  end = false ->
  len (NectoObsOLD.boost_pads s) = 34 ->
  length (NectoObsOLD.players s) <= NectoObsOLD.n_players old ->
  i < length (NectoObsOLD.players s) ->
  exists old' r,
    NectoObsOLD.build_obs locs old i s previous_action = (old', Some r) /\
    NectoObsOLD.build_obs locs old' i s previous_action = (old', Some r) /\
    forall j action, j < length (NectoObsOLD.players s) ->
      exists r', NectoObsOLD.build_obs locs old' j s action = (old', Some r').
Proof.
  intros Hlr Hlc Hbt Hbtl Hdt Hdtl Hfresh Hpads Hn Hi.
  destruct (legacy_update_spec locs old s carried_boost carried_demo)
    as (old' & Hup & _ & _ & Hcur & (pads & Hbt' & _) & _ & (stored & Hq & _)
        & (mk & Hm & _));
    try assumption.
  assert (Hup' : NectoObsOLD._maybe_update_obs locs old' s = (old', Some tt)).
  { unfold NectoObsOLD._maybe_update_obs. rewrite Hcur, Nat.eqb_refl. reflexivity. }
  assert (Hcall : forall j action r,
             NectoObsOLD.triple_of old' j s action = Some r ->
             NectoObsOLD.build_obs locs old j s action = (old', Some r) /\
             NectoObsOLD.build_obs locs old' j s action = (old', Some r)).
  { intros j action r Hr.
    rewrite (legacy_build_obs_of_update locs old old' s j action carried_boost
               (Some tt) Hbt Hup).
    rewrite (legacy_build_obs_of_update locs old' old' s j action pads
               (Some tt) Hbt' Hup').
    cbn [bind]. rewrite Hr. split; reflexivity. }
  assert (Hany : forall j action, j < length (NectoObsOLD.players s) ->
             exists r, NectoObsOLD.triple_of old' j s action = Some r).
  { intros j action Hj.
    destruct (nth_error (NectoObsOLD.players s) j) as [pj|] eqn:Hpj;
      [|apply nth_error_None in Hpj; lia].
    destruct (legacy_triple old' s j action pj _ _ stored mk Hpj Hq Hm ltac:(lia))
      as (q & kv & mask & Htriple & _).
    eexists. exact Htriple. }
  destruct (Hany i previous_action Hi) as [r Hr].
  destruct (Hcall i previous_action r Hr) as [H1 H2].
  exists old', r. split; [exact H1|]. split; [exact H2|].
  intros j action Hj. destruct (Hany j action Hj) as [r' Hr'].
  exists r'. apply (Hcall j action r' Hr').
Qed.

Lemma legacy_build_obs_updates_once_witness :
  exists old' r,
    NectoObsOLD.build_obs BOOST_LOCATIONS (fresh_old_builder 6) 0 two_players_state no_action
    = (old', Some r) /\
    NectoObsOLD.build_obs BOOST_LOCATIONS old' 0 two_players_state no_action = (old', Some r).
Proof.
  destruct (legacy_build_obs_updates_once BOOST_LOCATIONS (fresh_old_builder 6)
              two_players_state 0 no_action
              (of_list (repeat 0%Q 34)) (of_list (repeat 0%Q 6)))
    as (old' & r & Hrun & Hagain & _);
    try reflexivity; try (cbn; lia).
  exists old', r. split; [exact Hrun|exact Hagain].
Defined.

(** A call for a new state keeps the capacity and the tick skip, leaves 34
    pad timers and one timer per player slot, none of them negative, and
    leaves the encoder ready for the next state. *)
Theorem legacy_build_obs_keeps_encoder_ready (locs : arr2) (old : NectoObsOLD.Builder)
        (s : NectoObsOLD.GameState) (i : nat)
        (previous_action carried_boost carried_demo : arr1) :
  rows locs = 34 -> cols locs = 3 ->
  NectoObsOLD.boost_timers old = Some carried_boost -> len carried_boost = 34 ->
  NectoObsOLD.demo_timers old = Some carried_demo ->
  len carried_demo = NectoObsOLD.n_players old ->
  match NectoObsOLD.current_state old with
  | Some id => id =? NectoObsOLD.ident s
  | None => false
  end = false ->
  len (NectoObsOLD.boost_pads s) = 34 ->
  length (NectoObsOLD.players s) <= NectoObsOLD.n_players old ->
  i < length (NectoObsOLD.players s) ->
  exists old' r pads cars,
    NectoObsOLD.build_obs locs old i s previous_action = (old', Some r) /\
    NectoObsOLD.n_players old' = NectoObsOLD.n_players old /\
    NectoObsOLD.tick_skip old' = NectoObsOLD.tick_skip old /\
    NectoObsOLD.boost_timers old' = Some pads /\ len pads = 34 /\
    NectoObsOLD.demo_timers old' = Some cars /\ len cars = NectoObsOLD.n_players old /\
    (forall b, (0 <= at1 pads b)%Q /\ (0 <= at1 cars b)%Q) /\
    forall next j action,
      NectoObsOLD.ident next <> NectoObsOLD.ident s ->
      len (NectoObsOLD.boost_pads next) = 34 ->
      length (NectoObsOLD.players next) <= NectoObsOLD.n_players old ->
      j < length (NectoObsOLD.players next) ->
      exists old'' r', NectoObsOLD.build_obs locs old' j next action = (old'', Some r').
Proof.
  intros Hlr Hlc Hbt Hbtl Hdt Hdtl Hfresh Hpads Hn Hi.
  assert (Hcall : forall b nxt j action cb cd,
             NectoObsOLD.boost_timers b = Some cb -> len cb = 34 ->
             NectoObsOLD.demo_timers b = Some cd -> len cd = NectoObsOLD.n_players b ->
             match NectoObsOLD.current_state b with
             | Some id => id =? NectoObsOLD.ident nxt
             | None => false
             end = false ->
             len (NectoObsOLD.boost_pads nxt) = 34 ->
             length (NectoObsOLD.players nxt) <= NectoObsOLD.n_players b ->
             j < length (NectoObsOLD.players nxt) ->
             exists b' r, NectoObsOLD.build_obs locs b j nxt action = (b', Some r) /\
                          NectoObsOLD._maybe_update_obs locs b nxt = (b', Some tt)).
  { intros b nxt j action cb cd Hb Hbl Hd Hdl Hf Hp Hle Hj.
    destruct (legacy_update_spec locs b nxt cb cd)
      as (b' & Hup & _ & _ & _ & _ & _ & (stored & Hq & _) & (mk & Hm & _)); try assumption.
    destruct (nth_error (NectoObsOLD.players nxt) j) as [pj|] eqn:Hpj;
      [|apply nth_error_None in Hpj; lia].
    destruct (legacy_triple b' nxt j action pj _ _ stored mk Hpj Hq Hm ltac:(lia))
      as (q & kv & mask & Htriple & _).
    exists b'. eexists. split; [|exact Hup].
    rewrite (legacy_build_obs_of_update locs b b' nxt j action cb (Some tt) Hb Hup).
    cbn [bind]. rewrite Htriple. reflexivity. }
  destruct (Hcall old s i previous_action carried_boost carried_demo)
    as (old' & r & Hrun & Hup); try assumption.
  destruct (legacy_update_spec locs old s carried_boost carried_demo)
    as (old1 & Hup1 & Hcap & Hskip & Hcur & (pads & Hbt' & Hpl & Hp0)
        & (cars & Hdt' & Hcl & Hc0) & _); try assumption.
  assert (old1 = old') by congruence. subst old1.
  exists old', r, pads, cars.
  split; [exact Hrun|]. split; [exact Hcap|]. split; [exact Hskip|].
  split; [exact Hbt'|]. split; [exact Hpl|]. split; [exact Hdt'|]. split; [exact Hcl|].
  split; [intros b; split; [apply Hp0|apply Hc0]|].
  intros next j action Hid Hpads' Hn' Hj.
  destruct (Hcall old' next j action pads cars) as (old'' & r' & Hrun' & _);
    try assumption.
  - congruence.
  - rewrite Hcur. apply Nat.eqb_neq. congruence.
  - rewrite Hcap. exact Hn'.
  - exists old'', r'. exact Hrun'.
Qed.

Lemma legacy_build_obs_keeps_encoder_ready_witness :
  exists old' r pads,
    NectoObsOLD.build_obs BOOST_LOCATIONS (fresh_old_builder 6) 0 two_players_state no_action
    = (old', Some r) /\
    NectoObsOLD.boost_timers old' = Some pads /\ len pads = 34.
Proof.
  destruct (legacy_build_obs_keeps_encoder_ready BOOST_LOCATIONS (fresh_old_builder 6)
              two_players_state 0 no_action
              (of_list (repeat 0%Q 34)) (of_list (repeat 0%Q 6)))
    as (old' & r & pads & cars & Hrun & _ & _ & Hp & Hl & _);
    try reflexivity; try (cbn; lia).
  exists old', r, pads. split; [exact Hrun|]. split; [exact Hp|exact Hl].
Defined.

(** ** The non-batched encoder: more players than slots *)

Lemma add_players_overflow (ps : list NectoObsOLD.PlayerData) :
  forall n n_rows cap qkv demos,
    1 <= n -> n - 1 <= cap -> cap < n - 1 + length ps ->
    NectoObsOLD.add_players n_rows cap ps n qkv demos = None.
Proof.
  induction ps as [|a ps IH]; intros n n_rows cap qkv demos Hn Hlo Hhi.
  - cbn [length] in Hhi. lia.
  - cbn [length] in Hhi. cbn [NectoObsOLD.add_players].
    destruct (guard (n <? n_rows)); [|reflexivity]. cbn [bind].
    destruct (n - 1 <? cap) eqn:E; [|reflexivity]. cbn [guard bind].
    apply Nat.ltb_lt in E. apply IH; lia.
Qed.

(** On a new state with more players than the encoder has slots the call
    raises, whichever player is asked for ([demos] has one cell per slot),
    but only after line 44 has recorded the state as the current one, and
    before the timers or the stored tensor are touched.  Every further call
    for that state therefore skips the update and answers from what the
    encoder stored for the state before: it raises when nothing is stored,
    and otherwise builds its triple from that earlier tensor. *)
Theorem legacy_build_obs_too_many_players (locs : arr2) (old : NectoObsOLD.Builder)
        (s : NectoObsOLD.GameState) (i : nat) (previous_action carried_boost : arr1) :
  NectoObsOLD.boost_timers old = Some carried_boost ->
  match NectoObsOLD.current_state old with
  | Some id => id =? NectoObsOLD.ident s
  | None => false
  end = false ->
  NectoObsOLD.n_players old < length (NectoObsOLD.players s) ->
  let seen :=
    {| NectoObsOLD.n_players := NectoObsOLD.n_players old;
       NectoObsOLD.tick_skip := NectoObsOLD.tick_skip old;
       NectoObsOLD.demo_timers := NectoObsOLD.demo_timers old;
       NectoObsOLD.boost_timers := NectoObsOLD.boost_timers old;
       NectoObsOLD.current_state := Some (NectoObsOLD.ident s);
       NectoObsOLD.current_qkv := NectoObsOLD.current_qkv old;
       NectoObsOLD.current_mask := NectoObsOLD.current_mask old |} in
  NectoObsOLD.build_obs locs old i s previous_action = (seen, None) /\
  forall j action,
    NectoObsOLD.build_obs locs seen j s action
    = (seen, NectoObsOLD.triple_of old j s action) /\
    (NectoObsOLD.current_qkv old = None -> NectoObsOLD.triple_of old j s action = None) /\
    (forall the_player n_rows n_mask stored stored_mask,
        nth_error (NectoObsOLD.players s) j = Some the_player ->
        NectoObsOLD.current_qkv old = Some (n_rows, stored) ->
        NectoObsOLD.current_mask old = Some (n_mask, stored_mask) ->
        j + 1 < n_rows ->
        exists q kv mask,
          NectoObsOLD.triple_of old j s action = Some (NectoObsOLD.Triple q kv mask) /\
          forall t e c, 11 <= c < 24 ->
            at3 kv t e c
            = if NectoObsOLD.team_num the_player =? NectoObsOLD.ORANGE_TEAM
              then (stored e c * nth c NectoObsOLD._invert 1)%Q
              else stored e c).
Proof.
  intros Hbt Hfresh Hn seen. split.
  - unfold NectoObsOLD.build_obs. rewrite Hbt.
    unfold NectoObsOLD._maybe_update_obs. rewrite Hfresh, Hbt. cbv zeta.
    cbn [NectoObsOLD.n_players NectoObsOLD.tick_skip NectoObsOLD.demo_timers
                   NectoObsOLD.boost_timers NectoObsOLD.current_state
                   NectoObsOLD.current_qkv NectoObsOLD.current_mask].
    rewrite add_players_overflow by lia. cbn [bind fst snd].
    subst seen. rewrite Hbt. reflexivity.
  - intros j action. split; [|split].
    + unfold NectoObsOLD.build_obs. subst seen.
      cbn [NectoObsOLD.boost_timers]. rewrite Hbt.
      unfold NectoObsOLD._maybe_update_obs.
      cbn [NectoObsOLD.current_state]. rewrite Nat.eqb_refl. reflexivity.
    + intros Hnone. unfold NectoObsOLD.triple_of. rewrite Hnone.
      destruct (nth_error (NectoObsOLD.players s) j); reflexivity.
    + intros p n_rows n_mask stored mk Hp Hq Hm Hj.
      destruct (legacy_triple old s j action p _ _ stored mk Hp Hq Hm Hj)
        as (q & kv & mask & Htriple & _ & _ & _ & _ & _ & _ & _ & Hkv).
      exists q, kv, mask. split; [exact Htriple|].
      intros t e c Hc. cbv zeta in Hkv. rewrite Hkv.
      replace (in_slice (5, 11) c) with false
        by (symmetry; unfold in_slice; cbn [start stop fst snd];
            destruct (Nat.leb_spec 5 c), (Nat.ltb_spec c 11); try reflexivity; lia).
      apply old_canon_value. lia.
Qed.

Lemma legacy_build_obs_too_many_players_witness :
  let old :=
    fst (NectoObsOLD.build_obs BOOST_LOCATIONS (fresh_old_builder 2) 0 two_players_state
                               no_action) in
  let seen := fst (NectoObsOLD.build_obs BOOST_LOCATIONS old 0 three_players_state no_action) in
  snd (NectoObsOLD.build_obs BOOST_LOCATIONS old 0 three_players_state no_action) = None /\
  NectoObsOLD.current_state seen = Some 2 /\
  old_kv_cell (NectoObsOLD.build_obs BOOST_LOCATIONS seen 0 three_players_state no_action)
              0 19
  = old_kv_cell (NectoObsOLD.build_obs BOOST_LOCATIONS (fresh_old_builder 2) 0
                                       two_players_state no_action) 0 19 /\
  differ (old_kv_cell (NectoObsOLD.build_obs BOOST_LOCATIONS seen 0 three_players_state
                                             no_action) 0 19)
         (Some (3 / (55 # 10))%Q) = true.
Proof.
  intros old seen.
  destruct (legacy_build_obs_too_many_players BOOST_LOCATIONS old three_players_state 0
              no_action
              (match NectoObsOLD.boost_timers old with
               | Some a => a
               | None => of_list []
               end))
    as [Hraise Hnext].
  - reflexivity.
  - reflexivity.
  - cbn. lia.
  - subst seen. rewrite Hraise. cbn [fst snd NectoObsOLD.current_state].
    split; [reflexivity|]. split; [reflexivity|].
    destruct (Hnext 0 no_action) as (Hagain & _). rewrite Hagain.
    split; vm_compute; reflexivity.
Defined.

(** ** A capacity below the player count *)

(** With a capacity [lim] below the player count [n] (and [n <= lim + 35])
    the builder does not raise: it returns [n] triples of [lim + 35] rows
    with nothing masked, and the row of the ball, row [lim], keeps the ball
    flag but holds player [lim]'s position and horizontal velocity in place
    of the ball's. *)
Theorem capacity_below_player_count (L : StateLayout) (M : NumpyMath) (locs : arr2)
        (mem : array_id -> nat -> nat -> Q) (self : Builder) (encoded_states : arr2)
        (n slack lim : nat) :
  layout_ok L -> batch_ok L locs self encoded_states n slack lim ->
  slack <= 1 -> lim < n <= lim + 35 ->
  exists self' obs,
    batched_build_obs L M locs (unchecked mem) self encoded_states = Some (self', obs) /\
    length obs = n /\
    forall i o, nth_error obs i = Some o ->
      cols (obs_m o) = lim + 35 /\
      dim1 (obs_kv o) = lim + 35 /\
      (forall t e, at2 (obs_m o) t e = 0%Q) /\
      forall t,
        let row := at3 (obs_kv o) t lim in
        let car k := player_field L encoded_states lim t k in
        let side := mirror (orange (teams_of L encoded_states) i) in
        row IS_BALL = 1%Q /\
        row 5 == side * car (SC_CAR_POS_X L) / 2300 /\
        row 6 == side * car (SC_CAR_POS_X L + 1) / 2300 /\
        row 7 == car (SC_CAR_POS_X L + 2) / 2300 /\
        row 8 == side * car (SC_CAR_LINEAR_VEL_X L) / 2300 /\
        row 9 == side * car (SC_CAR_LINEAR_VEL_X L + 1) / 2300.
Proof.
  intros HL HB Hs Hn.
  destruct (batched_build_obs_runs_over L M locs mem self encoded_states n slack lim HL HB Hs
              ltac:(lia))
    as (dt & kv0 & kv & self' & Hball & Hcell & Hrun).
  exists self'. eexists. split; [exact Hrun|]. unfold finish_obs.
  split; [apply tab_length|].
  intros i o Ho. apply tab_nth_error in Ho. destruct Ho as [Hi ->].
  cbn [obs_kv obs_m at3 at2 cols dim1]. cbv zeta.
  split; [lia|]. split; [lia|]. split.
  { intros t e. destruct (Nat.leb_spec n e), (Nat.ltb_spec e lim); try reflexivity; lia. }
  intros t.
  assert (E : (lim <? n) = true) by (apply Nat.ltb_lt; lia).
  split.
  - rewrite add_relative_components_keeps by (cbv [IS_BALL]; lia).
    destruct (canon_kind (orange (teams_of L encoded_states)) kv i t lim)
      as (_ & _ & _ & -> & _).
    rewrite Hcell, E. unfold player_cell. cbn [Nat.eqb IS_BALL IS_SELF in_slice start stop
      POS LIN_VEL FW UP ANG_VEL fst snd Nat.leb Nat.ltb andb BOOST DEMO ON_GROUND HAS_FLIP
      HAS_JUMP].
    apply Hball.
  - repeat split;
      rewrite add_relative_components_keeps by lia;
      rewrite canon_value by lia;
      rewrite Hcell, E; unfold player_cell, mirror;
      cbn [Nat.eqb IS_SELF in_slice start stop POS LIN_VEL fst snd Nat.leb Nat.ltb andb
           Nat.sub];
      vm_compute (nth _ _invert _); vm_compute (nth _ _norm _);
      rewrite ?Nat.add_0_r;
      destruct (orange (teams_of L encoded_states) i); unfold Qdiv; ring.
Qed.

Lemma capacity_below_player_count_witness :
  exists self' obs,
    batched_build_obs rlgym_layout zero_angle_math BOOST_LOCATIONS (unchecked stray_ones)
                      (fresh_builder (Some 1) 2) two_players_one_tick = Some (self', obs) /\
    length obs = 2 /\
    forall i o, nth_error obs i = Some o -> cols (obs_m o) = 36.
Proof.
  destruct (capacity_below_player_count rlgym_layout zero_angle_math BOOST_LOCATIONS
              stray_ones (fresh_builder (Some 1) 2) two_players_one_tick 2 0 1)
    as (self' & obs & Hrun & Hlen & Hobs).
  - exact rlgym_layout_ok.
  - constructor; cbn; try lia; try reflexivity; eexists; split; reflexivity.
  - lia.
  - lia.
  - exists self', obs. split; [exact Hrun|]. split; [exact Hlen|].
    intros i o Ho. destruct (Hobs i o Ho) as (H & _). exact H.
Defined.

(** ** The non-batched encoder: before and after reset *)

(** Before [reset] the encoder answers every call with the empty array and
    stays as it is; after [reset] on a state of 34 pads it returns a triple
    for every player of a state with no more players than slots. *)
Theorem legacy_reset_then_build (locs : arr2) (fresh : NectoObsOLD.Builder)
        (initial_state s : NectoObsOLD.GameState) (i : nat) (previous_action : arr1) :
  rows locs = 34 -> cols locs = 3 ->
  NectoObsOLD.boost_timers fresh = None ->
  NectoObsOLD.current_state fresh = None ->
  len (NectoObsOLD.boost_pads initial_state) = 34 ->
  len (NectoObsOLD.boost_pads s) = 34 ->
  length (NectoObsOLD.players s) <= NectoObsOLD.n_players fresh ->
  i < length (NectoObsOLD.players s) ->
  NectoObsOLD.build_obs locs fresh i s previous_action
  = (fresh, Some NectoObsOLD.Autodetect) /\
  exists old' q kv mask,
    NectoObsOLD.build_obs locs (NectoObsOLD.reset fresh initial_state) i s previous_action
    = (old', Some (NectoObsOLD.Triple q kv mask)) /\
    dim1 kv = 1 + NectoObsOLD.n_players fresh + 34 /\
    cols mask = 1 + NectoObsOLD.n_players fresh + 34.
Proof.
  intros Hlr Hlc Hbt Hcur Hpads0 Hpads Hn Hi. split.
  - unfold NectoObsOLD.build_obs. rewrite Hbt. reflexivity.
  - destruct (legacy_build_obs_kind locs (NectoObsOLD.reset fresh initial_state) s i
                previous_action
                {| len := len (NectoObsOLD.boost_pads initial_state); at1 := fun _ => 0%Q |}
                {| len := NectoObsOLD.n_players fresh; at1 := fun _ => 0%Q |})
      as (old' & q & kv & mask & p & Hrun & _ & Hd1 & _ & Hc & _);
      try assumption; try reflexivity.
    + cbn [NectoObsOLD.reset NectoObsOLD.current_state]. rewrite Hcur. reflexivity.
    + exists old', q, kv, mask. split; [exact Hrun|]. split; [exact Hd1|exact Hc].
Qed.

Lemma legacy_reset_then_build_witness :
  exists old' q kv mask,
    NectoObsOLD.build_obs BOOST_LOCATIONS
      (NectoObsOLD.reset
         {| NectoObsOLD.n_players := 6; NectoObsOLD.tick_skip := 8%Q;
            NectoObsOLD.demo_timers := None; NectoObsOLD.boost_timers := None;
            NectoObsOLD.current_state := None; NectoObsOLD.current_qkv := None;
            NectoObsOLD.current_mask := None |}
         two_players_state)
      0 two_players_state no_action
    = (old', Some (NectoObsOLD.Triple q kv mask)) /\
    dim1 kv = 41.
Proof.
  destruct (legacy_reset_then_build BOOST_LOCATIONS
              {| NectoObsOLD.n_players := 6; NectoObsOLD.tick_skip := 8%Q;
                 NectoObsOLD.demo_timers := None; NectoObsOLD.boost_timers := None;
                 NectoObsOLD.current_state := None; NectoObsOLD.current_qkv := None;
                 NectoObsOLD.current_mask := None |}
              two_players_state two_players_state 0 no_action)
    as (_ & old' & q & kv & mask & Hrun & Hd & _);
    try reflexivity; try (cbn; lia).
  exists old', q, kv, mask. split; [exact Hrun|exact Hd].
Defined.
